(** * HabitFlow: the data-access layer of the client, over a model of the
    hosted relational backend.

    The React components of [src/components] are embedded as state
    transformers over a [World]: the component's own view state, the backend
    database (tables of [supabase/migrations]), a script of network faults,
    the wall clock, and the trace of observable events (backend requests,
    toasts, console lines).  *)

From Stdlib Require Import ZArith List String Ascii Bool Lia Permutation.
From Stdlib Require Import Sorting.Sorted.
From Stdlib Require Import Floats.PrimFloat Floats.FloatOps Floats.SpecFloat.
From Stdlib Require Import Numbers.Cyclic.Int63.Uint63.
Import ListNotations.
Open Scope Z_scope.

Set Implicit Arguments.

(* ================================================================= *)
(** ** Values of the JavaScript side *)

(** Identifiers are uuids; only equality and freshness matter. *)
Definition uuid := nat.

(** Free text typed by the user, as UTF-16 code units. *)
Definition jstext := list N.

(** Instants are milliseconds since the epoch, as [Date.getTime()]. *)
Definition instant := Z.

(** A calendar date [yyyy-MM-dd], as its day number since 1970-01-01. *)
Definition date := Z.

Definition DAY : Z := 86400000.

(** [WhiteSpace] and [LineTerminator] code points of ECMAScript, the ones
    [String.prototype.trim] strips. *)
Definition isWhiteSpace (c : N) : bool :=
  let c := Z.of_N c in
  (c =? 9) || (c =? 10) || (c =? 11) || (c =? 12) || (c =? 13) || (c =? 32)
  || (c =? 160) || (c =? 5760) || ((8192 <=? c) && (c <=? 8202))
  || (c =? 8232) || (c =? 8233) || (c =? 8239) || (c =? 8287)
  || (c =? 12288) || (c =? 65279).

Fixpoint trimStart (s : jstext) : jstext :=
  match s with
  | [] => []
  | c :: s' => if isWhiteSpace c then trimStart s' else s
  end.

Definition trimEnd (s : jstext) : jstext := rev (trimStart (rev s)).

Definition trim (s : jstext) : jstext := trimEnd (trimStart s).

(** Truthiness of a string: non-empty. *)
Definition truthy (s : jstext) : bool :=
  match s with [] => false | _ => true end.

(** [s || null] *)
Definition orNull (s : jstext) : option jstext :=
  if truthy s then Some s else None.

(** Numbers are IEEE doubles.  Array lengths are below 2^32, so their
    conversion is exact. *)
Definition of_Z (n : Z) : float := PrimFloat.of_uint63 (Uint63.of_Z n).

(** [Math.round]: the integer nearest to [x], ties towards +infinity,
    computed on the exact value of the double.  (NaN and the infinities are
    mapped to 0; no caller below reaches them.) *)
Definition Math_round (x : float) : Z :=
  match Prim2SF x with
  | S754_finite s m e =>
      let v := if s then Z.neg m else Z.pos m in
      if 0 <=? e then v * 2 ^ e
      else (2 * v + 2 ^ (- e)) / 2 ^ (1 - e)
  | _ => 0
  end.

(** The date part of [format(t, 'yyyy-MM-dd')] in a zone [tz] milliseconds
    east of UTC. *)
Definition format_date (tz : Z) (t : instant) : date := (t + tz) / DAY.

(** The instant a zone-less literal [<d>T<hh:mm:ss>] denotes when it is read
    in zone [tz]; [ms] is the time of day in milliseconds. *)
Definition at_wall_clock (tz : Z) (d : date) (ms : Z) : instant :=
  d * DAY + ms - tz.

Definition T00_00_00 : Z := 0.
Definition T23_59_59 : Z := 86399000.

Definition subDays (t : instant) (n : Z) : instant := t - n * DAY.

(** date-fns [startOfWeek] and [endOfWeek] (weeks start on Sunday), on
    dates; 1970-01-01 was a Thursday. *)
Definition startOfWeek (d : date) : date := d - (d + 4) mod 7.
Definition endOfWeek (d : date) : date := startOfWeek d + 6.

(* ================================================================= *)
(** ** The database: tables, constraints and row-level security *)

Module Pg.

Inductive Frequency := daily | weekly.
Inductive Difficulty := easy | medium | hard.

Record HabitRow := mkHabitRow {
  h_id : uuid;
  h_user_id : uuid;
  h_title : string;
  h_description : option string;
  h_category : string;
  h_frequency : Frequency;
  h_target_count : Z;
  h_difficulty : Difficulty;
  h_is_active : bool;
  h_created_at : instant;
  h_updated_at : instant;
  h_icon : string;
  h_color : string
}.

Record CompletionRow := mkCompletionRow {
  hc_id : uuid;
  hc_habit_id : uuid;
  hc_user_id : uuid;
  hc_completed_at : instant;
  hc_proof_image_url : option string;
  hc_notes : option string;
  hc_mood_rating : option Z
}.

Record ChallengeRow := mkChallengeRow {
  c_id : uuid;
  c_title : string;
  c_description : string;
  c_creator_id : uuid;
  c_start_date : date;
  c_end_date : date;
  c_is_active : bool;
  c_max_participants : option Z;
  c_created_at : instant
}.

Record ParticipantRow := mkParticipantRow {
  cp_id : uuid;
  cp_challenge_id : uuid;
  cp_user_id : uuid;
  cp_joined_at : instant
}.

Record MoodRow := mkMoodRow {
  m_id : uuid;
  m_user_id : uuid;
  m_mood_rating : Z;
  m_reflection : option jstext;
  m_created_at : instant
}.

Record Db := mkDb {
  habits : list HabitRow;
  habit_completions : list CompletionRow;
  challenges : list ChallengeRow;
  challenge_participants : list ParticipantRow;
  mood_entries : list MoodRow;
  next_uuid : uuid
}.

Definition empty_db : Db := mkDb [] [] [] [] [] 0%nat.

Inductive table :=
  | t_habits | t_habit_completions | t_challenges
  | t_challenge_participants | t_mood_entries.

(** What a request can come back with instead of data. *)
Inductive PgError :=
  | NetworkError (msg : string)
  | RlsViolation (t : table)
  | CheckViolation (t : table)
  | UniqueViolation (t : table)
  | ForeignKeyViolation (t : table)
  | NotSingleRow.

Definition table_name (t : table) : string :=
  match t with
  | t_habits => "habits"
  | t_habit_completions => "habit_completions"
  | t_challenges => "challenges"
  | t_challenge_participants => "challenge_participants"
  | t_mood_entries => "mood_entries"
  end.

(** The wording of the backend's messages is not part of the repository;
    the handlers only paste [error.message] into their toasts. *)
Definition message (e : PgError) : string :=
  match e with
  | NetworkError msg => msg
  | RlsViolation t =>
      "new row violates row-level security policy for table " ++ table_name t
  | CheckViolation t =>
      "new row violates check constraint of relation " ++ table_name t
  | UniqueViolation t =>
      "duplicate key value violates unique constraint of " ++ table_name t
  | ForeignKeyViolation t =>
      "insert or update violates foreign key constraint of " ++ table_name t
  | NotSingleRow => "JSON object requested, multiple (or no) rows returned"
  end.

Inductive response (A : Type) :=
  | Ok (data : A)
  | Err (error : PgError).
Arguments Err {A} error.

(** [ORDER BY key DESC]; rows with equal keys keep their order. *)
Fixpoint insert_desc {A} (key : A -> Z) (x : A) (l : list A) : list A :=
  match l with
  | [] => [x]
  | y :: l' => if key y <=? key x then x :: l else y :: insert_desc key x l'
  end.

Definition order_desc {A} (key : A -> Z) (l : list A) : list A :=
  fold_right (insert_desc key) [] l.

(** *** Payloads of the writes the client issues *)

Record HabitInsert := mkHabitInsert {
  hi_user_id : uuid;
  hi_title : string;
  hi_description : option string;
  hi_category : string;
  hi_frequency : Frequency;
  hi_target_count : Z;
  hi_difficulty : Difficulty;
  hi_icon : string;
  hi_color : string
}.

(** The two shapes of [update] on [habits]: [{ is_active }] and the whole
    form. *)
Inductive HabitPatch :=
  | SetActive (is_active : bool)
  | SetData (habitData : HabitInsert).

Record CompletionInsert := mkCompletionInsert {
  ci_habit_id : uuid;
  ci_user_id : uuid;
  ci_completed_at : instant
}.

(** *** Shapes of the rows the reads return *)

Record CompletionView := mkCompletionView {
  completed_at : instant;
  mood_rating : option Z
}.

(** A habit as a select of all columns with [habit_completions (completed_at, mood_rating)] embedded
    returns it.  The embedded rows come under the key [habit_completions];
    the key [completions] of the client's [Habit] interface is not part of
    the answer, so it is [None] (undefined) on every fetched habit. *)
Record Habit := mkHabit {
  habit_row : HabitRow;
  habit_completions_ : list CompletionView;
  completions : option (list CompletionView)
}.

(** A completion with its habit embedded under [habits]. *)
Record CompletionWithHabit := mkCompletionWithHabit {
  completion_row : CompletionRow;
  habits_ : option HabitRow
}.

Section Session.

(** [auth.uid()] of the session the request carries, [now()], and the
    time zone in which the server reads zone-less timestamp literals. *)
Variable auth : uuid.
Variable now : instant.
Variable server_tz : Z.

Definition set_habits (l : list HabitRow) (d : Db) : Db :=
  mkDb l (habit_completions d) (challenges d) (challenge_participants d)
       (mood_entries d) (next_uuid d).
Definition set_habit_completions (l : list CompletionRow) (d : Db) : Db :=
  mkDb (habits d) l (challenges d) (challenge_participants d)
       (mood_entries d) (next_uuid d).
Definition set_challenge_participants (l : list ParticipantRow) (d : Db) : Db :=
  mkDb (habits d) (habit_completions d) (challenges d) l
       (mood_entries d) (next_uuid d).
Definition set_mood_entries (l : list MoodRow) (d : Db) : Db :=
  mkDb (habits d) (habit_completions d) (challenges d)
       (challenge_participants d) l (next_uuid d).
Definition bump_uuid (n : nat) (d : Db) : Db :=
  mkDb (habits d) (habit_completions d) (challenges d)
       (challenge_participants d) (mood_entries d) (next_uuid d + n)%nat.

(** **** habits: policy "Users can manage own habits" (ALL, using
    [auth.uid() = user_id]). *)

Definition new_habit (id : uuid) (r : HabitInsert) : HabitRow :=
  mkHabitRow id (hi_user_id r) (hi_title r) (hi_description r)
    (hi_category r) (hi_frequency r) (hi_target_count r) (hi_difficulty r)
    true now now (hi_icon r) (hi_color r).

Fixpoint new_habits (id : uuid) (rows : list HabitInsert) : list HabitRow :=
  match rows with
  | [] => []
  | r :: rows' => new_habit id r :: new_habits (S id) rows'
  end.

Definition insert_habits (rows : list HabitInsert) (d : Db)
  : response unit * Db :=
  if forallb (fun r => Nat.eqb (hi_user_id r) auth) rows then
    (Ok tt,
     bump_uuid (List.length rows)
       (set_habits (habits d ++ new_habits (next_uuid d) rows) d))
  else (Err (RlsViolation t_habits), d).

Definition patch_habit (p : HabitPatch) (h : HabitRow) : HabitRow :=
  match p with
  | SetActive b =>
      mkHabitRow (h_id h) (h_user_id h) (h_title h) (h_description h)
        (h_category h) (h_frequency h) (h_target_count h) (h_difficulty h)
        b (h_created_at h) now (h_icon h) (h_color h)
  | SetData r =>
      mkHabitRow (h_id h) (hi_user_id r) (hi_title r) (hi_description r)
        (hi_category r) (hi_frequency r) (hi_target_count r)
        (hi_difficulty r) (h_is_active h) (h_created_at h) now
        (hi_icon r) (hi_color r)
  end.

Definition habit_targeted (id : uuid) (h : HabitRow) : bool :=
  Nat.eqb (h_id h) id && Nat.eqb (h_user_id h) auth.

(** [update(p).eq('id', id)]: the rows the policy lets the session see are
    patched; a patched row that leaves the policy aborts the statement. *)
Definition update_habit (id : uuid) (p : HabitPatch) (d : Db)
  : response unit * Db :=
  let patched :=
    map (fun h => if habit_targeted id h then patch_habit p h else h)
        (habits d) in
  if forallb (fun h => negb (habit_targeted id h)
                       || Nat.eqb (h_user_id (patch_habit p h)) auth)
             (habits d)
  then (Ok tt, set_habits patched d)
  else (Err (RlsViolation t_habits), d).

Definition view_completion (c : CompletionRow) : CompletionView :=
  mkCompletionView (hc_completed_at c) (hc_mood_rating c).

Definition completions_of (h : HabitRow) (d : Db) : list CompletionRow :=
  filter (fun c => Nat.eqb (hc_habit_id c) (h_id h)
                   && Nat.eqb (hc_user_id c) auth)
         (habit_completions d).

Definition embed_completions (d : Db) (h : HabitRow) : Habit :=
  mkHabit h (map view_completion (completions_of h d)) None.

Definition active_habits_of (user_id : uuid) (d : Db) : list HabitRow :=
  filter (fun h => Nat.eqb (h_user_id h) auth
                   && Nat.eqb (h_user_id h) user_id && h_is_active h)
         (habits d).

(** All columns with [habit_completions] embedded,
    [.eq('user_id', u).eq('is_active', true).order('created_at', desc)] *)
Definition select_habits (user_id : uuid) (d : Db) : response (list Habit) * Db :=
  (Ok (map (embed_completions d)
           (order_desc h_created_at (active_habits_of user_id d))), d).

(** All columns, [.eq('user_id', u).eq('is_active', true)] *)
Definition select_active_habits (user_id : uuid) (d : Db)
  : response (list HabitRow) * Db :=
  (Ok (active_habits_of user_id d), d).

(** All columns with [habit_completions!inner] embedded (habits without
    a completion are dropped), [.limit(5).order('updated_at', desc)] *)
Definition select_recent_habits (user_id : uuid) (d : Db)
  : response (list Habit) * Db :=
  (Ok (firstn 5
         (order_desc (fun h => h_updated_at (habit_row h))
            (filter (fun h => match habit_completions_ h with
                              | [] => false
                              | _ => true
                              end)
                    (map (embed_completions d) (active_habits_of user_id d))))),
   d).

(** **** habit_completions: policy "Users can manage own completions";
    [habit_id] references [habits]. *)

Definition insert_completion (r : CompletionInsert) (d : Db)
  : response unit * Db :=
  if negb (Nat.eqb (ci_user_id r) auth) then
    (Err (RlsViolation t_habit_completions), d)
  else if negb (existsb (fun h => Nat.eqb (h_id h) (ci_habit_id r)) (habits d))
  then (Err (ForeignKeyViolation t_habit_completions), d)
  else
    (Ok tt,
     bump_uuid 1
       (set_habit_completions
          (habit_completions d
           ++ [mkCompletionRow (next_uuid d) (ci_habit_id r) (ci_user_id r)
                 (ci_completed_at r) None None None]) d)).

Definition own_completions (user_id : uuid) (d : Db) : list CompletionRow :=
  filter (fun c => Nat.eqb (hc_user_id c) auth
                   && Nat.eqb (hc_user_id c) user_id)
         (habit_completions d).

(** All columns, [.eq('user_id', u).gte('completed_at', lo)
    .lt('completed_at', hi)], the bounds being zone-less literals. *)
Definition select_completions_between (user_id : uuid)
    (lo hi : date * Z) (d : Db) : response (list CompletionRow) * Db :=
  (Ok (filter (fun c =>
                 (at_wall_clock server_tz (fst lo) (snd lo)
                    <=? hc_completed_at c)
                 && (hc_completed_at c
                       <? at_wall_clock server_tz (fst hi) (snd hi)))
              (own_completions user_id d)), d).

Definition embed_habit (d : Db) (c : CompletionRow) : CompletionWithHabit :=
  mkCompletionWithHabit c
    (find (fun h => Nat.eqb (h_id h) (hc_habit_id c)
                    && Nat.eqb (h_user_id h) auth) (habits d)).

(** All columns with [habits] embedded, [.eq('user_id', u)
    .gte('completed_at', lo)], [lo] a bare date. *)
Definition select_completions_since (user_id : uuid) (lo : date) (d : Db)
  : response (list CompletionWithHabit) * Db :=
  (Ok (map (embed_habit d)
         (filter (fun c => at_wall_clock server_tz lo T00_00_00
                             <=? hc_completed_at c)
                 (own_completions user_id d))), d).

(** **** challenge_participants: [UNIQUE(challenge_id, user_id)];
    policies "Users can join challenges" (insert, check
    [auth.uid() = user_id]), "Users can leave challenges" (delete, using
    [auth.uid() = user_id]), and select for everybody. *)

Definition participates (challenge_id user_id : uuid) (p : ParticipantRow)
  : bool :=
  Nat.eqb (cp_challenge_id p) challenge_id && Nat.eqb (cp_user_id p) user_id.

Definition insert_participant (challenge_id user_id : uuid) (d : Db)
  : response unit * Db :=
  if negb (Nat.eqb user_id auth) then
    (Err (RlsViolation t_challenge_participants), d)
  else if existsb (participates challenge_id user_id)
                  (challenge_participants d)
  then (Err (UniqueViolation t_challenge_participants), d)
  else if negb (existsb (fun c => Nat.eqb (c_id c) challenge_id)
                        (challenges d))
  then (Err (ForeignKeyViolation t_challenge_participants), d)
  else
    (Ok tt,
     bump_uuid 1
       (set_challenge_participants
          (challenge_participants d
           ++ [mkParticipantRow (next_uuid d) challenge_id user_id now]) d)).

(** [delete().eq('challenge_id', c).eq('user_id', u)] *)
Definition delete_participant (challenge_id user_id : uuid) (d : Db)
  : response unit * Db :=
  (Ok tt,
   set_challenge_participants
     (filter (fun p => negb (participates challenge_id user_id p
                             && Nat.eqb (cp_user_id p) auth))
             (challenge_participants d)) d).

(** [select('challenge_id').eq('user_id', u)] *)
Definition select_participations (user_id : uuid) (d : Db)
  : response (list uuid) * Db :=
  (Ok (map cp_challenge_id
         (filter (fun p => Nat.eqb (cp_user_id p) user_id)
                 (challenge_participants d))), d).

(** **** mood_entries: [mood_rating] checked in 1..5; policy "Users can
    manage own mood entries". *)

Definition valid_rating (r : Z) : bool := (1 <=? r) && (r <=? 5).

Definition own_moods (user_id : uuid) (d : Db) : list MoodRow :=
  filter (fun m => Nat.eqb (m_user_id m) auth
                   && Nat.eqb (m_user_id m) user_id)
         (mood_entries d).

(** [.eq('user_id', u).order('created_at', desc).limit(30)] *)
Definition select_mood_entries (user_id : uuid) (d : Db)
  : response (list MoodRow) * Db :=
  (Ok (firstn 30 (order_desc m_created_at (own_moods user_id d))), d).

Definition moods_between (user_id : uuid) (lo hi : date * Z) (d : Db)
  : list MoodRow :=
  filter (fun m =>
            (at_wall_clock server_tz (fst lo) (snd lo) <=? m_created_at m)
            && (m_created_at m
                  <? at_wall_clock server_tz (fst hi) (snd hi)))
         (own_moods user_id d).

(** [.eq('user_id', u).gte('created_at', lo).lt('created_at', hi)] *)
Definition select_moods_between (user_id : uuid) (lo hi : date * Z) (d : Db)
  : response (list MoodRow) * Db :=
  (Ok (moods_between user_id lo hi d), d).

(** The same with [select('id')] and [.single()]: an error unless exactly
    one row matches. *)
Definition select_mood_single (user_id : uuid) (lo hi : date * Z) (d : Db)
  : response uuid * Db :=
  match moods_between user_id lo hi d with
  | [m] => (Ok (m_id m), d)
  | _ => (Err NotSingleRow, d)
  end.

Definition mood_targeted (id : uuid) (m : MoodRow) : bool :=
  Nat.eqb (m_id m) id && Nat.eqb (m_user_id m) auth.

(** [update({ mood_rating, reflection }).eq('id', id)] *)
Definition update_mood (id : uuid) (rating : Z) (reflection : option jstext)
    (d : Db) : response unit * Db :=
  if existsb (mood_targeted id) (mood_entries d) && negb (valid_rating rating)
  then (Err (CheckViolation t_mood_entries), d)
  else
    (Ok tt,
     set_mood_entries
       (map (fun m => if mood_targeted id m
                      then mkMoodRow (m_id m) (m_user_id m) rating
                                     reflection (m_created_at m)
                      else m)
            (mood_entries d)) d).

(** [insert({ user_id, mood_rating, reflection })]; [created_at] defaults
    to [now()]. *)
Definition insert_mood (user_id : uuid) (rating : Z)
    (reflection : option jstext) (d : Db) : response unit * Db :=
  if negb (Nat.eqb user_id auth) then (Err (RlsViolation t_mood_entries), d)
  else if negb (valid_rating rating)
  then (Err (CheckViolation t_mood_entries), d)
  else
    (Ok tt,
     bump_uuid 1
       (set_mood_entries
          (mood_entries d
           ++ [mkMoodRow (next_uuid d) user_id rating reflection now]) d)).

End Session.

End Pg.

Import Pg.

(* ================================================================= *)
(** ** The world a component runs in *)

(** The requests the client sends, with their payloads. *)
Inductive request :=
  | SelectHabits (user_id : uuid)
  | SelectActiveHabits (user_id : uuid)
  | SelectRecentHabits (user_id : uuid)
  | InsertHabits (rows : list HabitInsert)
  | UpdateHabit (id : uuid) (patch : HabitPatch)
  | InsertCompletion (row : CompletionInsert)
  | SelectCompletionsBetween (user_id : uuid) (lo hi : date * Z)
  | SelectCompletionsSince (user_id : uuid) (lo : date)
  | SelectParticipations (user_id : uuid)
  | InsertParticipant (challenge_id user_id : uuid)
  | DeleteParticipant (challenge_id user_id : uuid)
  | SelectMoodEntries (user_id : uuid)
  | SelectMoodsBetween (user_id : uuid) (lo hi : date * Z)
  | SelectMoodSingle (user_id : uuid) (lo hi : date * Z)
  | UpdateMood (id : uuid) (mood_rating : Z) (reflection : option jstext)
  | InsertMood (user_id : uuid) (mood_rating : Z) (reflection : option jstext).

(** What an observer sees: requests with their outcome ([None]: success),
    toasts, and console lines. *)
Inductive event :=
  | Request (r : request) (error : option PgError)
  | toast_success (msg : string)
  | toast_error (msg : string)
  | console_error (msg : string).

(** [net] scripts the transport: the n-th request of a run is lost with
    message [m] when the n-th entry is [Some m], and reaches the database
    otherwise.  [clock] is the wall clock, one instant for the whole run of
    a handler, the same for the browser and for [now()] on the server.  The
    two zones are fixed offsets in milliseconds east of UTC: the one the
    browser formats dates in, and the one in which the server reads a
    timestamp literal that names no zone. *)
Record World (V : Type) := mkWorld {
  ui : V;
  db : Db;
  net : list (option string);
  clock : instant;
  client_tz : Z;
  server_tz : Z;
  trace : list event
}.

Definition M (V A : Type) : Type := World V -> A * World V.

Definition ret {V A} (a : A) : M V A := fun w => (a, w).

Definition bind {V A B} (m : M V A) (k : A -> M V B) : M V B :=
  fun w => let (a, w') := m w in k a w'.

Declare Scope js_scope.
Delimit Scope js_scope with js.
Notation "x <- m ;; k" := (bind m (fun x => k))
  (at level 61, m at next level, right associativity) : js_scope.
Notation "m ;; k" := (bind m (fun _ => k))
  (at level 61, right associativity) : js_scope.
Open Scope js_scope.

Definition exec {V A} (m : M V A) (w : World V) : World V := snd (m w).

Definition setState {V} (f : V -> V) : M V unit :=
  fun w => (tt, mkWorld (f (ui w)) (db w) (net w) (clock w) (client_tz w)
                        (server_tz w) (trace w)).

Definition emit {V} (e : event) : M V unit :=
  fun w => (tt, mkWorld (ui w) (db w) (net w) (clock w) (client_tz w)
                        (server_tz w) (trace w ++ [e])).

(** [new Date()] *)
Definition new_Date {V} : M V instant := fun w => (clock w, w).

(** The zone the browser formats dates in. *)
Definition timeZone {V} : M V Z := fun w => (client_tz w, w).

(** [format(new Date(), 'yyyy-MM-dd')] *)
Definition today {V} : M V date :=
  fun w => (format_date (client_tz w) (clock w), w).

Definition error_of {A} (r : response A) : option PgError :=
  match r with Ok _ => None | Err e => Some e end.

(** One awaited request: lost by the transport, or run by the database,
    which is handed its clock and its zone.  Either way the client gets
    [{ data, error }] back and nothing is thrown. *)
Definition supabase {V A} (r : request)
    (run : instant -> Z -> Db -> response A * Db) : M V (response A) :=
  fun w =>
    match net w with
    | Some msg :: net' =>
        (Err (NetworkError msg),
         mkWorld (ui w) (db w) net' (clock w) (client_tz w) (server_tz w)
                 (trace w ++ [Request r (Some (NetworkError msg))]))
    | _ =>
        let (res, d') := run (clock w) (server_tz w) (db w) in
        (res,
         mkWorld (ui w) d' (tl (net w)) (clock w) (client_tz w) (server_tz w)
                 (trace w ++ [Request r (error_of res)]))
    end.

Record User := mkUser { id : uuid; email : string }.

Definition getState {V} : M V V := fun w => (ui w, w).

(** [s || null] on a plain string. *)
Definition string_or_null (s : string) : option string :=
  match s with EmptyString => None | _ => Some s end.

(* ================================================================= *)
(** ** components/Habits/CreateHabitModal *)

Module CreateHabitModal.

Record FormData := mkFormData {
  title : string;
  description : string;
  category : string;
  frequency : Frequency;
  targetCount : Z;
  difficulty : Difficulty;
  icon : string;
  color : string
}.

Definition blank : FormData :=
  mkFormData "" "" "Health" daily 1 medium "🎯" "bg-purple-500".

Record State := mkState { formData : FormData; loading : bool }.

Definition init : State := mkState blank false.

Section Props.

(** The modal lives in a host view [V]; [onClose], [onSuccess] and
    [editHabit] are the props the host passes. *)
Variable V : Type.
Variable get : V -> State.
Variable set : State -> V -> V.
Variable onClose : M V unit.
Variable onSuccess : M V unit.
Variable editHabit : option Habit.

Definition setLoading (b : bool) : M V unit :=
  setState (fun v => set (mkState (formData (get v)) b) v).

Definition setFormData (f : FormData) : M V unit :=
  setState (fun v => set (mkState f (loading (get v))) v).

Definition handleSubmit (user : option User) : M V unit :=
  match user with
  | None => ret tt
  | Some u =>
      v <- getState ;;
      let formData := formData (get v) in
      setLoading true ;;
      let habitData :=
        mkHabitInsert (id u) (title formData)
          (string_or_null (description formData)) (category formData)
          (frequency formData) (targetCount formData)
          (difficulty formData) (icon formData) (color formData) in
      r <- match editHabit with
           | Some h =>
               r <- supabase (UpdateHabit (h_id (habit_row h))
                                          (SetData habitData))
                      (fun now _ =>
                         update_habit (id u) now (h_id (habit_row h))
                                      (SetData habitData)) ;;
               match r with
               | Err error => ret (Err error)
               | Ok _ =>
                   emit (toast_success "Habit updated successfully!") ;;
                   ret (Ok tt)
               end
           | None =>
               r <- supabase (InsertHabits [habitData])
                      (fun now _ => insert_habits (id u) now [habitData]) ;;
               match r with
               | Err error => ret (Err error)
               | Ok _ =>
                   emit (toast_success "Habit created successfully!") ;;
                   ret (Ok tt)
               end
           end ;;
      match r with
      | Ok _ => onSuccess ;; onClose ;; setFormData blank
      | Err error =>
          emit (toast_error ("Error saving habit: " ++ message error))
      end ;;
      setLoading false
  end.

(** The effect on [editHabit]: the form takes over the habit to edit. *)
Definition loadEditHabit : M V unit :=
  match editHabit with
  | Some h =>
      setFormData
        (mkFormData (h_title (habit_row h))
           (match h_description (habit_row h) with
            | Some d => d
            | None => ""
            end)
           (h_category (habit_row h)) (h_frequency (habit_row h))
           (h_target_count (habit_row h)) (h_difficulty (habit_row h))
           (h_icon (habit_row h)) (h_color (habit_row h)))
  | None => ret tt
  end.

End Props.

End CreateHabitModal.

(* ================================================================= *)
(** ** components/Habits/HabitsManager *)

Module HabitsManager.

Record State := mkState {
  habits : list Habit;
  loading : bool;
  showCreateModal : bool;
  selectedHabit : option Habit;
  modal : CreateHabitModal.State
}.

Definition init : State :=
  mkState [] true false None CreateHabitModal.init.

Definition setHabits (l : list Habit) (s : State) : State :=
  mkState l (loading s) (showCreateModal s) (selectedHabit s) (modal s).
Definition setLoading (b : bool) (s : State) : State :=
  mkState (habits s) b (showCreateModal s) (selectedHabit s) (modal s).
Definition setShowCreateModal (b : bool) (s : State) : State :=
  mkState (habits s) (loading s) b (selectedHabit s) (modal s).
Definition setSelectedHabit (h : option Habit) (s : State) : State :=
  mkState (habits s) (loading s) (showCreateModal s) h (modal s).
Definition setModal (m : CreateHabitModal.State) (s : State) : State :=
  mkState (habits s) (loading s) (showCreateModal s) (selectedHabit s) m.

Definition fetchHabits (user : option User) : M State unit :=
  match user with
  | None => ret tt
  | Some u =>
      r <- supabase (SelectHabits (id u))
             (fun _ _ => select_habits (id u) (id u)) ;;
      match r with
      | Ok data => setState (setHabits data)
      | Err error =>
          emit (toast_error ("Error fetching habits: " ++ message error))
      end ;;
      setState (setLoading false)
  end.

Definition completeHabit (user : option User) (habitId : uuid)
  : M State unit :=
  match user with
  | None => ret tt
  | Some u =>
      now <- new_Date ;;
      let row := mkCompletionInsert habitId (id u) now in
      r <- supabase (InsertCompletion row)
             (fun _ _ => insert_completion (id u) row) ;;
      match r with
      | Ok _ =>
          emit (toast_success "Habit completed! 🎉") ;;
          fetchHabits user
      | Err error =>
          emit (toast_error ("Error completing habit: " ++ message error))
      end
  end.

Definition deleteHabit (user : option User) (habitId : uuid)
  : M State unit :=
  match user with
  | None => ret tt
  | Some u =>
      r <- supabase (UpdateHabit habitId (SetActive false))
             (fun now _ => update_habit (id u) now habitId (SetActive false)) ;;
      match r with
      | Ok _ =>
          emit (toast_success "Habit deleted successfully") ;;
          fetchHabits user
      | Err error =>
          emit (toast_error ("Error deleting habit: " ++ message error))
      end
  end.

(** [new Date(t).toDateString()] names the calendar date of [t] in the
    client's zone. *)
Definition toDateString (tz : Z) (t : instant) : date := format_date tz t.

Definition isCompletedToday (tz : Z) (now : instant) (habit : Habit) : bool :=
  match completions habit with
  | None => false
  | Some cs =>
      let today := toDateString tz now in
      existsb (fun completion =>
                 toDateString tz (completed_at completion) =? today) cs
  end.

(** The modal as the manager mounts it: [onClose] hides it, [onSuccess]
    is [fetchHabits], [editHabit] is the selected habit. *)
Definition handleSubmit (user : option User) : M State unit :=
  s <- getState ;;
  CreateHabitModal.handleSubmit modal setModal
    (setState (setShowCreateModal false)) (fetchHabits user)
    (selectedHabit s) user.

(** The pencil of a card selects the habit; the modal's effect on its
    [editHabit] prop then loads it into the form. *)
Definition editHabitEffect : M State unit :=
  s <- getState ;;
  CreateHabitModal.loadEditHabit modal setModal (selectedHabit s).

Definition clickEdit (habit : Habit) : M State unit :=
  setState (setSelectedHabit (Some habit)) ;;
  editHabitEffect.

Definition getDifficultyColor (difficulty : Difficulty) : string :=
  match difficulty with
  | easy => "text-green-600 bg-green-100"
  | medium => "text-yellow-600 bg-yellow-100"
  | hard => "text-red-600 bg-red-100"
  end.

(** [habit.completions?.length || 0], the count shown on a card. *)
Definition timesShown (habit : Habit) : Z :=
  match completions habit with
  | Some cs => Z.of_nat (List.length cs)
  | None => 0
  end.

End HabitsManager.

(* ================================================================= *)
(** ** components/Challenges/Challenges *)

Module Challenges.

Record State := mkState {
  challenges : list ChallengeRow;
  myParticipations : list uuid;
  loading : bool
}.

Definition init : State := mkState [] [] true.

Definition setMyParticipations (l : list uuid) (s : State) : State :=
  mkState (challenges s) l (loading s).

Definition fetchMyParticipations (user : option User) : M State unit :=
  match user with
  | None => ret tt
  | Some u =>
      r <- supabase (SelectParticipations (id u))
             (fun _ _ => select_participations (id u)) ;;
      match r with
      | Ok data => setState (setMyParticipations data)
      | Err error => emit (console_error "Error fetching participations:")
      end
  end.

Definition joinChallenge (user : option User) (challengeId : uuid)
  : M State unit :=
  match user with
  | None => ret tt
  | Some u =>
      r <- supabase (InsertParticipant challengeId (id u))
             (fun now _ => insert_participant (id u) now challengeId (id u)) ;;
      match r with
      | Ok _ =>
          emit (toast_success "Joined challenge successfully! ðŸŽ‰") ;;
          fetchMyParticipations user
      | Err error =>
          emit (toast_error ("Error joining challenge: " ++ message error))
      end
  end.

Definition leaveChallenge (user : option User) (challengeId : uuid)
  : M State unit :=
  match user with
  | None => ret tt
  | Some u =>
      r <- supabase (DeleteParticipant challengeId (id u))
             (fun _ _ => delete_participant (id u) challengeId (id u)) ;;
      match r with
      | Ok _ =>
          emit (toast_success "Left challenge successfully") ;;
          fetchMyParticipations user
      | Err error =>
          emit (toast_error ("Error leaving challenge: " ++ message error))
      end
  end.

Definition isParticipating (s : State) (challengeId : uuid) : bool :=
  existsb (Nat.eqb challengeId) (myParticipations s).

End Challenges.

(* ================================================================= *)
(** ** components/MoodJournal/MoodJournal *)

Module MoodJournal.

Record State := mkState {
  moodEntries : list MoodRow;
  todayMood : option Z;
  reflection : jstext;
  loading : bool;
  submitting : bool
}.

Definition init : State := mkState [] None [] true false.

Definition setMoodEntries (l : list MoodRow) (s : State) : State :=
  mkState l (todayMood s) (reflection s) (loading s) (submitting s).
Definition setTodayMood (m : option Z) (s : State) : State :=
  mkState (moodEntries s) m (reflection s) (loading s) (submitting s).
Definition setReflection (r : jstext) (s : State) : State :=
  mkState (moodEntries s) (todayMood s) r (loading s) (submitting s).
Definition setLoading (b : bool) (s : State) : State :=
  mkState (moodEntries s) (todayMood s) (reflection s) b (submitting s).
Definition setSubmitting (b : bool) (s : State) : State :=
  mkState (moodEntries s) (todayMood s) (reflection s) (loading s) b.

Definition fetchMoodEntries (user : option User) : M State unit :=
  match user with
  | None => ret tt
  | Some u =>
      r <- supabase (SelectMoodEntries (id u))
             (fun _ _ => select_mood_entries (id u) (id u)) ;;
      match r with
      | Ok data => setState (setMoodEntries data)
      | Err error => emit (console_error "Error fetching mood entries:")
      end ;;
      setState (setLoading false)
  end.

Definition checkTodayMood (user : option User) : M State unit :=
  match user with
  | None => ret tt
  | Some u =>
      today <- today ;;
      r <- supabase (SelectMoodsBetween (id u) (today, T00_00_00)
                                        (today, T23_59_59))
             (fun _ tz => select_moods_between (id u) tz (id u)
                            (today, T00_00_00) (today, T23_59_59)) ;;
      match r with
      | Ok (m :: _) =>
          setState (setTodayMood (Some (m_mood_rating m))) ;;
          setState (setReflection
                      (match m_reflection m with
                       | Some t => if truthy t then t else []
                       | None => []
                       end))
      | _ => ret tt
      end
  end.

Definition submitMoodEntry (user : option User) : M State unit :=
  s <- getState ;;
  match user, todayMood s with
  | Some u, Some mood =>
      setState (setSubmitting true) ;;
      today <- today ;;
      (* Check if entry exists for today *)
      existingEntry <-
        supabase (SelectMoodSingle (id u) (today, T00_00_00)
                                   (today, T23_59_59))
          (fun _ tz => select_mood_single (id u) tz (id u)
                         (today, T00_00_00) (today, T23_59_59)) ;;
      r <- match existingEntry with
           | Ok existing_id =>
               (* Update existing entry *)
               r <- supabase
                      (UpdateMood existing_id mood
                                  (orNull (trim (reflection s))))
                      (fun _ _ => update_mood (id u) existing_id mood
                                    (orNull (trim (reflection s)))) ;;
               match r with
               | Err error => ret (Err error)
               | Ok _ =>
                   emit (toast_success "Mood updated successfully! 💙") ;;
                   ret (Ok tt)
               end
           | Err _ =>
               (* Create new entry *)
               r <- supabase
                      (InsertMood (id u) mood (orNull (trim (reflection s))))
                      (fun now _ => insert_mood (id u) now (id u) mood
                                      (orNull (trim (reflection s)))) ;;
               match r with
               | Err error => ret (Err error)
               | Ok _ =>
                   emit (toast_success "Mood recorded successfully! 💙") ;;
                   ret (Ok tt)
               end
           end ;;
      match r with
      | Ok _ => fetchMoodEntries user
      | Err error =>
          emit (toast_error ("Error saving mood entry: " ++ message error))
      end ;;
      setState (setSubmitting false)
  | _, _ => emit (toast_error "Please select a mood rating")
  end.

End MoodJournal.

(* ================================================================= *)
(** ** The templates page (src/unnamed/part_002) *)

Module Templates.

Record TemplateHabit := mkTemplateHabit {
  title : string;
  description : string;
  category : string;
  frequency : Frequency;
  difficulty : Difficulty;
  icon : string
}.

Record Template := mkTemplate {
  template_id : string;
  name : string;
  template_description : string;
  template_icon : string;
  color : string;
  template_habits : list TemplateHabit
}.

Record State := mkState { loading : bool }.

Definition init : State := mkState false.

Definition exam_prep : Template :=
  mkTemplate "exam-prep" "Exam Preparation"
    "Structured study routine for upcoming exams" "BookOpen"
    "from-blue-500 to-indigo-600"
    [ mkTemplateHabit "Morning Study Session"
        "Focused study for 2 hours in the morning" "Study" daily medium "📚";
      mkTemplateHabit "Practice Problems"
        "Solve practice questions for 1 hour" "Study" daily medium "✏️";
      mkTemplateHabit "Review Notes"
        "Review and summarize daily learnings" "Study" daily easy "📝";
      mkTemplateHabit "Mock Test"
        "Take a full-length practice exam" "Study" weekly hard "🎯" ].





Definition getCategoryColor (category : string) : string :=
  if String.eqb category "Health" then "bg-red-500"
  else if String.eqb category "Study" then "bg-blue-500"
  else if String.eqb category "Coding" then "bg-green-500"
  else if String.eqb category "Fitness" then "bg-orange-500"
  else if String.eqb category "Mindfulness" then "bg-purple-500"
  else if String.eqb category "General" then "bg-gray-500"
  else "bg-gray-500".

Definition habitsToCreate (u : User) (template : Template)
  : list HabitInsert :=
  map (fun habit =>
         mkHabitInsert (id u) (title habit) (Some (description habit))
           (category habit) (frequency habit) 1 (difficulty habit)
           (icon habit) (getCategoryColor (category habit)))
      (template_habits template).

(** Decimal rendering of a count, for the toast. *)
Fixpoint digits (fuel n : nat) (acc : string) : string :=
  match fuel with
  | O => acc
  | S fuel' =>
      let acc' :=
        String (ascii_of_nat (48 + Nat.modulo n 10)) acc in
      if Nat.ltb n 10 then acc' else digits fuel' (Nat.div n 10) acc'
  end.

Definition show_nat (n : nat) : string := digits (S n) n "".

Definition applyTemplate (user : option User) (template : Template)
  : M State unit :=
  match user with
  | None => ret tt
  | Some u =>
      setState (fun _ => mkState true) ;;
      r <- supabase (InsertHabits (habitsToCreate u template))
             (fun now _ =>
                insert_habits (id u) now (habitsToCreate u template)) ;;
      match r with
      | Ok _ =>
          emit (toast_success
                  (name template ++ " template applied! "
                   ++ show_nat (List.length (template_habits template))
                   ++ " habits created 🎉"))
      | Err error =>
          emit (toast_error ("Error applying template: " ++ message error))
      end ;;
      setState (fun _ => mkState false)
  end.

End Templates.

(* ================================================================= *)
(** ** The goal breakdown page (src/unnamed/part_003) *)

Module GoalBreakdown.

Record SuggestedHabit := mkSuggestedHabit {
  title : string;
  description : string;
  category : string;
  frequency : Frequency;
  difficulty : Difficulty;
  icon : string;
  reasoning : string
}.

Record State := mkState {
  goal : jstext;
  suggestedHabits : list SuggestedHabit;
  loading : bool;
  selectedHabits : list nat
}.

Definition init : State := mkState [] [] false [].

Definition setGoal (g : jstext) (s : State) : State :=
  mkState g (suggestedHabits s) (loading s) (selectedHabits s).
Definition setSuggestedHabits (l : list SuggestedHabit) (s : State) : State :=
  mkState (goal s) l (loading s) (selectedHabits s).
Definition setLoading (b : bool) (s : State) : State :=
  mkState (goal s) (suggestedHabits s) b (selectedHabits s).

Definition mockSuggestions : list SuggestedHabit :=
  [ mkSuggestedHabit "Daily Algorithm Practice"
      "Solve 2 coding problems on LeetCode or HackerRank" "Coding" daily
      medium "💻"
      "Regular problem-solving builds algorithmic thinking essential for technical interviews";
    mkSuggestedHabit "System Design Study"
      "Read system design articles or watch videos for 30 minutes" "Study"
      daily medium "🏗️"
      "Understanding system design is crucial for senior developer roles";
    mkSuggestedHabit "Mock Interview Practice"
      "Practice coding interviews with peers or online platforms" "Study"
      weekly hard "🎤"
      "Regular interview practice builds confidence and improves performance";
    mkSuggestedHabit "Open Source Contribution"
      "Contribute to open source projects or maintain your GitHub" "Coding"
      weekly medium "🌟"
      "Open source contributions demonstrate real-world coding skills to employers";
    mkSuggestedHabit "Technical Blog Writing"
      "Write about your learning journey and technical insights" "General"
      weekly easy "✍️"
      "Technical writing showcases communication skills and deepens understanding" ].

Definition analyzeGoal : M State unit :=
  s <- getState ;;
  if negb (truthy (trim (goal s))) then
    emit (toast_error "Please enter a goal to analyze")
  else
    setState (setLoading true) ;;
    (* Mock AI analysis *)
    setState (setSuggestedHabits mockSuggestions) ;;
    emit (toast_success
            "Goal analyzed! Here are your personalized habit suggestions.") ;;
    setState (setLoading false).

Definition setSelectedHabits (l : list nat) (s : State) : State :=
  mkState (goal s) (suggestedHabits s) (loading s) l.

(** [Set<number>] as the list of its elements in insertion order, without
    repetition: [has], [delete] and [add]. *)
Definition set_has (index : nat) (s : list nat) : bool :=
  existsb (Nat.eqb index) s.

Definition set_delete (index : nat) (s : list nat) : list nat :=
  filter (fun j => negb (Nat.eqb j index)) s.

Definition set_add (index : nat) (s : list nat) : list nat :=
  if set_has index s then s else (s ++ [index])%list.

Definition toggleHabitSelection (index : nat) : M State unit :=
  s <- getState ;;
  let newSelected := selectedHabits s in
  let newSelected :=
    if set_has index newSelected then set_delete index newSelected
    else set_add index newSelected in
  setState (setSelectedHabits newSelected).

Definition getCategoryColor (category : string) : string :=
  if String.eqb category "Health" then "bg-red-500"
  else if String.eqb category "Study" then "bg-blue-500"
  else if String.eqb category "Coding" then "bg-green-500"
  else if String.eqb category "Fitness" then "bg-orange-500"
  else if String.eqb category "Mindfulness" then "bg-purple-500"
  else if String.eqb category "General" then "bg-gray-500"
  else "bg-gray-500".

(** What reading [habit.title] of an undefined [suggestedHabits[index]]
    throws; the wording is the engine's. *)
Definition TypeError_message : string :=
  "Cannot read properties of undefined (reading 'title')".

(** [Array.from(selectedHabits).map(index => ...)]; [None] when the callback
    throws on an index the suggestions do not have. *)
Definition habitsToCreate (u : User) (s : State) : option (list HabitInsert) :=
  fold_right
    (fun index rest =>
       match nth_error (suggestedHabits s) index, rest with
       | Some habit, Some rows =>
           Some (mkHabitInsert (id u) (title habit) (Some (description habit))
                   (category habit) (frequency habit) 1 (difficulty habit)
                   (icon habit) (getCategoryColor (category habit)) :: rows)
       | _, _ => None
       end)
    (Some []) (selectedHabits s).

Definition createSelectedHabits (user : option User) : M State unit :=
  s <- getState ;;
  match user, selectedHabits s with
  | Some u, _ :: _ =>
      match habitsToCreate u s with
      | None =>
          emit (toast_error ("Error creating habits: " ++ TypeError_message))
      | Some rows =>
          r <- supabase (InsertHabits rows)
                 (fun now _ => insert_habits (id u) now rows) ;;
          match r with
          | Ok _ =>
              emit (toast_success
                      (Templates.show_nat (List.length (selectedHabits s))
                       ++ " habits created successfully! 🎉")) ;;
              setState (setSelectedHabits []) ;;
              setState (setSuggestedHabits []) ;;
              setState (setGoal [])
          | Err error =>
              emit (toast_error ("Error creating habits: " ++ message error))
          end
      end
  | _, _ => emit (toast_error "Please select at least one habit to create")
  end.

End GoalBreakdown.

(** [data?.length || 0] *)
Definition length_or_0 {A} (r : response (list A)) : Z :=
  match r with
  | Ok data => Z.of_nat (List.length data)
  | Err _ => 0
  end.

(** [data || []] *)
Definition data_or_empty {A} (r : response (list A)) : list A :=
  match r with
  | Ok data => data
  | Err _ => []
  end.

(* ================================================================= *)
(** ** components/Dashboard/Dashboard *)

Module Dashboard.

Record DashboardStats := mkStats {
  totalHabits : Z;
  todayCompleted : Z;
  currentStreak : Z;
  weeklyCompletion : Z
}.

Record State := mkState {
  stats : DashboardStats;
  recentHabits : list Habit;
  loading : bool
}.

Definition init : State := mkState (mkStats 0 0 0 0) [] true.

Definition setStats (x : DashboardStats) (s : State) : State :=
  mkState x (recentHabits s) (loading s).
Definition setRecentHabits (l : list Habit) (s : State) : State :=
  mkState (stats s) l (loading s).
Definition setLoading (b : bool) (s : State) : State :=
  mkState (stats s) (recentHabits s) b.

Definition fetchDashboardData (user : option User) : M State unit :=
  match user with
  | None => ret tt
  | Some u =>
      (* Fetch habits *)
      habits <- supabase (SelectActiveHabits (id u))
                  (fun _ _ => select_active_habits (id u) (id u)) ;;
      (* Fetch today's completions *)
      today <- today ;;
      todayCompletions <-
        supabase (SelectCompletionsBetween (id u) (today, T00_00_00)
                                           (today, T23_59_59))
          (fun _ tz => select_completions_between (id u) tz (id u)
                         (today, T00_00_00) (today, T23_59_59)) ;;
      (* Fetch week's completions *)
      let weekStart := startOfWeek today in
      let weekEnd := endOfWeek today in
      weekCompletions <-
        supabase (SelectCompletionsBetween (id u) (weekStart, T00_00_00)
                                           (weekEnd, T23_59_59))
          (fun _ tz => select_completions_between (id u) tz (id u)
                         (weekStart, T00_00_00) (weekEnd, T23_59_59)) ;;
      (* Fetch recent habits with completions *)
      recentHabitsData <-
        supabase (SelectRecentHabits (id u))
          (fun _ _ => select_recent_habits (id u) (id u)) ;;
      setState (setStats
        (mkStats
           (length_or_0 habits)
           (length_or_0 todayCompletions)
           7 (* This would be calculated based on consecutive days *)
           (Math_round (PrimFloat.mul
                          (PrimFloat.div (of_Z (length_or_0 weekCompletions))
                                         (of_Z 7))
                          (of_Z 100))))) ;;
      setState (setRecentHabits (data_or_empty recentHabitsData)) ;;
      setState (setLoading false)
  end.

End Dashboard.

(* ================================================================= *)
(** ** components/Analytics/Analytics *)

Module Analytics.

Record DayProgress := mkDayProgress {
  day : date;
  completions : Z;
  target : Z
}.

Record CategorySlice := mkCategorySlice {
  name : string;
  value : Z;
  color : string
}.

Record AnalyticsData := mkAnalyticsData {
  weeklyProgress : list DayProgress;
  categoryBreakdown : list CategorySlice;
  streakData : list unit;
  completionRate : Z;
  bestStreak : Z;
  totalCompletions : Z
}.

Record State := mkState {
  analyticsData : AnalyticsData;
  loading : bool;
  timeRange : string
}.

Definition init : State :=
  mkState (mkAnalyticsData [] [] [] 0 0 0) true "7days".

Definition setAnalyticsData (a : AnalyticsData) (s : State) : State :=
  mkState a (loading s) (timeRange s).
Definition setLoading (b : bool) (s : State) : State :=
  mkState (analyticsData s) b (timeRange s).
Definition setTimeRange (r : string) (s : State) : State :=
  mkState (analyticsData s) (loading s) r.

Definition getCategoryColor (category : string) : string :=
  if String.eqb category "Health" then "#EF4444"
  else if String.eqb category "Study" then "#3B82F6"
  else if String.eqb category "Coding" then "#10B981"
  else if String.eqb category "Fitness" then "#F59E0B"
  else if String.eqb category "Mindfulness" then "#8B5CF6"
  else if String.eqb category "General" then "#6B7280"
  else "#6B7280".

Definition days_of (timeRange : string) : Z :=
  if String.eqb timeRange "7days" then 7
  else if String.eqb timeRange "30days" then 30 else 90.

(** date-fns [eachDayOfInterval], on dates. *)
Definition eachDayOfInterval (start end_ : date) : list date :=
  map (fun i => start + Z.of_nat i) (seq 0 (Z.to_nat (end_ - start + 1))).

(** [categoryMap.set(category, (categoryMap.get(category) || 0) + 1)] on a
    [Map], which keeps its keys in insertion order. *)
Fixpoint count_in (category : string) (m : list (string * Z))
  : list (string * Z) :=
  match m with
  | [] => [(category, 1)]
  | (k, v) :: m' =>
      if String.eqb k category then (k, v + 1) :: m'
      else (k, v) :: count_in category m'
  end.

Definition category_of (c : CompletionWithHabit) : string :=
  match habits_ c with
  | Some h => match h_category h with
              | EmptyString => "Other"
              | cat => cat
              end
  | None => "Other"
  end.

(** [totalPossible] and [completionRate] of [fetchAnalyticsData]. *)
Definition totalPossible (habits_length days : Z) : Z := habits_length * days.

Definition rate (habits_length completions_length days : Z) : Z :=
  if 0 <? totalPossible habits_length days then
    Math_round (PrimFloat.mul
                  (PrimFloat.div (of_Z completions_length)
                                 (of_Z (totalPossible habits_length days)))
                  (of_Z 100))
  else 0.

Definition fetchAnalyticsData (user : option User) : M State unit :=
  match user with
  | None => ret tt
  | Some u =>
      s <- getState ;;
      let days := days_of (timeRange s) in
      tz <- timeZone ;;
      now <- new_Date ;;
      let startDate := format_date tz (subDays now days) in
      (* Fetch habits and completions *)
      habits <- supabase (SelectActiveHabits (id u))
                  (fun _ _ => select_active_habits (id u) (id u)) ;;
      completions <-
        supabase (SelectCompletionsSince (id u) startDate)
          (fun _ stz => select_completions_since (id u) stz (id u)
                          startDate) ;;
      (* Process weekly progress *)
      let dateRange :=
        eachDayOfInterval (format_date tz (subDays now days))
                          (format_date tz now) in
      let weeklyProgress :=
        map (fun date =>
               mkDayProgress date
                 (Z.of_nat
                    (List.length
                       (filter (fun c =>
                                  format_date tz
                                    (hc_completed_at (completion_row c))
                                  =? date)
                               (data_or_empty completions))))
                 (length_or_0 habits))
            dateRange in
      (* Process category breakdown *)
      let categoryMap :=
        fold_left (fun m c => count_in (category_of c) m)
                  (data_or_empty completions) [] in
      let categoryBreakdown :=
        map (fun kv => mkCategorySlice (fst kv) (snd kv)
                                       (getCategoryColor (fst kv)))
            categoryMap in
      (* Calculate completion rate *)
      let completionRate :=
        rate (length_or_0 habits) (length_or_0 completions) days in
      setState (setAnalyticsData
        (mkAnalyticsData weeklyProgress categoryBreakdown
           [] (* Would calculate actual streaks *)
           completionRate
           12 (* Mock data - would calculate from actual completions *)
           (length_or_0 completions))) ;;
      setState (setLoading false)
  end.

End Analytics.

(* ================================================================= *)
(** ** The chart of the mood journal ([getMoodChartData] of
    components/MoodJournal/MoodJournal) *)

Module MoodChart.

(** A point of the line chart; the label of the day stands for its date. *)
Record ChartPoint := mkChartPoint {
  day : date;
  mood : option Z
}.

(** [entry?.mood_rating || null] *)
Definition rating_or_null (entry : option MoodRow) : option Z :=
  match entry with
  | Some e => if m_mood_rating e =? 0 then None else Some (m_mood_rating e)
  | None => None
  end.

Definition getMoodChartData (tz : Z) (now : instant) (s : MoodJournal.State)
  : list ChartPoint :=
  let last7Days :=
    Analytics.eachDayOfInterval (format_date tz (subDays now 6))
                                (format_date tz now) in
  map (fun date =>
         let entry :=
           find (fun e => format_date tz (m_created_at e) =? date)
                (MoodJournal.moodEntries s) in
         mkChartPoint date (rating_or_null entry))
      last7Days.

End MoodChart.

(* ================================================================= *)
(** * Properties and scenarios

    The vocabulary of the statements below: the properties as they are
    worded, what the runs are compared with, and the concrete worlds the
    statements are tried on. *)

(** The events a run appends are requests or notes; [requests_of] keeps the
    requests. *)
Definition is_request (e : event) : bool :=
  match e with Request _ _ => true | _ => false end.

Definition requests_of (l : list event) : list event := filter is_request l.

(** A request reaches the database unless the transport script loses it. *)
Definition delivered {V} (w : World V) : Prop :=
  match net w with Some _ :: _ => False | _ => True end.

(* ----------------------------------------------------------------- *)
(** ** Handlers without a signed-in user *)



(* ----------------------------------------------------------------- *)
(** ** The completion rate of the analytics page *)

(** The rate as the claim words it, on exact rationals:
    round(100 x completions / (habits x days)), the nearest integer of
    [n / d], a tie going up as [Math.round] breaks it. *)
Definition round_ratio (n d : Z) : Z := (2 * n + d) / (2 * d).

Definition rate_as_stated (habits_length completions_length days : Z) : Z :=
  if habits_length =? 0 then 0
  else round_ratio (100 * completions_length) (habits_length * days).

(** What the two reads of [fetchAnalyticsData] return when the transport
    delivers them. *)
Definition active_habit_count (u : User) (d : Db) : Z :=
  Z.of_nat (List.length (active_habits_of (id u) (id u) d)).

Definition completions_since_count {V} (u : User) (days : Z) (w : World V) : Z :=
  length_or_0
    (fst (select_completions_since (id u) (server_tz w) (id u)
            (format_date (client_tz w) (subDays (clock w) days)) (db w))).

(** Four active habits, the 30-day range, and 69 completions in it. *)
Definition tie_user : User := mkUser 1%nat "student@example.org".

Definition tie_db : Db :=
  mkDb
    (map (fun i => mkHabitRow i 1%nat "Read 20 pages" None "Study" daily 1
                     medium true 0 0 "📚" "bg-blue-500")
         (seq 0 4))
    (map (fun i => mkCompletionRow (4 + i)%nat (Nat.modulo i 4) 1%nat
                     (100 * DAY - Z.of_nat i * 3600000) None None None)
         (seq 0 69))
    [] [] [] 73%nat.

Definition tie_world : World Analytics.State :=
  mkWorld (Analytics.setTimeRange "30days" Analytics.init) tie_db []
          (100 * DAY + 1000) 0 0 [].

(* ----------------------------------------------------------------- *)
(** ** The analyze action of the goal breakdown page *)

(** The claim as it is worded: any two non-empty goals get the same list,
    the five fixed suggestions. *)
Definition analyze_ignores_nonempty_goal : Prop :=
  forall w1 w2 : World GoalBreakdown.State,
    GoalBreakdown.goal (ui w1) <> [] ->
    GoalBreakdown.goal (ui w2) <> [] ->
    GoalBreakdown.suggestedHabits (ui (exec GoalBreakdown.analyzeGoal w1))
    = GoalBreakdown.suggestedHabits (ui (exec GoalBreakdown.analyzeGoal w2)).

Definition goal_world (g : jstext) : World GoalBreakdown.State :=
  mkWorld (GoalBreakdown.setGoal g GoalBreakdown.init) empty_db [] 0 0 0 [].

(* ----------------------------------------------------------------- *)
(** ** Templates *)

Definition exam_prep_titles : list string :=
  ["Morning Study Session"; "Practice Problems"; "Review Notes"; "Mock Test"]%string.

(* ----------------------------------------------------------------- *)
(** ** "Today" *)

(** Today's half-open interval: from the client's local midnight to the
    next one. *)
Definition local_midnight (tz : Z) (now : instant) : instant :=
  at_wall_clock tz (format_date tz now) T00_00_00.

Definition in_today (tz : Z) (now t : instant) : Prop :=
  local_midnight tz now <= t < local_midnight tz now + DAY.

(** The window the two "today" queries spell out, when the server reads
    the literals in zone [stz]. *)
Definition in_query_window (tz stz : Z) (now t : instant) : bool :=
  (at_wall_clock stz (format_date tz now) T00_00_00 <=? t)
  && (t <? at_wall_clock stz (format_date tz now) T23_59_59).

Definition late_user : User := mkUser 1%nat "student@example.org".

(** 23:59:59.500 and 23:59:59.800 of day 20000, UTC. *)
Definition late_stamp : instant := 20000 * DAY + 86399500.
Definition late_now : instant := 20000 * DAY + 86399800.

Definition late_habit : HabitRow :=
  mkHabitRow 0%nat 1%nat "Read 20 pages" None "Study" daily 1 medium true
             0 0 "📚" "bg-blue-500".

Definition late_db : Db :=
  mkDb [late_habit]
       [mkCompletionRow 1%nat 0%nat 1%nat late_stamp None None None]
       [] []
       [mkMoodRow 2%nat 1%nat 4 None late_stamp]
       3%nat.

Definition late_world {V} (v : V) : World V :=
  mkWorld v late_db [] late_now 0 0 [].

(* ----------------------------------------------------------------- *)
(** ** One mood entry a day *)

(** The environment between two user actions: time passes. *)
Definition at_time {V} (t : instant) (w : World V) : World V :=
  mkWorld (ui w) (db w) (net w) t (client_tz w) (server_tz w) (trace w).

(** The user picks a mood. *)
Definition pick_mood (v : Z) (w : World MoodJournal.State)
  : World MoodJournal.State :=
  exec (setState (MoodJournal.setTodayMood (Some v))) w.

Definition moods_on (u : User) (tz : Z) (d : date) (database : Db)
  : list MoodRow :=
  filter (fun m => Nat.eqb (m_user_id m) (id u)
                   && (format_date tz (m_created_at m) =? d))
         (mood_entries database).

(** Two submissions of the same user, at 23:59:59.200 and 23:59:59.600 of
    day 20000, on an empty table. *)
Definition two_late_submissions : World MoodJournal.State :=
  exec (MoodJournal.submitMoodEntry (Some late_user))
    (at_time (20000 * DAY + 86399600)
       (pick_mood 2
          (exec (MoodJournal.submitMoodEntry (Some late_user))
             (pick_mood 4
                (mkWorld MoodJournal.init empty_db []
                         (20000 * DAY + 86399200) 0 0 []))))).

(** The same two submissions at 10:00 and 15:00 leave one row, with the
    second rating. *)
Definition two_daytime_submissions : World MoodJournal.State :=
  exec (MoodJournal.submitMoodEntry (Some late_user))
    (at_time (20000 * DAY + 54000000)
       (pick_mood 2
          (exec (MoodJournal.submitMoodEntry (Some late_user))
             (pick_mood 4
                (mkWorld MoodJournal.init empty_db []
                         (20000 * DAY + 36000000) 0 0 []))))).

(* ----------------------------------------------------------------- *)
(** ** Challenge participation *)

Definition participation_key (p : ParticipantRow) : uuid * uuid :=
  (cp_challenge_id p, cp_user_id p).

(** At most one row per (challenge, user). *)
Definition unique_participation (d : Db) : Prop :=
  NoDup (map participation_key (challenge_participants d)).

(** The page and its environment as a transition system: any user joins or
    leaves any challenge, lists are refetched, and in between the clock, the
    transport and the other tables change freely. *)
Inductive challenge_step
  : World Challenges.State -> World Challenges.State -> Prop :=
  | step_join (user : option User) (c : uuid) w :
      challenge_step w (exec (Challenges.joinChallenge user c) w)
  | step_leave (user : option User) (c : uuid) w :
      challenge_step w (exec (Challenges.leaveChallenge user c) w)
  | step_fetch (user : option User) w :
      challenge_step w (exec (Challenges.fetchMyParticipations user) w)
  | step_env w w' :
      challenge_participants (db w') = challenge_participants (db w) ->
      challenge_step w w'.

Inductive challenge_reachable : World Challenges.State -> Prop :=
  | reach_start w :
      challenge_participants (db w) = [] -> challenge_reachable w
  | reach_step w w' :
      challenge_reachable w -> challenge_step w w' -> challenge_reachable w'.

(** A student joins challenge 7, tries to join again, then leaves. *)
Definition joined_once : World Challenges.State :=
  exec (Challenges.joinChallenge (Some late_user) 7%nat)
    (mkWorld Challenges.init
       (mkDb [] []
          [mkChallengeRow 7%nat "30 days of code" "One problem a day" 2%nat
                          20000 20030 true None 0]
          [mkParticipantRow 8%nat 7%nat 2%nat 0] [] 9%nat)
       [] late_now 0 0 []).

(* ----------------------------------------------------------------- *)
(** ** Requests that fail, requests that succeed *)

(** The world after one request, whatever its outcome. *)
Definition after_request {V} (w : World V) (d : Db) (r : request)
    (outcome : option PgError) : World V :=
  mkWorld (ui w) d (tl (net w)) (clock w) (client_tz w) (server_tz w)
          (trace w ++ [Request r outcome]).

(** A write that is refused leaves the tables as they were. *)
Definition atomic {A} (run : Db -> response A * Db) : Prop :=
  forall d e, fst (run d) = Err e -> snd (run d) = d.

(** The shape every write handler has: one request, then either the
    follow-up or an error toast with the message of the backend. *)
Definition guarded_write {V A} (req : request)
    (run : instant -> Z -> Db -> response A * Db) (on_ok : M V unit)
    (prefix : string) : M V unit :=
  r <- supabase req run ;;
  match r with
  | Ok _ => on_ok
  | Err error => emit (toast_error (prefix ++ message error))
  end.

Definition fetched_habits (u : User) (d : Db) : list Habit :=
  map (embed_completions (id u) d)
      (order_desc h_created_at (active_habits_of (id u) (id u) d)).

Definition fetched_participations (u : User) (d : Db) : list uuid :=
  map cp_challenge_id
      (filter (fun p => Nat.eqb (cp_user_id p) (id u))
              (challenge_participants d)).

Definition fetched_moods (u : User) (d : Db) : list MoodRow :=
  firstn 30 (order_desc m_created_at (own_moods (id u) (id u) d)).

Definition habitData (u : User) (f : CreateHabitModal.FormData) : HabitInsert :=
  mkHabitInsert (id u) (CreateHabitModal.title f)
    (string_or_null (CreateHabitModal.description f))
    (CreateHabitModal.category f) (CreateHabitModal.frequency f)
    (CreateHabitModal.targetCount f) (CreateHabitModal.difficulty f)
    (CreateHabitModal.icon f) (CreateHabitModal.color f).

Definition form_of (s : HabitsManager.State) : CreateHabitModal.FormData :=
  CreateHabitModal.formData (HabitsManager.modal s).

Definition submit_request (u : User) (s : HabitsManager.State) : request :=
  match HabitsManager.selectedHabit s with
  | Some h =>
      UpdateHabit (h_id (habit_row h)) (SetData (habitData u (form_of s)))
  | None => InsertHabits [habitData u (form_of s)]
  end.

Definition submit_write (u : User) (s : HabitsManager.State) (now : instant)
    (d : Db) : response unit * Db :=
  match HabitsManager.selectedHabit s with
  | Some h =>
      update_habit (id u) now (h_id (habit_row h))
                   (SetData (habitData u (form_of s))) d
  | None => insert_habits (id u) now [habitData u (form_of s)] d
  end.

Definition submit_toast (s : HabitsManager.State) : string :=
  match HabitsManager.selectedHabit s with
  | Some _ => "Habit updated successfully!"
  | None => "Habit created successfully!"
  end.

Definition modal_loading (b : bool) (s : HabitsManager.State)
  : HabitsManager.State :=
  HabitsManager.setModal (CreateHabitModal.mkState (form_of s) b) s.

(** What [handleSubmit] does after the refetch: close the modal, blank the
    form, clear the spinner. *)
Definition closing (w : World HabitsManager.State) : World HabitsManager.State :=
  mkWorld
    (HabitsManager.setModal
       (CreateHabitModal.mkState CreateHabitModal.blank false)
       (HabitsManager.setShowCreateModal false (ui w)))
    (db w) (net w) (clock w) (client_tz w) (server_tz w) (trace w).

Definition busy (w : World HabitsManager.State) : World HabitsManager.State :=
  mkWorld (modal_loading true (ui w)) (db w) (net w) (clock w) (client_tz w)
          (server_tz w) (trace w).

(** The one write of [handleSubmit]. *)
Definition submit_outcome (u : User) (w : World HabitsManager.State)
  : response unit * World HabitsManager.State :=
  supabase (submit_request u (ui w)) (fun now _ => submit_write u (ui w) now)
           (busy w).

Definition today_of {V} (w : World V) : date :=
  format_date (client_tz w) (clock w).

Definition note_of (s : MoodJournal.State) : option jstext :=
  orNull (trim (MoodJournal.reflection s)).

Definition submitting (w : World MoodJournal.State) : World MoodJournal.State :=
  mkWorld (MoodJournal.setSubmitting true (ui w)) (db w) (net w) (clock w)
          (client_tz w) (server_tz w) (trace w).







(* ----------------------------------------------------------------- *)
(** ** Failed calls *)




(* ----------------------------------------------------------------- *)
(** ** Refetch after a mutation *)




(* ----------------------------------------------------------------- *)
(** ** The goal page: selection and creation *)

(** Every selected index names a suggestion, and none is selected twice. *)
Definition selection_in_range (s : GoalBreakdown.State) : Prop :=
  Forall (fun index =>
            (index < List.length (GoalBreakdown.suggestedHabits s))%nat)
         (GoalBreakdown.selectedHabits s)
  /\ NoDup (GoalBreakdown.selectedHabits s).

(** The suggestions on display are none or the five fixed ones, and the
    selection is in range of them. *)
Definition goal_page_invariant (s : GoalBreakdown.State) : Prop :=
  (GoalBreakdown.suggestedHabits s = []
   \/ GoalBreakdown.suggestedHabits s = GoalBreakdown.mockSuggestions)
  /\ selection_in_range s.

(** The page as a transition system: the user types a goal, analyses it,
    clicks one of the suggestion cards on display, or creates the selected
    habits; in between everything but the page state may change. *)
Inductive goal_step
  : World GoalBreakdown.State -> World GoalBreakdown.State -> Prop :=
  | step_type (g : jstext) w :
      goal_step w (exec (setState (GoalBreakdown.setGoal g)) w)
  | step_analyze w : goal_step w (exec GoalBreakdown.analyzeGoal w)
  | step_toggle (index : nat) w :
      (index < List.length (GoalBreakdown.suggestedHabits (ui w)))%nat ->
      goal_step w (exec (GoalBreakdown.toggleHabitSelection index) w)
  | step_create (user : option User) w :
      goal_step w (exec (GoalBreakdown.createSelectedHabits user) w)
  | step_outside w w' : ui w' = ui w -> goal_step w w'.

Inductive goal_reachable : World GoalBreakdown.State -> Prop :=
  | goal_start w : ui w = GoalBreakdown.init -> goal_reachable w
  | goal_next w w' : goal_reachable w -> goal_step w w' -> goal_reachable w'.

(** The rows the selection stands for when every index is in range. *)
Definition selected_rows (u : User) (s : GoalBreakdown.State)
  : list HabitInsert :=
  match GoalBreakdown.habitsToCreate u s with
  | Some rows => rows
  | None => []
  end.

(** Cards clicked after an analysis: the third, the first, the third again
    and the fifth. *)
Definition picked_two : World GoalBreakdown.State :=
  exec (GoalBreakdown.toggleHabitSelection 4)
    (exec (GoalBreakdown.toggleHabitSelection 2)
       (exec (GoalBreakdown.toggleHabitSelection 0)
          (exec (GoalBreakdown.toggleHabitSelection 2)
             (exec GoalBreakdown.analyzeGoal
                (goal_world [82%N; 117%N; 110%N]))))).

(* ----------------------------------------------------------------- *)
(** ** The habits page: edit, delete, complete, list *)

(** The columns of a row the form can write, and a row whose
    [updated_at] alone is renewed. *)
Definition row_data (r : HabitRow) : HabitInsert :=
  mkHabitInsert (h_user_id r) (h_title r) (h_description r) (h_category r)
    (h_frequency r) (h_target_count r) (h_difficulty r) (h_icon r)
    (h_color r).

Definition touch (now : instant) (r : HabitRow) : HabitRow :=
  mkHabitRow (h_id r) (h_user_id r) (h_title r) (h_description r)
    (h_category r) (h_frequency r) (h_target_count r) (h_difficulty r)
    (h_is_active r) (h_created_at r) now (h_icon r) (h_color r).

Definition deactivate (now : instant) (r : HabitRow) : HabitRow :=
  mkHabitRow (h_id r) (h_user_id r) (h_title r) (h_description r)
    (h_category r) (h_frequency r) (h_target_count r) (h_difficulty r)
    false (h_created_at r) now (h_icon r) (h_color r).

(** Two students; the first owns habit 0 and habit 1, the second habit 2,
    and the first has completed habit 0 once. *)
Definition other_user : User := mkUser 2%nat "friend@example.org".

Definition shared_db : Db :=
  mkDb
    [ mkHabitRow 0%nat 1%nat "Read 20 pages" None "Study" daily 1 medium true
                 100 100 "📚" "bg-blue-500";
      mkHabitRow 1%nat 1%nat "Run" (Some "5 km"%string) "Fitness" weekly 2
                 hard true 300 300 "🏃" "bg-orange-500";
      mkHabitRow 2%nat 2%nat "Meditate" None "Mindfulness" daily 1 easy true
                 200 200 "🧘" "bg-purple-500" ]
    [mkCompletionRow 3%nat 0%nat 1%nat (20000 * DAY) None None (Some 4)]
    [] [] [] 4%nat.

Definition shared_world {V} (v : V) : World V :=
  mkWorld v shared_db [] late_now 0 0 [].

(** The habits page as a transition system: the list is fetched, a card is
    marked done or deleted, the pencil of a card is clicked, the modal is
    opened, closed, typed into or submitted; in between everything but the
    page state may change. *)
Inductive habits_step
  : World HabitsManager.State -> World HabitsManager.State -> Prop :=
  | hstep_fetch user w :
      habits_step w (exec (HabitsManager.fetchHabits user) w)
  | hstep_complete user habitId w :
      habits_step w (exec (HabitsManager.completeHabit user habitId) w)
  | hstep_delete user habitId w :
      habits_step w (exec (HabitsManager.deleteHabit user habitId) w)
  | hstep_edit habit w :
      habits_step w (exec (HabitsManager.clickEdit habit) w)
  | hstep_show (b : bool) w :
      habits_step w (exec (setState (HabitsManager.setShowCreateModal b)) w)
  | hstep_type (f : CreateHabitModal.FormData) w :
      habits_step w
        (exec (CreateHabitModal.setFormData HabitsManager.modal
                 HabitsManager.setModal f) w)
  | hstep_submit user w :
      habits_step w (exec (HabitsManager.handleSubmit user) w)
  | hstep_outside w w' : ui w' = ui w -> habits_step w w'.

Inductive habits_run
  : World HabitsManager.State -> World HabitsManager.State -> Prop :=
  | run_here w : habits_run w w
  | run_next w w1 w2 : habits_run w w1 -> habits_step w1 w2 -> habits_run w w2.

(** Newest first: no row is followed by one with a greater key. *)
Definition newest_first {A} (key : A -> Z) (l : list A) : Prop :=
  StronglySorted (fun a b => key b <= key a) l.

(** The completion row a click on "Mark Done" stores. *)
Definition done_row (u : User) (habitId : uuid) (now : instant) (i : uuid)
  : CompletionRow :=
  mkCompletionRow i habitId (id u) now None None None.

(** The pencil of the second card, then the "Create Habit" button. *)
Definition editing_run : World HabitsManager.State :=
  exec (HabitsManager.clickEdit
          (mkHabit
             (mkHabitRow 1%nat 1%nat "Run" (Some "5 km"%string) "Fitness"
                         weekly 2 hard true 300 300 "🏃" "bg-orange-500")
             [] None))
       (shared_world HabitsManager.init).

(* ----------------------------------------------------------------- *)
(** ** The mood journal: list, chart, reload *)

(** The page mounted anew over the same backend. *)
Definition reload (w : World MoodJournal.State) : World MoodJournal.State :=
  mkWorld MoodJournal.init (db w) (net w) (clock w) (client_tz w)
          (server_tz w) (trace w).

(** The reflection as the page shows it for a stored entry:
    [reflection || ''] *)
Definition shown_reflection (m : MoodRow) : jstext :=
  match m_reflection m with
  | Some t => if truthy t then t else []
  | None => []
  end.

(** A week of moods of the first student, two on day 19998, and one of
    the second student. *)
Definition week_db : Db :=
  mkDb [] [] [] []
    [ mkMoodRow 0%nat 1%nat 2 None (19995 * DAY + 3600000);
      mkMoodRow 1%nat 1%nat 3 None (19998 * DAY + 3600000);
      mkMoodRow 2%nat 2%nat 1 None (19998 * DAY + 7200000);
      mkMoodRow 3%nat 1%nat 5 None (19998 * DAY + 72000000);
      mkMoodRow 4%nat 1%nat 4 None (20000 * DAY + 3600000) ]
    5%nat.

Definition week_world : World MoodJournal.State :=
  mkWorld MoodJournal.init week_db [] (20000 * DAY + 36000000) 0 0 [].

(** The student writes " calm " at 10:00, picks 4 and saves. *)
Definition calm_world : World MoodJournal.State :=
  mkWorld
    (MoodJournal.setReflection [32; 99; 97; 108; 109; 32]%N
       (MoodJournal.setTodayMood (Some 4) MoodJournal.init))
    week_db [] (20000 * DAY + 36000000) 0 0 [].

(* ----------------------------------------------------------------- *)
(** ** The analytics page and the dashboard: what the numbers add up to *)

Definition slices_total (l : list Analytics.CategorySlice) : Z :=
  fold_right (fun s acc => Analytics.value s + acc) 0 l.

Definition bars_total (l : list Analytics.DayProgress) : Z :=
  fold_right (fun b acc => Analytics.completions b + acc) 0 l.

(** The first student looks at the analytics of [shared_db] after marking
    the second student's habit done twice. *)
Definition analytics_world : World Analytics.State :=
  mkWorld Analytics.init
    (db (Nat.iter 2
           (exec (HabitsManager.completeHabit (Some late_user) 2%nat))
           (shared_world HabitsManager.init)))
    [] late_now 0 0 [].

(** A read leaves the tables as they are. *)
Definition read_only {A} (run : instant -> Z -> Db -> response A * Db) : Prop :=
  forall now tz d, snd (run now tz d) = d.

(** The dashboard mounted over the backend another page has worked on. *)
Definition dashboard_over {V} (w : World V) : World Dashboard.State :=
  mkWorld Dashboard.init (db w) (net w) (clock w) (client_tz w)
          (server_tz w) (trace w).

(** The dashboard with the network down for all its four requests. *)
Definition offline_dashboard : World Dashboard.State :=
  mkWorld Dashboard.init shared_db
    [Some "Failed to fetch"; Some "Failed to fetch"; Some "Failed to fetch";
     Some "Failed to fetch"]%string
    late_now 0 0 [].

(** Ten in the morning of day 20000. *)
Definition morning_world {V} (v : V) : World V :=
  mkWorld v shared_db [] (20000 * DAY + 36000000) 0 0 [].

(* ----------------------------------------------------------------- *)
(** ** Challenges: joining and leaving *)

(** Challenge 7 is over, inactive, and full with its one participant. *)
Definition full_challenge : World Challenges.State :=
  mkWorld Challenges.init
    (mkDb [] []
       [mkChallengeRow 7%nat "30 days of code" "One problem a day" 2%nat
                       19000 19030 false (Some 1) 0]
       [mkParticipantRow 8%nat 7%nat 2%nat 0] [] 9%nat)
    [] late_now 0 0 [].

(** The student is two hours east of the server and looks at the journal
    at 01:00 local time; the one entry was saved at 00:30 local time. *)
Definition east_world : World MoodJournal.State :=
  mkWorld MoodJournal.init
    (mkDb [] [] [] []
       [mkMoodRow 0%nat 1%nat 4 None (20000 * DAY - 7200000 + 1800000)]
       1%nat)
    [] (20000 * DAY - 7200000 + 3600000) 7200000 0 [].

(* ================================================================= *)
(** * Verification *)

(** ** The primitives on examples *)

Example Math_round_ties_up :
  Math_round (PrimFloat.div (of_Z 5) (of_Z 2)) = 3
  /\ Math_round (PrimFloat.div (of_Z 7) (of_Z 2)) = 4
  /\ Math_round (PrimFloat.opp (PrimFloat.div (of_Z 5) (of_Z 2))) = -2
  /\ Math_round (PrimFloat.div (of_Z 149) (of_Z 100)) = 1
  /\ Math_round (of_Z 42) = 42.
Proof. repeat split; vm_compute; reflexivity. Qed.

(** "  Run 5 km " with a tab in front and a line feed behind. *)
Example trim_strips_both_ends :
  trim [9; 32; 82; 117; 110; 32; 53; 32; 107; 109; 32; 10]%N
  = [82; 117; 110; 32; 53; 32; 107; 109]%N
  /\ trim [32; 160; 8195; 10]%N = []
  /\ orNull (trim [32]%N) = None.
Proof. repeat split. Qed.

(** Day 0 is Thursday 1970-01-01: its week runs from Sunday, day -4, to
    Saturday, day 2.  One millisecond before midnight is still day 0 in
    UTC and already day 1 one hour east. *)
Example dates_on_examples :
  startOfWeek 0 = -4 /\ endOfWeek 0 = 2 /\ startOfWeek 3 = 3
  /\ format_date 0 (DAY - 1) = 0 /\ format_date 3600000 (DAY - 1) = 1
  /\ format_date 0 (-1) = -1
  /\ at_wall_clock 3600000 1 T00_00_00 = DAY - 3600000.
Proof. repeat split. Qed.

Example order_desc_is_newest_first :
  order_desc (fun x => x) [3; 1; 4; 1; 5; 9; 2; 6] = [9; 6; 5; 4; 3; 2; 1; 1].
Proof. reflexivity. Qed.

(** ** Running the monad *)

Lemma exec_bind {V A B} (m : M V A) (k : A -> M V B) (w : World V) :
  exec (bind m k) w = exec (k (fst (m w))) (snd (m w)).
Proof. unfold exec, bind. destruct (m w); reflexivity. Qed.

Lemma supabase_lost {V A} (r : request) run (w : World V) msg rest :
  net w = Some msg :: rest ->
  @supabase V A r run w
  = (Err (NetworkError msg),
     mkWorld (ui w) (db w) rest (clock w) (client_tz w) (server_tz w)
             (trace w ++ [Request r (Some (NetworkError msg))])).
Proof. intros H. unfold supabase. rewrite H. reflexivity. Qed.

Lemma supabase_delivered {V A} (r : request) run (w : World V) :
  delivered w ->
  @supabase V A r run w
  = (fst (run (clock w) (server_tz w) (db w)),
     mkWorld (ui w) (snd (run (clock w) (server_tz w) (db w))) (tl (net w))
             (clock w) (client_tz w) (server_tz w)
             (trace w ++ [Request r
                            (error_of (fst (run (clock w) (server_tz w)
                                                (db w))))])).
Proof.
  unfold delivered, supabase. intros H.
  destruct (net w) as [|[m|] rest]; try contradiction;
    destruct (run (clock w) (server_tz w) (db w)); reflexivity.
Qed.

Lemma delivered_dec {V} (w : World V) :
  delivered w \/ exists msg rest, net w = Some msg :: rest.
Proof.
  unfold delivered. destruct (net w) as [|[m|] rest]; eauto.
Qed.

(* ----------------------------------------------------------------- *)
(** ** Streak metrics *)

(** C8: whatever the database holds and whatever the transport does, the
    dashboard sets the current streak to the constant 7 and the analytics
    page sets the best streak to the constant 12 each time the data of a
    signed-in user is fetched; neither is computed from the completion
    records. *)
Theorem streaks_are_constants (u : User)
    (wd : World Dashboard.State) (wa : World Analytics.State) :
  Dashboard.currentStreak
    (Dashboard.stats (ui (exec (Dashboard.fetchDashboardData (Some u)) wd))) = 7
  /\ Analytics.bestStreak
       (Analytics.analyticsData
          (ui (exec (Analytics.fetchAnalyticsData (Some u)) wa))) = 12.
Proof.
  split.
  - unfold Dashboard.fetchDashboardData.
    repeat (rewrite exec_bind; cbn [fst snd today new_Date getState timeZone]).
    reflexivity.
  - unfold Analytics.fetchAnalyticsData.
    repeat (rewrite exec_bind; cbn [fst snd today new_Date getState timeZone]).
    reflexivity.
Qed.

(* ----------------------------------------------------------------- *)
(** ** Handlers without a signed-in user *)



(* ----------------------------------------------------------------- *)
(** ** The completion rate of the analytics page *)

Lemma days_of_cases (r : string) :
  Analytics.days_of r = 7 \/ Analytics.days_of r = 30
  \/ Analytics.days_of r = 90.
Proof.
  unfold Analytics.days_of.
  destruct (String.eqb r "7days"); auto.
  destruct (String.eqb r "30days"); auto.
Qed.

Lemma rate_guard (h c days : Z) :
  0 <= h -> 0 < days ->
  (h = 0 -> Analytics.rate h c days = 0)
  /\ (0 < h ->
      Analytics.totalPossible h days <> 0
      /\ Analytics.rate h c days
         = Math_round (PrimFloat.mul
                         (PrimFloat.div (of_Z c) (of_Z (h * days)))
                         (of_Z 100))).
Proof.
  intros Hh Hd. unfold Analytics.rate, Analytics.totalPossible. split.
  - intros ->. reflexivity.
  - intros Hpos.
    assert (0 < h * days) by nia.
    split; [lia|].
    destruct (0 <? h * days) eqn:E; [reflexivity|].
    apply Z.ltb_ge in E. lia.
Qed.

(** The guard of the rate: it never divides by zero.  With no active habit
    the rate is exactly 0.  With at least one, the divisor habits x days is
    not zero and the rate is [Math.round] of the double
    [(completions / (habits x days)) * 100], the division done first. *)
Lemma completion_rate_guarded (u : User) (w : World Analytics.State) :
  net w = [] ->
  let w' := exec (Analytics.fetchAnalyticsData (Some u)) w in
  let days := Analytics.days_of (Analytics.timeRange (ui w)) in
  let h := active_habit_count u (db w) in
  let c := completions_since_count u days w in
  let r := Analytics.completionRate (Analytics.analyticsData (ui w')) in
  (days = 7 \/ days = 30 \/ days = 90)
  /\ (h = 0 -> r = 0)
  /\ (0 < h ->
      Analytics.totalPossible h days <> 0
      /\ r = Math_round (PrimFloat.mul
                           (PrimFloat.div (of_Z c) (of_Z (h * days)))
                           (of_Z 100))).
Proof.
  intros Hnet w' days h c r.
  assert (Hdays := days_of_cases (Analytics.timeRange (ui w))).
  fold days in Hdays.
  assert (Hr : r = Analytics.rate h c days).
  { subst r w'. unfold Analytics.fetchAnalyticsData.
    repeat (rewrite exec_bind; cbn [fst snd today new_Date getState timeZone]).
    unfold supabase. rewrite Hnet. cbn. reflexivity. }
  split; [exact Hdays|].
  rewrite Hr. apply rate_guard.
  - unfold h, active_habit_count. lia.
  - lia.
Qed.

(** C10: the claim holds except at ties, where the code falls short of it.
    With four habits over thirty days and 69 completions the ratio is
    exactly 57.5, which rounds to 58, on exact numbers and on doubles when
    the product is formed first; the code divides first, the double
    [69 / 120] times 100 is 57.49999999999999, and [Math.round] takes it
    down to 57. *)
Theorem completion_rate_tie_69_of_120 :
  active_habit_count tie_user tie_db = 4
  /\ Analytics.totalCompletions
       (Analytics.analyticsData
          (ui (exec (Analytics.fetchAnalyticsData (Some tie_user)) tie_world)))
     = 69
  /\ Analytics.completionRate
       (Analytics.analyticsData
          (ui (exec (Analytics.fetchAnalyticsData (Some tie_user)) tie_world)))
     = 57
  /\ Analytics.rate 4 69 30 = 57
  /\ rate_as_stated 4 69 30 = 58
  /\ Math_round (PrimFloat.div (of_Z (100 * 69)) (of_Z (4 * 30))) = 58.
Proof. repeat split; vm_compute; reflexivity. Qed.

(* ----------------------------------------------------------------- *)
(** ** The analyze action of the goal breakdown page *)

(** A goal of one space is not empty, yet it is refused with a toast and
    gets no suggestion, while the goal "x" gets the five. *)
Lemma analyze_blank_goal : ~ analyze_ignores_nonempty_goal.
Proof.
  intros H.
  specialize (H (goal_world [32%N]) (goal_world [120%N])).
  assert (E : @nil GoalBreakdown.SuggestedHabit = GoalBreakdown.mockSuggestions).
  { apply H; discriminate. }
  discriminate E.
Qed.

Lemma analyzeGoal_accepts (w : World GoalBreakdown.State) :
  trim (GoalBreakdown.goal (ui w)) <> [] ->
  exec GoalBreakdown.analyzeGoal w
  = mkWorld
      (GoalBreakdown.mkState (GoalBreakdown.goal (ui w))
         GoalBreakdown.mockSuggestions false
         (GoalBreakdown.selectedHabits (ui w)))
      (db w) (net w) (clock w) (client_tz w) (server_tz w)
      (trace w ++ [toast_success
         "Goal analyzed! Here are your personalized habit suggestions."]).
Proof.
  intros H. unfold GoalBreakdown.analyzeGoal.
  rewrite exec_bind. cbn [getState fst snd].
  destruct (trim (GoalBreakdown.goal (ui w))) eqn:E; [contradiction|].
  reflexivity.
Qed.

(** C7, as the code has it: for any two goal texts that are not blank,
    that is, not
    empty once [trim] has stripped the white space, the analyze action
    produces the same list, the five fixed suggestions, whatever the goals
    and whatever was suggested before; it sends no request. *)
Theorem analyze_ignores_goal (w1 w2 : World GoalBreakdown.State) :
  trim (GoalBreakdown.goal (ui w1)) <> [] ->
  trim (GoalBreakdown.goal (ui w2)) <> [] ->
  GoalBreakdown.suggestedHabits (ui (exec GoalBreakdown.analyzeGoal w1))
  = GoalBreakdown.suggestedHabits (ui (exec GoalBreakdown.analyzeGoal w2))
  /\ GoalBreakdown.suggestedHabits (ui (exec GoalBreakdown.analyzeGoal w1))
     = GoalBreakdown.mockSuggestions
  /\ List.length GoalBreakdown.mockSuggestions = 5%nat
  /\ requests_of (trace (exec GoalBreakdown.analyzeGoal w1))
     = requests_of (trace w1).
Proof.
  intros H1 H2.
  rewrite (analyzeGoal_accepts w1 H1), (analyzeGoal_accepts w2 H2).
  cbn [ui trace GoalBreakdown.suggestedHabits].
  repeat split.
  unfold requests_of. rewrite filter_app. cbn. apply app_nil_r.
Qed.

Lemma analyze_ignores_goal_witness :
  GoalBreakdown.suggestedHabits
    (ui (exec GoalBreakdown.analyzeGoal
           (goal_world [82%N; 117%N; 110%N])))
  = GoalBreakdown.suggestedHabits
      (ui (exec GoalBreakdown.analyzeGoal (goal_world [120%N]))).
Proof.
  apply (analyze_ignores_goal (goal_world [82%N; 117%N; 110%N])
                              (goal_world [120%N])); vm_compute; discriminate.
Defined.

(* ----------------------------------------------------------------- *)
(** ** Templates *)

Lemma applyTemplate_run (u : User) (t : Templates.Template)
    (w : World Templates.State) :
  let rows := Templates.habitsToCreate u t in
  let w' := exec (Templates.applyTemplate (Some u) t) w in
  match net w with
  | Some msg :: rest =>
      w' = mkWorld (Templates.mkState false) (db w) rest (clock w)
             (client_tz w) (server_tz w)
             (trace w ++ [Request (InsertHabits rows)
                                  (Some (NetworkError msg));
                          toast_error ("Error applying template: " ++ msg)])
  | _ =>
      w' = mkWorld (Templates.mkState false)
             (bump_uuid (List.length rows)
                (set_habits (habits (db w)
                             ++ new_habits (clock w) (next_uuid (db w)) rows)
                            (db w)))
             (tl (net w)) (clock w) (client_tz w) (server_tz w)
             (trace w ++ [Request (InsertHabits rows) None;
                          toast_success
                            (Templates.name t ++ " template applied! "
                             ++ Templates.show_nat
                                  (List.length (Templates.template_habits t))
                             ++ " habits created 🎉")])
  end.
Proof.
  intros rows w'. subst w'. unfold Templates.applyTemplate.
  assert (Hrls : forallb (fun r => Nat.eqb (hi_user_id r) (id u)) rows = true).
  { apply forallb_forall. intros r Hr. unfold rows, Templates.habitsToCreate in Hr.
    apply in_map_iff in Hr. destruct Hr as (x & <- & _). cbn.
    apply Nat.eqb_refl. }
  rewrite exec_bind. cbn [setState fst snd].
  rewrite exec_bind. unfold supabase at 1 2. cbn [net].
  destruct (net w) as [|[msg|] rest]; cbn [fst snd].
  - unfold insert_habits. cbn [db clock]. fold rows. rewrite Hrls.
    cbn. rewrite <- app_assoc. reflexivity.
  - cbn. rewrite <- app_assoc. reflexivity.
  - unfold insert_habits. cbn [db clock]. fold rows. rewrite Hrls.
    cbn. rewrite <- app_assoc. reflexivity.
Qed.


(* ----------------------------------------------------------------- *)
(** ** "Today" *)

Lemma format_date_bounds (tz t : Z) :
  format_date tz t * DAY <= t + tz < format_date tz t * DAY + DAY.
Proof.
  unfold format_date, DAY.
  pose proof (Z.div_mod (t + tz) 86400000 ltac:(lia)).
  pose proof (Z.mod_pos_bound (t + tz) 86400000 ltac:(lia)).
  lia.
Qed.

Lemma format_date_unique (tz t d : Z) :
  d * DAY <= t + tz < d * DAY + DAY -> format_date tz t = d.
Proof.
  intros H. pose proof (format_date_bounds tz t) as B.
  unfold DAY in *. nia.
Qed.

(** The comparison of date strings in [isCompletedToday] is exactly
    membership in today's interval. *)
Lemma same_date_iff_in_today (tz now t : Z) :
  (HabitsManager.toDateString tz t =? HabitsManager.toDateString tz now) = true
  <-> in_today tz now t.
Proof.
  unfold HabitsManager.toDateString, in_today, local_midnight, at_wall_clock,
    T00_00_00.
  rewrite Z.eqb_eq. split.
  - intros E. pose proof (format_date_bounds tz t) as B. rewrite E in B. lia.
  - intros H. apply format_date_unique. lia.
Qed.

(** The query window stops one second short of the next midnight, even when
    server and client agree on the zone. *)
Lemma query_window_iff (tz now t : Z) :
  in_query_window tz tz now t = true
  <-> local_midnight tz now <= t < local_midnight tz now + DAY - 1000.
Proof.
  unfold in_query_window, local_midnight, at_wall_clock, T00_00_00, T23_59_59,
    DAY.
  rewrite andb_true_iff, Z.leb_le, Z.ltb_lt. lia.
Qed.

(** C4: a mood entry and a completion stored at 23:59:59.500 lie in today's
    interval when looked at 23:59:59.800 the same day, server and client
    both on UTC.  The mood check and the dashboard count do not take them
    for today's: their window ends at 23:59:59, exclusive.  The habit check
    compares calendar dates and would take the completion for today's, but
    it reads the key [completions], which the fetch never fills, so it
    answers false on the fetched habit. *)
Theorem last_second_is_not_today :
  in_today 0 late_now late_stamp
  /\ in_query_window 0 0 late_now late_stamp = false
  /\ MoodJournal.todayMood
       (ui (exec (MoodJournal.checkTodayMood (Some late_user))
                 (late_world MoodJournal.init))) = None
  /\ Dashboard.todayCompleted
       (Dashboard.stats
          (ui (exec (Dashboard.fetchDashboardData (Some late_user))
                    (late_world Dashboard.init)))) = 0
  /\ map (fun h => (habit_completions_ h,
                    HabitsManager.isCompletedToday 0 late_now h))
         (HabitsManager.habits
            (ui (exec (HabitsManager.fetchHabits (Some late_user))
                      (late_world HabitsManager.init))))
     = [([mkCompletionView late_stamp None], false)]
  /\ HabitsManager.isCompletedToday 0 late_now
       (mkHabit late_habit [] (Some [mkCompletionView late_stamp None]))
     = true.
Proof.
  split; [unfold in_today; vm_compute; split; [discriminate | reflexivity]|].
  repeat split; vm_compute; reflexivity.
Qed.

(* ----------------------------------------------------------------- *)
(** ** One mood entry a day *)

(** C2: the second submission of a day must update the row of the first.
    When the first one falls in the last second of the day, the existence
    check (window closed at 23:59:59, exclusive) does not see its row; the
    second submission inserts again and the user has two rows for that
    day. *)
Theorem two_moods_in_the_last_second :
  map (fun m => (m_user_id m, m_mood_rating m, m_created_at m))
      (moods_on late_user 0 20000 (db two_late_submissions))
  = [(1%nat, 4, 20000 * DAY + 86399200); (1%nat, 2, 20000 * DAY + 86399600)]
  /\ map (fun e => match e with
                   | Request (InsertMood _ _ _) None => 1
                   | Request (UpdateMood _ _ _) _ => 2
                   | _ => 0
                   end)
         (requests_of (trace two_late_submissions))
     = [0; 1; 0; 0; 1; 0].
Proof. split; vm_compute; reflexivity. Qed.

(* ----------------------------------------------------------------- *)
(** ** Challenge participation *)

Lemma participates_iff (c u : uuid) (p : ParticipantRow) :
  participates c u p = true <-> participation_key p = (c, u).
Proof.
  unfold participates, participation_key.
  rewrite andb_true_iff, !Nat.eqb_eq. split.
  - intros [-> ->]. reflexivity.
  - intros E. inversion E. auto.
Qed.

Lemma existsb_participates_false (c u : uuid) (l : list ParticipantRow) :
  existsb (participates c u) l = false ->
  ~ In (c, u) (map participation_key l).
Proof.
  intros H Hin. apply in_map_iff in Hin. destruct Hin as (p & Hk & Hp).
  assert (E : existsb (participates c u) l = true).
  { apply existsb_exists. exists p. split; [exact Hp|].
    apply participates_iff. exact Hk. }
  congruence.
Qed.

Lemma NoDup_map_filter {A B} (f : A -> B) (keep : A -> bool) (l : list A) :
  NoDup (map f l) -> NoDup (map f (filter keep l)).
Proof.
  induction l as [|x l IH]; cbn; intros H; [constructor|].
  inversion H as [|? ? Hx Hl]; subst.
  destruct (keep x); cbn; auto.
  constructor; auto.
  intros Hin. apply Hx.
  apply in_map_iff in Hin. destruct Hin as (y & <- & Hy).
  apply in_map. apply filter_In in Hy. tauto.
Qed.

Lemma NoDup_snoc {A} (l : list A) (x : A) :
  NoDup l -> ~ In x l -> NoDup (l ++ [x]).
Proof.
  intros Hl Hx. induction Hl as [|y l Hy Hl IH]; cbn.
  - constructor; [intros []|constructor].
  - constructor.
    + rewrite in_app_iff. cbn. intros [H|[H|[]]]; [tauto|].
      subst. apply Hx. left. reflexivity.
    + apply IH. intros H. apply Hx. right. exact H.
Qed.

(** The unique constraint does its work: whoever inserts, whatever the
    session, the table stays free of duplicates. *)
Lemma insert_participant_unique (auth : uuid) (now : instant) (c u : uuid)
    (d : Db) :
  unique_participation d ->
  unique_participation (snd (insert_participant auth now c u d)).
Proof.
  intros H. unfold insert_participant.
  destruct (negb (Nat.eqb u auth)); [exact H|].
  destruct (existsb (participates c u) (challenge_participants d)) eqn:E;
    [exact H|].
  destruct (negb (existsb _ (challenges d))); [exact H|].
  unfold unique_participation. cbn. rewrite map_app. cbn.
  apply NoDup_snoc; [exact H|].
  apply existsb_participates_false. exact E.
Qed.

Lemma delete_participant_unique (auth c u : uuid) (d : Db) :
  unique_participation d ->
  unique_participation (snd (delete_participant auth c u d)).
Proof.
  intros H. unfold unique_participation. cbn. apply NoDup_map_filter. exact H.
Qed.

(** What the three handlers of the page do to the database. *)
Lemma db_fetchMyParticipations (user : option User) (w : World Challenges.State) :
  db (exec (Challenges.fetchMyParticipations user) w) = db w.
Proof.
  destruct user as [u|]; [|reflexivity].
  unfold Challenges.fetchMyParticipations, exec, bind, supabase.
  destruct (net w) as [|[m|] rest]; reflexivity.
Qed.

Lemma db_joinChallenge (u : User) (c : uuid) (w : World Challenges.State) :
  db (exec (Challenges.joinChallenge (Some u) c) w)
  = match net w with
    | Some _ :: _ => db w
    | _ => snd (insert_participant (id u) (clock w) c (id u) (db w))
    end.
Proof.
  unfold Challenges.joinChallenge. rewrite exec_bind.
  destruct (delivered_dec w) as [D|(m & rest & E)].
  - rewrite supabase_delivered by exact D. cbn [fst snd].
    assert (net w = [] \/ exists rest, net w = None :: rest) as [E|[rest E]].
    { unfold delivered in D. destruct (net w) as [|[m|] rest]; eauto.
      contradiction. }
    all: rewrite E;
      destruct (insert_participant (id u) (clock w) c (id u) (db w))
        as [[[]|e] d'];
      cbn [fst snd]; try reflexivity;
      rewrite exec_bind; cbn [emit fst snd];
      rewrite db_fetchMyParticipations; reflexivity.
  - rewrite (supabase_lost _ _ _ E). rewrite E. reflexivity.
Qed.

Lemma db_leaveChallenge (u : User) (c : uuid) (w : World Challenges.State) :
  db (exec (Challenges.leaveChallenge (Some u) c) w)
  = match net w with
    | Some _ :: _ => db w
    | _ => snd (delete_participant (id u) c (id u) (db w))
    end.
Proof.
  unfold Challenges.leaveChallenge. rewrite exec_bind.
  destruct (delivered_dec w) as [D|(m & rest & E)].
  - rewrite supabase_delivered by exact D. cbn [fst snd delete_participant].
    rewrite exec_bind. cbn [emit fst snd]. rewrite db_fetchMyParticipations.
    unfold delivered in D. destruct (net w) as [|[m|] rest];
      try contradiction; reflexivity.
  - rewrite (supabase_lost _ _ _ E). rewrite E. reflexivity.
Qed.

Lemma challenge_step_unique w w' :
  challenge_step w w' ->
  unique_participation (db w) -> unique_participation (db w').
Proof.
  intros S H. destruct S as [[u|] c w|[u|] c w|user w|w w' E]; try exact H.
  - rewrite db_joinChallenge. destruct (net w) as [|[m|] rest]; try exact H;
      apply insert_participant_unique; exact H.
  - rewrite db_leaveChallenge. destruct (net w) as [|[m|] rest]; try exact H;
      apply delete_participant_unique; exact H.
  - rewrite db_fetchMyParticipations. exact H.
  - unfold unique_participation. rewrite E. exact H.
Qed.

Lemma reachable_unique w :
  challenge_reachable w -> unique_participation (db w).
Proof.
  induction 1 as [w E|w w' _ IH S].
  - unfold unique_participation. rewrite E. constructor.
  - exact (challenge_step_unique S IH).
Qed.

Lemma filter_participates_nil (c u : uuid) (l : list ParticipantRow) :
  ~ In (c, u) (map participation_key l) -> filter (participates c u) l = [].
Proof.
  induction l as [|p l IH]; cbn; intros H; [reflexivity|].
  destruct (participates c u p) eqn:E.
  - exfalso. apply H. left. apply participates_iff. exact E.
  - apply IH. tauto.
Qed.

Lemma unique_at_most_one (c u : uuid) (l : list ParticipantRow) :
  NoDup (map participation_key l) ->
  (List.length (filter (participates c u) l) <= 1)%nat.
Proof.
  induction l as [|p l IH]; cbn; intros H; [lia|].
  inversion H as [|? ? Hp Hl]; subst.
  destruct (participates c u p) eqn:E.
  - apply participates_iff in E. rewrite E in Hp.
    rewrite (filter_participates_nil _ _ _ Hp). cbn. lia.
  - apply IH. exact Hl.
Qed.

Lemma filter_split_length {A} (keep : A -> bool) (l : list A) :
  (List.length (filter keep l)
   + List.length (filter (fun x => negb (keep x)) l))%nat
  = List.length l.
Proof.
  induction l as [|x l IH]; cbn; [reflexivity|].
  destruct (keep x); cbn; lia.
Qed.

Lemma own_row_filter (c u : uuid) (l : list ParticipantRow) :
  filter (fun p => negb (participates c u p && Nat.eqb (cp_user_id p) u)) l
  = filter (fun p => negb (participates c u p)) l.
Proof.
  apply filter_ext. intros p. unfold participates.
  destruct (Nat.eqb (cp_challenge_id p) c), (Nat.eqb (cp_user_id p) u);
    reflexivity.
Qed.

Lemma join_twice_rejected (u : User) (c : uuid) (w : World Challenges.State) :
  delivered w ->
  existsb (participates c (id u)) (challenge_participants (db w)) = true ->
  exec (Challenges.joinChallenge (Some u) c) w
  = mkWorld (ui w) (db w) (tl (net w)) (clock w) (client_tz w) (server_tz w)
      (trace w
       ++ [Request (InsertParticipant c (id u))
                   (Some (UniqueViolation t_challenge_participants));
           toast_error
             ("Error joining challenge: "
              ++ message (UniqueViolation t_challenge_participants))]).
Proof.
  intros D E. unfold Challenges.joinChallenge. rewrite exec_bind.
  rewrite supabase_delivered by exact D.
  unfold insert_participant. rewrite Nat.eqb_refl, E. cbn.
  rewrite <- app_assoc. reflexivity.
Qed.

Lemma leave_deletes_own_row (u : User) (c : uuid) (w : World Challenges.State) :
  delivered w ->
  db (exec (Challenges.leaveChallenge (Some u) c) w)
  = set_challenge_participants
      (filter (fun p => negb (participates c (id u) p))
              (challenge_participants (db w)))
      (db w).
Proof.
  intros D. rewrite db_leaveChallenge.
  unfold delivered in D.
  destruct (net w) as [|[m|] rest]; try contradiction;
    cbn [snd delete_participant]; rewrite own_row_filter; reflexivity.
Qed.

(** C6: a join while the user's participation row for the challenge exists
    is rejected by the unique constraint on (challenge, user) and changes
    nothing; leaving deletes the caller's own row for that challenge, at
    most one, and keeps every other row of the table and every other table
    as they were; and no run of the page, whoever joins and leaves, ever
    reaches a table with two rows for the same (challenge, user). *)
Theorem participation_is_unique :
  (forall (u : User) (c : uuid) (w : World Challenges.State),
      delivered w ->
      existsb (participates c (id u)) (challenge_participants (db w)) = true ->
      let w' := exec (Challenges.joinChallenge (Some u) c) w in
      db w' = db w
      /\ ui w' = ui w
      /\ trace w'
         = trace w
           ++ [Request (InsertParticipant c (id u))
                       (Some (UniqueViolation t_challenge_participants));
               toast_error
                 ("Error joining challenge: "
                  ++ message (UniqueViolation t_challenge_participants))])
  /\ (forall (u : User) (c : uuid) (w : World Challenges.State),
        delivered w ->
        unique_participation (db w) ->
        let before := challenge_participants (db w) in
        let after :=
          challenge_participants
            (db (exec (Challenges.leaveChallenge (Some u) c) w)) in
        after = filter (fun p => negb (participates c (id u) p)) before
        /\ (forall p, In p after
                      <-> In p before /\ participation_key p <> (c, id u))
        /\ (List.length before <= List.length after + 1)%nat
        /\ set_challenge_participants before
             (db (exec (Challenges.leaveChallenge (Some u) c) w))
           = db w)
  /\ (forall w, challenge_reachable w -> unique_participation (db w)).
Proof.
  split; [|split].
  - intros u c w D E w'. subst w'.
    rewrite (join_twice_rejected u c w D E). cbn. auto.
  - intros u c w D U before after. subst after.
    rewrite (leave_deletes_own_row u c w D). cbn. fold before.
    split; [reflexivity|]. split; [|split].
    + intros p. rewrite filter_In, negb_true_iff.
      rewrite <- participates_iff.
      destruct (participates c (id u) p); intuition congruence.
    + pose proof (filter_split_length (participates c (id u)) before).
      pose proof (unique_at_most_one c (id u) before U). lia.
    + unfold set_challenge_participants. cbn. destruct (db w); reflexivity.
  - exact reachable_unique.
Qed.

Lemma participation_is_unique_witness :
  db (exec (Challenges.joinChallenge (Some late_user) 7%nat) joined_once)
  = db joined_once
  /\ map participation_key
       (challenge_participants
          (db (exec (Challenges.leaveChallenge (Some late_user) 7%nat)
                    joined_once)))
     = [(7%nat, 2%nat)]
  /\ unique_participation
       (db (exec (Challenges.joinChallenge (Some late_user) 7%nat)
                 (mkWorld Challenges.init empty_db [] 0 0 0 []))).
Proof.
  destruct participation_is_unique as (J & L & R).
  split; [|split].
  - apply (J late_user 7%nat joined_once); [exact I | reflexivity].
  - assert (U : unique_participation (db joined_once)).
    { unfold unique_participation. vm_compute.
      constructor; [intros [E|[]]; discriminate E|].
      constructor; [intros []|constructor]. }
    destruct (L late_user 7%nat joined_once I U) as (E & _).
    rewrite E. reflexivity.
  - apply R.
    apply reach_step with (w := mkWorld Challenges.init empty_db [] 0 0 0 []).
    + apply reach_start. reflexivity.
    + apply step_join.
Defined.

(* ----------------------------------------------------------------- *)
(** ** Requests that fail, requests that succeed *)

Lemma supabase_cases {V A} (r : request)
    (run : instant -> Z -> Db -> response A * Db) (w : World V) :
  (exists msg,
      net w = Some msg :: tl (net w)
      /\ supabase r run w
         = (Err (NetworkError msg),
            after_request w (db w) r (Some (NetworkError msg))))
  \/ (delivered w
      /\ supabase r run w
         = (fst (run (clock w) (server_tz w) (db w)),
            after_request w (snd (run (clock w) (server_tz w) (db w))) r
              (error_of (fst (run (clock w) (server_tz w) (db w)))))).
Proof.
  destruct (delivered_dec w) as [D|(m & rest & E)].
  - right. split; [exact D|]. apply supabase_delivered. exact D.
  - left. exists m. rewrite E. split; [reflexivity|].
    rewrite (supabase_lost _ _ _ E). unfold after_request. rewrite E.
    reflexivity.
Qed.

Lemma insert_habits_atomic auth now rows : atomic (insert_habits auth now rows).
Proof.
  intros d e. unfold insert_habits.
  destruct (forallb _ rows); cbn; [discriminate|reflexivity].
Qed.

Lemma update_habit_atomic auth now i p : atomic (update_habit auth now i p).
Proof.
  intros d e. unfold update_habit.
  destruct (forallb _ (habits d)); cbn; [discriminate|reflexivity].
Qed.






(** The shape every write handler has: one request, then either the
    follow-up or an error toast with the message of the backend. *)
Section GuardedWrite.

Variables V A : Type.
Variable req : request.
Variable run : instant -> Z -> Db -> response A * Db.
Variable on_ok : M V unit.
Variable prefix : string.

Hypothesis run_atomic : forall now tz, atomic (run now tz).
Hypothesis on_ok_extends :
  forall w, exists evs, trace (exec on_ok w) = trace w ++ evs.



End GuardedWrite.

(** *** The three list fetches *)

Lemma fetchHabits_run (u : User) (w : World HabitsManager.State) :
  (exists msg,
      net w = Some msg :: tl (net w)
      /\ exec (HabitsManager.fetchHabits (Some u)) w
         = mkWorld (HabitsManager.setLoading false (ui w)) (db w) (tl (net w))
             (clock w) (client_tz w) (server_tz w)
             (trace w ++ [Request (SelectHabits (id u))
                                  (Some (NetworkError msg));
                          toast_error ("Error fetching habits: " ++ msg)]))
  \/ (delivered w
      /\ exec (HabitsManager.fetchHabits (Some u)) w
         = mkWorld
             (HabitsManager.setLoading false
                (HabitsManager.setHabits (fetched_habits u (db w)) (ui w)))
             (db w) (tl (net w)) (clock w) (client_tz w) (server_tz w)
             (trace w ++ [Request (SelectHabits (id u)) None])).
Proof.
  unfold HabitsManager.fetchHabits. rewrite exec_bind.
  destruct (supabase_cases (V := HabitsManager.State) (SelectHabits (id u))
              (fun _ _ => select_habits (id u) (id u)) w)
    as [(m & N & E)|(D & E)]; rewrite E; cbn [fst snd].
  - left. exists m. split; [exact N|]. cbn. rewrite <- app_assoc. reflexivity.
  - right. split; [exact D|]. reflexivity.
Qed.


Lemma fetchMoodEntries_run (u : User) (w : World MoodJournal.State) :
  (exists msg,
      net w = Some msg :: tl (net w)
      /\ exec (MoodJournal.fetchMoodEntries (Some u)) w
         = mkWorld (MoodJournal.setLoading false (ui w)) (db w) (tl (net w))
             (clock w) (client_tz w) (server_tz w)
             (trace w ++ [Request (SelectMoodEntries (id u))
                                  (Some (NetworkError msg));
                          console_error "Error fetching mood entries:"]))
  \/ (delivered w
      /\ exec (MoodJournal.fetchMoodEntries (Some u)) w
         = mkWorld
             (MoodJournal.setLoading false
                (MoodJournal.setMoodEntries (fetched_moods u (db w)) (ui w)))
             (db w) (tl (net w)) (clock w) (client_tz w) (server_tz w)
             (trace w ++ [Request (SelectMoodEntries (id u)) None])).
Proof.
  unfold MoodJournal.fetchMoodEntries. rewrite exec_bind.
  destruct (supabase_cases (V := MoodJournal.State)
              (SelectMoodEntries (id u))
              (fun _ _ => select_mood_entries (id u) (id u)) w)
    as [(m & N & E)|(D & E)]; rewrite E; cbn [fst snd].
  - left. exists m. split; [exact N|]. cbn. rewrite <- app_assoc. reflexivity.
  - right. split; [exact D|]. reflexivity.
Qed.



(** *** The write handlers, as guarded writes *)

Lemma completeHabit_guarded (u : User) (h : uuid) (w : World HabitsManager.State) :
  exec (HabitsManager.completeHabit (Some u) h) w
  = exec (guarded_write
            (InsertCompletion (mkCompletionInsert h (id u) (clock w)))
            (fun _ _ => insert_completion (id u)
                          (mkCompletionInsert h (id u) (clock w)))
            (emit (toast_success "Habit completed! 🎉") ;;
             HabitsManager.fetchHabits (Some u))
            "Error completing habit: ") w.
Proof. reflexivity. Qed.

Lemma deleteHabit_guarded (u : User) (h : uuid) (w : World HabitsManager.State) :
  exec (HabitsManager.deleteHabit (Some u) h) w
  = exec (guarded_write
            (UpdateHabit h (SetActive false))
            (fun now _ => update_habit (id u) now h (SetActive false))
            (emit (toast_success "Habit deleted successfully") ;;
             HabitsManager.fetchHabits (Some u))
            "Error deleting habit: ") w.
Proof. reflexivity. Qed.


(** *** Saving the habit form *)

Lemma submit_write_atomic u s now : atomic (submit_write u s now).
Proof.
  unfold submit_write. destruct (HabitsManager.selectedHabit s).
  - apply update_habit_atomic.
  - apply insert_habits_atomic.
Qed.

Lemma bind_run {V A B} (m : M V A) (k : A -> M V B) (w : World V) :
  bind m k w = k (fst (m w)) (snd (m w)).
Proof. unfold bind. destruct (m w); reflexivity. Qed.

Lemma handleSubmit_unfold (u : User) (w : World HabitsManager.State) :
  exec (HabitsManager.handleSubmit (Some u)) w
  = match fst (submit_outcome u w) with
    | Ok _ =>
        closing
          (exec (HabitsManager.fetchHabits (Some u))
             (exec (emit (toast_success (submit_toast (ui w))))
                   (snd (submit_outcome u w))))
    | Err e =>
        exec (setState (modal_loading false))
          (exec (emit (toast_error ("Error saving habit: " ++ message e)))
                (snd (submit_outcome u w)))
    end.
Proof.
  unfold submit_outcome, submit_request, submit_write, submit_toast, busy,
    modal_loading, form_of, habitData.
  unfold HabitsManager.handleSubmit, CreateHabitModal.handleSubmit.
  unfold exec at 1. rewrite bind_run. cbn [getState fst snd].
  rewrite bind_run. cbn [getState fst snd].
  rewrite bind_run. cbn [CreateHabitModal.setLoading setState fst snd].
  destruct (HabitsManager.selectedHabit (ui w)) as [h|]; cbv beta iota;
    rewrite bind_run; rewrite (bind_run (supabase _ _));
    match goal with
    | |- context [supabase ?r ?run ?w0] =>
        destruct (supabase (A := unit) r run w0) as [[[]|e] w1]
    end;
    cbn [fst snd];
    repeat (rewrite bind_run; cbn [fst snd emit ret setState]);
    reflexivity.
Qed.

Lemma handleSubmit_run (u : User) (w : World HabitsManager.State) :
  let s := ui w in
  let req := submit_request u s in
  let failed (e : PgError) :=
    mkWorld (modal_loading false s) (db w) (tl (net w)) (clock w)
      (client_tz w) (server_tz w)
      (trace w ++ [Request req (Some e);
                   toast_error ("Error saving habit: " ++ message e)]) in
  (exists msg,
      net w = Some msg :: tl (net w)
      /\ exec (HabitsManager.handleSubmit (Some u)) w
         = failed (NetworkError msg))
  \/ (delivered w
      /\ exists e,
           fst (submit_write u s (clock w) (db w)) = Err e
           /\ exec (HabitsManager.handleSubmit (Some u)) w = failed e)
  \/ (delivered w
      /\ fst (submit_write u s (clock w) (db w)) = Ok tt
      /\ exec (HabitsManager.handleSubmit (Some u)) w
         = closing
             (exec (HabitsManager.fetchHabits (Some u))
                (mkWorld (modal_loading true s)
                   (snd (submit_write u s (clock w) (db w)))
                   (tl (net w)) (clock w) (client_tz w) (server_tz w)
                   (trace w ++ [Request req None;
                                toast_success (submit_toast s)])))).
Proof.
  intros s req failed.
  pose proof (submit_write_atomic u s (clock w) (db w)) as At.
  rewrite handleSubmit_unfold. unfold submit_outcome. fold s req.
  destruct (supabase_cases (A := unit) req
              (fun now _ => submit_write u s now) (busy w))
    as [(m & N & E)|(D & E)]; rewrite E; cbn [fst snd].
  - left. exists m. split; [exact N|]. subst failed. cbn.
    rewrite <- app_assoc. reflexivity.
  - right. cbn [busy db clock server_tz] in *.
    destruct (submit_write u s (clock w) (db w)) as [[[]|e] d'];
      cbn [fst snd] in *.
    + right. split; [exact D|]. split; [reflexivity|].
      cbn. rewrite <- app_assoc. reflexivity.
    + left. split; [exact D|]. exists e. split; [reflexivity|].
      rewrite (At e eq_refl). subst failed. cbn.
      rewrite <- app_assoc. reflexivity.
Qed.

(** *** Submitting a mood *)



(* ----------------------------------------------------------------- *)
(** ** Failed calls *)






(* ----------------------------------------------------------------- *)
(** ** Refetch after a mutation *)

Lemma In_insert_desc {A} (key : A -> Z) (x y : A) (l : list A) :
  In y (insert_desc key x l) <-> y = x \/ In y l.
Proof.
  induction l as [|z l IH]; cbn.
  - intuition congruence.
  - destruct (key z <=? key x); cbn; [intuition congruence|].
    rewrite IH. intuition congruence.
Qed.

Lemma In_order_desc {A} (key : A -> Z) (x : A) (l : list A) :
  In x (order_desc key l) <-> In x l.
Proof.
  unfold order_desc. induction l as [|y l IH]; cbn; [tauto|].
  rewrite In_insert_desc, IH. intuition congruence.
Qed.

Lemma order_desc_length {A} (key : A -> Z) (l : list A) :
  List.length (order_desc key l) = List.length l.
Proof.
  unfold order_desc. induction l as [|y l IH]; cbn; [reflexivity|].
  rewrite <- IH. generalize (fold_right (insert_desc key) [] l) as s.
  induction s as [|z s IHs]; cbn; [reflexivity|].
  destruct (key z <=? key y); cbn; [reflexivity|]. rewrite IHs. reflexivity.
Qed.

(** *** What each write leaves in the tables *)

Lemma fetched_habit_In (u : User) (d : Db) (habit : Habit) :
  In habit (fetched_habits u d) <->
  exists row,
    habit = embed_completions (id u) d row
    /\ In row (habits d) /\ h_user_id row = id u /\ h_is_active row = true.
Proof.
  unfold fetched_habits, active_habits_of. rewrite in_map_iff. split.
  - intros (row & <- & Hin). apply In_order_desc in Hin.
    apply filter_In in Hin. destruct Hin as (Hin & C).
    rewrite !andb_true_iff, Nat.eqb_eq in C.
    exists row. intuition.
  - intros (row & -> & Hin & Hu & Ha). exists row. split; [reflexivity|].
    apply In_order_desc. apply filter_In. split; [exact Hin|].
    rewrite Hu, Nat.eqb_refl, Ha. reflexivity.
Qed.














(** *** One refetch after each write *)














(* ----------------------------------------------------------------- *)
(** ** One mood entry a day: inside the window *)

(** Where the existence check sees what it should, the handler does what
    the claim says: with no entry in the window it inserts, with one it
    updates that entry and adds none. *)
Lemma submit_without_entry_inserts (u : User) (mood : Z)
    (w : World MoodJournal.State) :
  MoodJournal.todayMood (ui w) = Some mood ->
  net w = [] ->
  valid_rating mood = true ->
  moods_between (id u) (server_tz w) (id u) (today_of w, T00_00_00)
                (today_of w, T23_59_59) (db w) = [] ->
  mood_entries (db (exec (MoodJournal.submitMoodEntry (Some u)) w))
  = mood_entries (db w)
    ++ [mkMoodRow (next_uuid (db w)) (id u) mood (note_of (ui w)) (clock w)].
Proof.
  intros Hm Hnet Hv Hnone.
  destruct w as [v d n t ctz stz tr].
  unfold today_of in *. cbn [ui db net clock client_tz server_tz] in *.
  subst n.
  unfold exec, MoodJournal.submitMoodEntry, bind, getState, supabase,
    select_mood_single, today, setState.
  cbn [ui db net clock client_tz server_tz fst snd tl]. rewrite Hm.
  cbn [ui db net clock client_tz server_tz fst snd tl]. rewrite Hnone.
  unfold insert_mood. rewrite Nat.eqb_refl, Hv.
  reflexivity.
Qed.

Lemma submit_with_entry_updates (u : User) (mood : Z)
    (w : World MoodJournal.State) (entry : MoodRow) :
  MoodJournal.todayMood (ui w) = Some mood ->
  net w = [] ->
  valid_rating mood = true ->
  moods_between (id u) (server_tz w) (id u) (today_of w, T00_00_00)
                (today_of w, T23_59_59) (db w) = [entry] ->
  mood_entries (db (exec (MoodJournal.submitMoodEntry (Some u)) w))
  = map (fun m => if mood_targeted (id u) (m_id entry) m
                  then mkMoodRow (m_id m) (m_user_id m) mood
                                 (note_of (ui w)) (m_created_at m)
                  else m)
        (mood_entries (db w)).
Proof.
  intros Hm Hnet Hv Hone.
  destruct w as [v d n t ctz stz tr].
  unfold today_of in *. cbn [ui db net clock client_tz server_tz] in *.
  subst n.
  unfold exec, MoodJournal.submitMoodEntry, bind, getState, supabase,
    select_mood_single, today, setState.
  cbn [ui db net clock client_tz server_tz fst snd tl]. rewrite Hm.
  cbn [ui db net clock client_tz server_tz fst snd tl]. rewrite Hone.
  unfold update_mood. rewrite Hv, andb_false_r.
  reflexivity.
Qed.

Lemma one_mood_at_daytime :
  map (fun m => (m_user_id m, m_mood_rating m, m_created_at m))
      (moods_on late_user 0 20000 (db two_daytime_submissions))
  = [(1%nat, 2, 20000 * DAY + 36000000)].
Proof. vm_compute. reflexivity. Qed.


(* ----------------------------------------------------------------- *)
(** ** The goal page: selection and creation *)

Lemma set_has_In (i : nat) (s : list nat) :
  GoalBreakdown.set_has i s = true <-> In i s.
Proof.
  unfold GoalBreakdown.set_has. rewrite existsb_exists. split.
  - intros (j & Hj & E). apply Nat.eqb_eq in E. subst. exact Hj.
  - intros H. exists i. split; [exact H | apply Nat.eqb_refl].
Qed.

Lemma set_delete_In (i j : nat) (s : list nat) :
  In j (GoalBreakdown.set_delete i s) <-> j <> i /\ In j s.
Proof.
  unfold GoalBreakdown.set_delete. rewrite filter_In, negb_true_iff.
  rewrite Nat.eqb_neq. tauto.
Qed.

Lemma set_delete_length (i : nat) (s : list nat) :
  NoDup s -> In i s ->
  S (List.length (GoalBreakdown.set_delete i s)) = List.length s.
Proof.
  induction 1 as [|x s Hx Hs IH]; cbn; intros Hin; [contradiction|].
  destruct (Nat.eqb x i) eqn:E; cbn.
  - apply Nat.eqb_eq in E. subst x. f_equal.
    unfold GoalBreakdown.set_delete. rewrite forallb_filter_id.
    + reflexivity.
    + apply forallb_forall. intros y Hy. apply negb_true_iff.
      apply Nat.eqb_neq. intros ->. contradiction.
  - f_equal. apply IH. destruct Hin as [->|H]; [|exact H].
    rewrite Nat.eqb_refl in E. discriminate.
Qed.

Lemma toggle_selection (index : nat) (w : World GoalBreakdown.State) :
  exec (GoalBreakdown.toggleHabitSelection index) w
  = mkWorld
      (GoalBreakdown.setSelectedHabits
         (if GoalBreakdown.set_has index (GoalBreakdown.selectedHabits (ui w))
          then GoalBreakdown.set_delete index
                 (GoalBreakdown.selectedHabits (ui w))
          else (GoalBreakdown.selectedHabits (ui w) ++ [index])%list)
         (ui w))
      (db w) (net w) (clock w) (client_tz w) (server_tz w) (trace w).
Proof.
  unfold GoalBreakdown.toggleHabitSelection, exec, bind, getState, setState.
  cbn [fst snd]. unfold GoalBreakdown.set_add.
  destruct (GoalBreakdown.set_has index _); reflexivity.
Qed.

(** X1: clicking a suggestion card flips the membership of its index in the
    selection and of no other index; the selection stays free of
    repetitions, its size moves by exactly one, a second click on the same
    card restores the selected set, and nothing else of the world changes. *)
Theorem toggle_flips_one_index (index : nat) (w : World GoalBreakdown.State) :
  NoDup (GoalBreakdown.selectedHabits (ui w)) ->
  let before := GoalBreakdown.selectedHabits (ui w) in
  let w' := exec (GoalBreakdown.toggleHabitSelection index) w in
  let after := GoalBreakdown.selectedHabits (ui w') in
  (forall j, In j after <->
             (j = index /\ ~ In index before) \/ (j <> index /\ In j before))
  /\ NoDup after
  /\ (if GoalBreakdown.set_has index before
      then S (List.length after) = List.length before
      else List.length after = S (List.length before))
  /\ (forall j,
        In j (GoalBreakdown.selectedHabits
                (ui (exec (GoalBreakdown.toggleHabitSelection index) w')))
        <-> In j before)
  /\ GoalBreakdown.suggestedHabits (ui w') = GoalBreakdown.suggestedHabits (ui w)
  /\ GoalBreakdown.goal (ui w') = GoalBreakdown.goal (ui w)
  /\ db w' = db w /\ trace w' = trace w.
Proof.
  intros Hnd before w' after.
  assert (Hflip : forall (s : list nat) j,
             In j (if GoalBreakdown.set_has index s
                   then GoalBreakdown.set_delete index s
                   else (s ++ [index])%list)
             <-> (j = index /\ ~ In index s) \/ (j <> index /\ In j s)).
  { intros s j. destruct (GoalBreakdown.set_has index s) eqn:E.
    - apply set_has_In in E. rewrite set_delete_In.
      destruct (Nat.eq_dec j index); subst; tauto.
    - assert (~ In index s) by (rewrite <- set_has_In, E; discriminate).
      rewrite in_app_iff. cbn.
      destruct (Nat.eq_dec j index); subst; intuition congruence. }
  subst w' after. rewrite !toggle_selection. cbn [ui db trace].
  cbn [GoalBreakdown.selectedHabits GoalBreakdown.setSelectedHabits
       GoalBreakdown.suggestedHabits GoalBreakdown.goal].
  fold before.
  split; [apply Hflip|]. split; [|split; [|split]].
  - destruct (GoalBreakdown.set_has index before) eqn:E.
    + unfold GoalBreakdown.set_delete. apply NoDup_filter. exact Hnd.
    + apply NoDup_snoc; [exact Hnd|].
      rewrite <- set_has_In, E. discriminate.
  - destruct (GoalBreakdown.set_has index before) eqn:E.
    + apply set_delete_length; [exact Hnd | apply set_has_In; exact E].
    + rewrite length_app. cbn. lia.
  - intros j. rewrite Hflip, !Hflip.
    destruct (in_dec Nat.eq_dec index before);
      destruct (Nat.eq_dec j index); subst; tauto.
  - repeat split.
Qed.

Lemma toggle_flips_one_index_witness :
  GoalBreakdown.selectedHabits (ui picked_two) = [0%nat; 4%nat]
  /\ NoDup (GoalBreakdown.selectedHabits
              (ui (exec (GoalBreakdown.toggleHabitSelection 0) picked_two))).
Proof.
  split; [reflexivity|].
  assert (N : NoDup (GoalBreakdown.selectedHabits (ui picked_two))).
  { change (NoDup [0%nat; 4%nat]).
    constructor; [intros [E|[]]; discriminate E|].
    constructor; [intros []|constructor]. }
  exact (proj1 (proj2 (toggle_flips_one_index 0 picked_two N))).
Defined.

Lemma habitsToCreate_in_range (u : User) (s : GoalBreakdown.State) :
  Forall (fun index =>
            (index < List.length (GoalBreakdown.suggestedHabits s))%nat)
         (GoalBreakdown.selectedHabits s) ->
  exists rows,
    GoalBreakdown.habitsToCreate u s = Some rows
    /\ List.length rows = List.length (GoalBreakdown.selectedHabits s)
    /\ Forall (fun r => hi_user_id r = id u /\ hi_target_count r = 1) rows
    /\ map (fun r => Some (hi_title r)) rows
       = map (fun index =>
                option_map GoalBreakdown.title
                  (nth_error (GoalBreakdown.suggestedHabits s) index))
             (GoalBreakdown.selectedHabits s).
Proof.
  unfold GoalBreakdown.habitsToCreate.
  generalize (GoalBreakdown.selectedHabits s) as l.
  induction l as [|i l IH]; intros H.
  - exists []. cbn. auto.
  - inversion H as [|? ? Hi Hl]; subst.
    destruct (IH Hl) as (rows & E & Hlen & Hu & Ht).
    cbn [fold_right]. rewrite E.
    destruct (nth_error (GoalBreakdown.suggestedHabits s) i) as [habit|] eqn:N.
    + eexists. split; [reflexivity|]. cbn [List.length map]. rewrite Hlen, Ht.
      split; [reflexivity|]. split; [|cbn; rewrite N; reflexivity].
      constructor; [cbn; auto | exact Hu].
    + apply nth_error_None in N. lia.
Qed.

(** X2: creating the selected habits.  Without a user or with nothing
    selected the handler only shows "Please select at least one habit to
    create".  With a user and a selection in range it sends one request, a
    bulk insert with one row per selected card, in the order of selection,
    each row under the user's id with the title of its suggestion and target
    count 1.  When the request is lost the page keeps goal, suggestions and
    selection and shows the error; when it is delivered the rows are
    appended to the table and goal, suggestions and selection are cleared.
    No list is refetched. *)
Theorem create_selected_habits :
  (forall (user : option User) (w : World GoalBreakdown.State),
      user = None \/ GoalBreakdown.selectedHabits (ui w) = [] ->
      exec (GoalBreakdown.createSelectedHabits user) w
      = exec (emit (toast_error "Please select at least one habit to create"))
             w)
  /\ (forall (u : User) (w : World GoalBreakdown.State),
        selection_in_range (ui w) ->
        GoalBreakdown.selectedHabits (ui w) <> [] ->
        let rows := selected_rows u (ui w) in
        let w' := exec (GoalBreakdown.createSelectedHabits (Some u)) w in
        List.length rows = List.length (GoalBreakdown.selectedHabits (ui w))
        /\ Forall (fun r => hi_user_id r = id u /\ hi_target_count r = 1) rows
        /\ map (fun r => Some (hi_title r)) rows
           = map (fun index =>
                    option_map GoalBreakdown.title
                      (nth_error (GoalBreakdown.suggestedHabits (ui w)) index))
                 (GoalBreakdown.selectedHabits (ui w))
        /\ match net w with
           | Some msg :: rest =>
               w' = mkWorld (ui w) (db w) rest (clock w) (client_tz w)
                      (server_tz w)
                      (trace w
                       ++ [Request (InsertHabits rows)
                                   (Some (NetworkError msg));
                           toast_error ("Error creating habits: " ++ msg)])
           | _ =>
               w' = mkWorld
                      (GoalBreakdown.mkState [] []
                         (GoalBreakdown.loading (ui w)) [])
                      (bump_uuid (List.length rows)
                         (set_habits
                            (habits (db w)
                             ++ new_habits (clock w) (next_uuid (db w)) rows)
                            (db w)))
                      (tl (net w)) (clock w) (client_tz w) (server_tz w)
                      (trace w
                       ++ [Request (InsertHabits rows) None;
                           toast_success
                             (Templates.show_nat
                                (List.length
                                   (GoalBreakdown.selectedHabits (ui w)))
                              ++ " habits created successfully! 🎉")])
           end).
Proof.
  split.
  - intros user w H.
    unfold GoalBreakdown.createSelectedHabits, exec, bind, getState.
    cbn [fst snd].
    destruct H as [->|H]; [reflexivity|]. rewrite H.
    destruct user; reflexivity.
  - intros u w (Hrange & _) Hne rows w'.
    destruct (habitsToCreate_in_range u (ui w) Hrange)
      as (rows' & E & Hlen & Hu & Ht).
    assert (Hrows : rows = rows') by (unfold rows, selected_rows; rewrite E; reflexivity).
    rewrite Hrows. repeat (split; [assumption|]).
    subst w'. unfold GoalBreakdown.createSelectedHabits, exec, bind, getState.
    cbn [fst snd]. rewrite E.
    destruct (GoalBreakdown.selectedHabits (ui w)) as [|i l] eqn:S;
      [contradiction|].
    assert (Hrls : forallb (fun r => Nat.eqb (hi_user_id r) (id u)) rows'
                   = true).
    { apply forallb_forall. intros r Hr. rewrite Forall_forall in Hu.
      apply Nat.eqb_eq. apply Hu. exact Hr. }
    unfold supabase, insert_habits.
    destruct (net w) as [|[msg|] rest]; cbn [fst snd db clock];
      try rewrite Hrls; cbn; rewrite <- ?app_assoc; reflexivity.
Qed.

Lemma create_selected_habits_witness :
  map hi_title (selected_rows late_user (ui picked_two))
  = ["Daily Algorithm Practice"; "Technical Blog Writing"]%string
  /\ GoalBreakdown.selectedHabits
       (ui (exec (GoalBreakdown.createSelectedHabits (Some late_user))
                 picked_two)) = [].
Proof.
  split; [reflexivity|].
  assert (R : selection_in_range (ui picked_two)).
  { split.
    - repeat constructor.
    - change (NoDup [0%nat; 4%nat]).
      constructor; [intros [E|[]]; discriminate E|].
      constructor; [intros []|constructor]. }
  assert (N : GoalBreakdown.selectedHabits (ui picked_two) <> [])
    by discriminate.
  destruct (proj2 create_selected_habits late_user picked_two R N)
    as (_ & _ & _ & E).
  cbn [net picked_two] in E. rewrite E. reflexivity.
Defined.

Lemma ui_createSelectedHabits (user : option User)
    (w : World GoalBreakdown.State) :
  ui (exec (GoalBreakdown.createSelectedHabits user) w) = ui w
  \/ ui (exec (GoalBreakdown.createSelectedHabits user) w)
     = GoalBreakdown.mkState [] [] (GoalBreakdown.loading (ui w)) [].
Proof.
  unfold GoalBreakdown.createSelectedHabits, exec, bind, getState.
  cbn [fst snd].
  destruct user as [u|]; [|left; reflexivity].
  destruct (GoalBreakdown.selectedHabits (ui w)); [left; reflexivity|].
  destruct (GoalBreakdown.habitsToCreate u (ui w)) as [rows|];
    [|left; reflexivity].
  unfold supabase.
  destruct (net w) as [|[msg|] rest]; cbn [fst snd];
    try (left; reflexivity);
    destruct (insert_habits (id u) (clock w) rows (db w)) as [[[]|e] d'];
    cbn; auto.
Qed.

Lemma ui_analyzeGoal (w : World GoalBreakdown.State) :
  ui (exec GoalBreakdown.analyzeGoal w) = ui w
  \/ ui (exec GoalBreakdown.analyzeGoal w)
     = GoalBreakdown.mkState (GoalBreakdown.goal (ui w))
         GoalBreakdown.mockSuggestions false
         (GoalBreakdown.selectedHabits (ui w)).
Proof.
  unfold GoalBreakdown.analyzeGoal, exec, bind, getState. cbn [fst snd].
  destruct (negb (truthy (trim (GoalBreakdown.goal (ui w)))));
    [left|right]; reflexivity.
Qed.

Lemma bounded_NoDup_length (n : nat) (l : list nat) :
  NoDup l -> Forall (fun i => (i < n)%nat) l -> (List.length l <= n)%nat.
Proof.
  intros Hnd Hall.
  assert (I : incl l (seq 0 n)).
  { intros i Hi. rewrite Forall_forall in Hall. apply in_seq.
    specialize (Hall i Hi). lia. }
  pose proof (NoDup_incl_length Hnd I) as L.
  rewrite length_seq in L. exact L.
Qed.

Lemma toggle_in_range (index : nat) (w : World GoalBreakdown.State) :
  (index < List.length (GoalBreakdown.suggestedHabits (ui w)))%nat ->
  selection_in_range (ui w) ->
  GoalBreakdown.suggestedHabits
    (ui (exec (GoalBreakdown.toggleHabitSelection index) w))
  = GoalBreakdown.suggestedHabits (ui w)
  /\ selection_in_range
       (ui (exec (GoalBreakdown.toggleHabitSelection index) w)).
Proof.
  intros Hi (Hr & Hnd). rewrite toggle_selection. unfold selection_in_range.
  cbn [ui GoalBreakdown.selectedHabits GoalBreakdown.setSelectedHabits
       GoalBreakdown.suggestedHabits].
  split; [reflexivity|].
  destruct (GoalBreakdown.set_has index
              (GoalBreakdown.selectedHabits (ui w))) eqn:E.
  - split.
    + apply Forall_forall. intros j Hj. apply set_delete_In in Hj.
      rewrite Forall_forall in Hr. apply Hr. tauto.
    + unfold GoalBreakdown.set_delete. apply NoDup_filter. exact Hnd.
  - split.
    + apply Forall_app. split; [exact Hr|]. constructor; [exact Hi|].
      constructor.
    + apply NoDup_snoc; [exact Hnd|].
      rewrite <- set_has_In, E. discriminate.
Qed.

Lemma goal_step_invariant (w w' : World GoalBreakdown.State) :
  goal_step w w' ->
  goal_page_invariant (ui w) -> goal_page_invariant (ui w').
Proof.
  intros S (Hs & Hr & Hnd).
  destruct S as [g w|w|index w Hi|user w|w w' E].
  - exact (conj Hs (conj Hr Hnd)).
  - destruct (ui_analyzeGoal w) as [->| ->]; [exact (conj Hs (conj Hr Hnd))|].
    split; [right; reflexivity|]. split; [|exact Hnd].
    cbn. destruct Hs as [E|E]; rewrite E in Hr; [|exact Hr].
    destruct (GoalBreakdown.selectedHabits (ui w)); [constructor|].
    inversion Hr; subst. cbn in *. lia.
  - destruct (toggle_in_range w Hi (conj Hr Hnd)) as (Hsug & Hsel).
    split; [rewrite Hsug; exact Hs|exact Hsel].
  - destruct (ui_createSelectedHabits user w) as [->| ->];
      [exact (conj Hs (conj Hr Hnd))|].
    split; [left; reflexivity|]. split; constructor.
  - rewrite E. exact (conj Hs (conj Hr Hnd)).
Qed.

Lemma goal_reachable_invariant (w : World GoalBreakdown.State) :
  goal_reachable w -> goal_page_invariant (ui w).
Proof.
  induction 1 as [w E|w w' _ IH S].
  - rewrite E. split; [left; reflexivity|]. split; constructor.
  - exact (goal_step_invariant S IH).
Qed.

(** X3: however the user types, analyses, clicks the cards on display and
    creates, the selection only holds indices of suggestions on display,
    each once, so at most five; [createSelectedHabits] therefore never
    reads an undefined suggestion. *)
Theorem selection_stays_in_range (w : World GoalBreakdown.State) :
  goal_reachable w ->
  selection_in_range (ui w)
  /\ (List.length (GoalBreakdown.selectedHabits (ui w)) <= 5)%nat
  /\ forall u, GoalBreakdown.habitsToCreate u (ui w) <> None.
Proof.
  intros R. destruct (goal_reachable_invariant R) as (Hs & Hr & Hnd).
  split; [exact (conj Hr Hnd)|]. split.
  - apply bounded_NoDup_length; [exact Hnd|].
    eapply Forall_impl; [|exact Hr]. cbn. intros i Hi.
    destruct Hs as [E|E]; rewrite E in Hi; cbn in Hi; lia.
  - intros u. destruct (habitsToCreate_in_range u (ui w) Hr) as (rows & E & _).
    rewrite E. discriminate.
Qed.

Lemma selection_stays_in_range_witness :
  (List.length (GoalBreakdown.selectedHabits (ui picked_two)) <= 5)%nat.
Proof.
  apply selection_stays_in_range. unfold picked_two.
  repeat (eapply goal_next;
          [|first [apply step_toggle; cbn; lia | apply step_analyze]]).
  apply goal_next
    with (w := mkWorld GoalBreakdown.init empty_db [] 0 0 0 []).
  - apply goal_start. reflexivity.
  - exact (step_type [82%N; 117%N; 110%N]
             (mkWorld GoalBreakdown.init empty_db [] 0 0 0 [])).
Defined.

(* ----------------------------------------------------------------- *)
(** ** The habits page: edit, delete, complete, list *)


Lemma patch_with_own_data (now : instant) (r : HabitRow) :
  patch_habit now (SetData (row_data r)) r = touch now r.
Proof. reflexivity. Qed.


Lemma clickEdit_run (habit : Habit) (w : World HabitsManager.State) :
  exec (HabitsManager.clickEdit habit) w
  = mkWorld
      (HabitsManager.mkState (HabitsManager.habits (ui w))
         (HabitsManager.loading (ui w))
         (HabitsManager.showCreateModal (ui w)) (Some habit)
         (CreateHabitModal.mkState
            (CreateHabitModal.mkFormData (h_title (habit_row habit))
               (match h_description (habit_row habit) with
                | Some d => d
                | None => ""%string
                end)
               (h_category (habit_row habit)) (h_frequency (habit_row habit))
               (h_target_count (habit_row habit))
               (h_difficulty (habit_row habit)) (h_icon (habit_row habit))
               (h_color (habit_row habit)))
            (CreateHabitModal.loading (HabitsManager.modal (ui w)))))
      (db w) (net w) (clock w) (client_tz w) (server_tz w) (trace w).
Proof. reflexivity. Qed.



(** *** A write and what follows it *)

Lemma guarded_write_cases {V A} (req : request)
    (run : instant -> Z -> Db -> response A * Db) (on_ok : M V unit)
    (prefix : string) (w : World V) :
  (exists e d,
      exec (guarded_write req run on_ok prefix) w
      = exec (emit (toast_error (prefix ++ message e)))
             (after_request w d req (Some e)))
  \/ (exists a,
        delivered w
        /\ fst (run (clock w) (server_tz w) (db w)) = Ok a
        /\ exec (guarded_write req run on_ok prefix) w
           = exec on_ok
               (after_request w (snd (run (clock w) (server_tz w) (db w)))
                              req None)).
Proof.
  unfold guarded_write. rewrite exec_bind.
  destruct (supabase_cases req run w) as [(m & _ & E)|(D & E)];
    rewrite E; cbn [fst snd].
  - left. eauto.
  - destruct (run (clock w) (server_tz w) (db w)) as [[a|e] d'];
      cbn [fst snd error_of].
    + right. exists a. auto.
    + left. eauto.
Qed.

Lemma ui_fetchHabits (user : option User) (w : World HabitsManager.State) :
  let w' := exec (HabitsManager.fetchHabits user) w in
  HabitsManager.selectedHabit (ui w') = HabitsManager.selectedHabit (ui w)
  /\ (HabitsManager.habits (ui w') = HabitsManager.habits (ui w)
      \/ exists u, HabitsManager.habits (ui w') = fetched_habits u (db w)).
Proof.
  destruct user as [u|]; [|cbn; auto].
  destruct (fetchHabits_run u w) as [(m & _ & E)|(_ & E)]; cbv zeta;
    rewrite E; cbn; eauto.
Qed.

Lemma ui_toast_fetchHabits (msg : string) (u : User)
    (w : World HabitsManager.State) :
  let w' := exec (emit (toast_success msg) ;;
                  HabitsManager.fetchHabits (Some u)) w in
  HabitsManager.selectedHabit (ui w') = HabitsManager.selectedHabit (ui w)
  /\ (HabitsManager.habits (ui w') = HabitsManager.habits (ui w)
      \/ exists u, HabitsManager.habits (ui w') = fetched_habits u (db w)).
Proof.
  cbv zeta. rewrite exec_bind. cbn [emit fst snd].
  match goal with
  | |- context [exec _ ?w1] => exact (ui_fetchHabits (Some u) w1)
  end.
Qed.

Lemma ui_guarded_fetch {A} (req : request)
    (run : instant -> Z -> Db -> response A * Db) (msg prefix : string)
    (u : User) (w : World HabitsManager.State) :
  let w' := exec (guarded_write req run
                    (emit (toast_success msg) ;;
                     HabitsManager.fetchHabits (Some u)) prefix) w in
  HabitsManager.selectedHabit (ui w') = HabitsManager.selectedHabit (ui w)
  /\ (HabitsManager.habits (ui w') = HabitsManager.habits (ui w)
      \/ exists u d, HabitsManager.habits (ui w') = fetched_habits u d).
Proof.
  cbv zeta.
  destruct (guarded_write_cases req run
              (emit (toast_success msg) ;;
               HabitsManager.fetchHabits (Some u)) prefix w)
    as [(e & d & E)|(a & _ & _ & E)]; rewrite E.
  - cbn. auto.
  - match goal with
    | |- context [exec _ ?w1] =>
        destruct (ui_toast_fetchHabits msg u w1) as (S1 & [L|(u' & L)])
    end; cbv zeta in *; rewrite S1; cbn [after_request ui]; eauto.
Qed.

Lemma ui_handleSubmit (user : option User) (w : World HabitsManager.State) :
  let w' := exec (HabitsManager.handleSubmit user) w in
  HabitsManager.selectedHabit (ui w') = HabitsManager.selectedHabit (ui w)
  /\ (HabitsManager.habits (ui w') = HabitsManager.habits (ui w)
      \/ exists u d, HabitsManager.habits (ui w') = fetched_habits u d).
Proof.
  destruct user as [u|]; [|cbn; auto].
  cbv zeta.
  destruct (handleSubmit_run u w)
    as [(m & _ & E)|[(_ & e & _ & E)|(_ & _ & E)]]; cbv zeta in E;
    rewrite E; try (cbn; auto; fail).
  unfold closing. cbn [ui].
  match goal with
  | |- context [exec (HabitsManager.fetchHabits _) ?w1] =>
      destruct (ui_fetchHabits (Some u) w1) as (S1 & [L|(u' & L)])
  end; cbv zeta in *; cbn [HabitsManager.setModal
    HabitsManager.setShowCreateModal HabitsManager.selectedHabit
    HabitsManager.habits]; rewrite S1, L; cbn; eauto.
Qed.

(** What a step of the page does to the selection and to the list. *)
Lemma habits_step_cases (w w' : World HabitsManager.State) :
  habits_step w w' ->
  (HabitsManager.selectedHabit (ui w') = HabitsManager.selectedHabit (ui w)
   \/ exists habit, HabitsManager.selectedHabit (ui w') = Some habit)
  /\ (HabitsManager.habits (ui w') = HabitsManager.habits (ui w)
      \/ exists u d, HabitsManager.habits (ui w') = fetched_habits u d).
Proof.
  intros [user w0|user h w0|user h w0|habit w0|b w0|f w0|user w0|w0 w1 E].
  - destruct (ui_fetchHabits user w0) as (S1 & [L|(u & L)]); eauto 6.
  - destruct user as [u|]; [|cbn; auto].
    rewrite completeHabit_guarded.
    match goal with
    | |- context [exec (guarded_write ?req ?run (_ ;; _) ?prefix) _] =>
        destruct (ui_guarded_fetch req run "Habit completed! 🎉" prefix u w0)
          as (S1 & L)
    end. auto.
  - destruct user as [u|]; [|cbn; auto].
    rewrite deleteHabit_guarded.
    match goal with
    | |- context [exec (guarded_write ?req ?run (_ ;; _) ?prefix) _] =>
        destruct (ui_guarded_fetch req run "Habit deleted successfully"
                    prefix u w0) as (S1 & L)
    end. auto.
  - rewrite clickEdit_run. cbn. eauto.
  - cbn. auto.
  - cbn. auto.
  - destruct (ui_handleSubmit user w0) as (S1 & L). auto.
  - rewrite E. auto.
Qed.

Lemma handleSubmit_first_request (u : User) (w : World HabitsManager.State) :
  exists o evs,
    trace (exec (HabitsManager.handleSubmit (Some u)) w)
    = trace w ++ Request (submit_request u (ui w)) o :: evs.
Proof.
  destruct (handleSubmit_run u w)
    as [(m & _ & E)|[(_ & e & _ & E)|(_ & _ & E)]]; cbv zeta in E;
    rewrite E; try (cbn; eauto; fail).
  unfold closing. cbn [trace].
  match goal with
  | |- context [exec (HabitsManager.fetchHabits _) ?w1] =>
      destruct (fetchHabits_run u w1) as [(m & _ & F)|(_ & F)]
  end; rewrite F; cbn [trace]; rewrite <- app_assoc; cbn; eauto.
Qed.

(** X5: no handler of the habits page ever clears the selected habit.  Once
    the pencil of a card has been clicked, whatever is done on the page
    afterwards, saving the form sends an update of a selected habit and
    never an insert: the "Create Habit" button cannot create any more. *)
Theorem edit_mode_is_never_left (u : User)
    (w w' : World HabitsManager.State) :
  habits_run w w' ->
  HabitsManager.selectedHabit (ui w) <> None ->
  HabitsManager.selectedHabit (ui w') <> None
  /\ exists i data o evs,
       trace (exec (HabitsManager.handleSubmit (Some u)) w')
       = trace w' ++ Request (UpdateHabit i (SetData data)) o :: evs.
Proof.
  intros R H0.
  assert (H : HabitsManager.selectedHabit (ui w') <> None).
  { induction R as [|w w1 w2 R IH S1]; [exact H0|].
    specialize (IH H0).
    destruct (habits_step_cases S1) as ([E|(habit & E)] & _); rewrite E;
      [exact IH|discriminate]. }
  split; [exact H|].
  destruct (handleSubmit_first_request u w') as (o & evs & T).
  unfold submit_request in T.
  destruct (HabitsManager.selectedHabit (ui w')) as [h|]; [|contradiction].
  eauto.
Qed.

Lemma edit_mode_is_never_left_witness :
  exists i data o evs,
    trace (exec (HabitsManager.handleSubmit (Some late_user))
             (exec (setState (HabitsManager.setShowCreateModal true))
                   editing_run))
    = trace (exec (setState (HabitsManager.setShowCreateModal true))
                  editing_run)
      ++ Request (UpdateHabit i (SetData data)) o :: evs.
Proof.
  refine (proj2 (edit_mode_is_never_left late_user
                   (w := editing_run) _ _)).
  - apply run_next with (w1 := editing_run); [apply run_here|].
    apply hstep_show.
  - discriminate.
Defined.

(** *** Deleting a habit *)

Lemma soft_delete_passes (u : User) (now : instant) (h : uuid) (d : Db) :
  update_habit (id u) now h (SetActive false) d
  = (Ok tt,
     set_habits
       (map (fun r => if habit_targeted (id u) h r
                      then deactivate now r else r)
            (habits d)) d).
Proof.
  unfold update_habit.
  rewrite (proj2 (forallb_forall _ _)); [reflexivity|].
  intros r _. unfold habit_targeted. cbn.
  destruct (Nat.eqb (h_id r) h); cbn; [|reflexivity].
  destruct (Nat.eqb (h_user_id r) (id u)); reflexivity.
Qed.

Lemma set_habits_same (d : Db) : set_habits (habits d) d = d.
Proof. destruct d; reflexivity. Qed.

(** X6: deleting is a soft delete under row-level security.  When the
    request is delivered, the rows of the signed-in user with the given id
    get [is_active = false] and a new [updated_at]; no row is removed, no
    completion is removed, rows of other users stay as they are.  The
    request never fails: when the id names no habit of the user, nothing
    changes and the page still reports "Habit deleted successfully". *)
Theorem delete_is_a_soft_delete (u : User) (h : uuid)
    (w : World HabitsManager.State) :
  delivered w ->
  let w' := exec (HabitsManager.deleteHabit (Some u) h) w in
  habits (db w')
  = map (fun r => if habit_targeted (id u) h r
                  then deactivate (clock w) r else r)
        (habits (db w))
  /\ habit_completions (db w') = habit_completions (db w)
  /\ (forall r, In r (habits (db w)) -> h_user_id r <> id u ->
                In r (habits (db w')))
  /\ ((forall r, In r (habits (db w)) -> h_id r = h -> h_user_id r <> id u) ->
      db w' = db w)
  /\ exists evs,
       trace w'
       = trace w ++ Request (UpdateHabit h (SetActive false)) None
                    :: toast_success "Habit deleted successfully" :: evs.
Proof.
  intros D w'.
  assert (E : exists evs,
             db w' = set_habits
                       (map (fun r => if habit_targeted (id u) h r
                                      then deactivate (clock w) r else r)
                            (habits (db w))) (db w)
             /\ trace w'
                = trace w ++ Request (UpdateHabit h (SetActive false)) None
                    :: toast_success "Habit deleted successfully" :: evs).
  { subst w'. unfold HabitsManager.deleteHabit. rewrite exec_bind.
    rewrite supabase_delivered by exact D. rewrite soft_delete_passes.
    cbn [fst snd error_of]. rewrite exec_bind. cbn [emit fst snd].
    match goal with
    | |- context [exec (HabitsManager.fetchHabits _) ?w1] =>
        destruct (fetchHabits_run u w1) as [(m & _ & F)|(_ & F)]
    end; rewrite F; cbn [db trace]; rewrite <- !app_assoc; cbn; eauto. }
  destruct E as (evs & Edb & Etr). rewrite Edb. cbn [habits habit_completions set_habits].
  split; [reflexivity|]. split; [reflexivity|]. split; [|split].
  - intros r Hin Hne. apply in_map_iff. exists r. split; [|exact Hin].
    unfold habit_targeted.
    destruct (Nat.eqb (h_user_id r) (id u)) eqn:Eu.
    + apply Nat.eqb_eq in Eu. contradiction.
    + rewrite andb_false_r. reflexivity.
  - intros Hnone.
    rewrite <- (set_habits_same (db w)) at 3. f_equal.
    transitivity (map (fun r : HabitRow => r) (habits (db w)));
      [|apply map_id].
    apply map_ext_in. intros r Hin. unfold habit_targeted.
    destruct (Nat.eqb (h_id r) h) eqn:Ei; [|reflexivity].
    destruct (Nat.eqb (h_user_id r) (id u)) eqn:Eu; [|reflexivity].
    apply Nat.eqb_eq in Ei, Eu. exfalso. exact (Hnone r Hin Ei Eu).
  - exists evs. exact Etr.
Qed.

Lemma delete_is_a_soft_delete_witness :
  map (fun r => (h_id r, h_user_id r, h_is_active r))
      (habits (db (exec (HabitsManager.deleteHabit (Some late_user) 1%nat)
                        (shared_world HabitsManager.init))))
  = [(0%nat, 1%nat, true); (1%nat, 1%nat, false); (2%nat, 2%nat, true)].
Proof.
  rewrite (proj1 (@delete_is_a_soft_delete late_user 1%nat
                    (shared_world HabitsManager.init) I)).
  reflexivity.
Defined.

(** *** Marking a habit done *)

Lemma completeHabit_run (u : User) (h : uuid) (w : World HabitsManager.State) :
  net w = [] ->
  (exists r, In r (habits (db w)) /\ h_id r = h) ->
  exec (HabitsManager.completeHabit (Some u) h) w
  = mkWorld
      (HabitsManager.setLoading false
         (HabitsManager.setHabits
            (fetched_habits u
               (bump_uuid 1
                  (set_habit_completions
                     (habit_completions (db w)
                      ++ [done_row u h (clock w) (next_uuid (db w))])
                     (db w))))
            (ui w)))
      (bump_uuid 1
         (set_habit_completions
            (habit_completions (db w)
             ++ [done_row u h (clock w) (next_uuid (db w))]) (db w)))
      [] (clock w) (client_tz w) (server_tz w)
      (trace w
       ++ [Request (InsertCompletion (mkCompletionInsert h (id u) (clock w)))
                   None;
           toast_success "Habit completed! 🎉";
           Request (SelectHabits (id u)) None]).
Proof.
  intros N (r & Hin & Hid).
  assert (D : delivered w) by (unfold delivered; rewrite N; exact I).
  assert (Ex : existsb (fun x => Nat.eqb (h_id x) h) (habits (db w)) = true).
  { apply existsb_exists. exists r. split; [exact Hin|].
    apply Nat.eqb_eq. exact Hid. }
  unfold HabitsManager.completeHabit. rewrite exec_bind.
  cbn [new_Date fst snd]. rewrite exec_bind.
  rewrite supabase_delivered by exact D.
  unfold insert_completion. cbn [ci_user_id ci_habit_id ci_completed_at].
  rewrite Nat.eqb_refl, Ex. cbn [negb fst snd error_of].
  rewrite exec_bind. cbn [emit fst snd].
  match goal with
  | |- context [exec (HabitsManager.fetchHabits _) ?w1] =>
      destruct (fetchHabits_run u w1) as [(m & F & _)|(_ & F)]
  end.
  - exfalso. cbn [net] in F. rewrite N in F. discriminate F.
  - rewrite F. cbn [ui db net clock client_tz server_tz trace].
    rewrite N. rewrite <- !app_assoc. reflexivity.
Qed.

(** X7: marking done has no once-a-day guard and does not look at the
    owner or at [is_active] of the habit.  With every request delivered and
    a habit row of that id in the table, n clicks store n completion rows
    for the signed-in user, all with the time of the click, with fresh ids,
    and with no mood, note or proof. *)
Theorem complete_has_no_daily_guard (u : User) (h : uuid) (n : nat)
    (w : World HabitsManager.State) :
  net w = [] ->
  (exists r, In r (habits (db w)) /\ h_id r = h) ->
  habit_completions
    (db (Nat.iter n (exec (HabitsManager.completeHabit (Some u) h)) w))
  = habit_completions (db w)
    ++ map (fun k => done_row u h (clock w) (next_uuid (db w) + k)%nat)
           (seq 0 n).
Proof.
  intros N Ex.
  set (wn := Nat.iter n (exec (HabitsManager.completeHabit (Some u) h)) w).
  assert (H : net wn = [] /\ clock wn = clock w
              /\ habits (db wn) = habits (db w)
              /\ next_uuid (db wn) = (next_uuid (db w) + n)%nat
              /\ habit_completions (db wn)
                 = habit_completions (db w)
                   ++ map (fun k => done_row u h (clock w)
                                      (next_uuid (db w) + k)%nat)
                          (seq 0 n)).
  { subst wn. induction n as [|n IH].
    - cbn. rewrite Nat.add_0_r, app_nil_r. auto.
    - destruct IH as (N' & C' & H' & U' & L').
      rewrite Nat.iter_succ. rewrite completeHabit_run;
        [|exact N'|rewrite H'; exact Ex].
      cbn [net clock db habits next_uuid habit_completions bump_uuid
           set_habit_completions].
      rewrite C', H', U', L'. split; [reflexivity|].
      split; [reflexivity|]. split; [reflexivity|].
      split; [lia|].
      rewrite seq_S, map_app, <- app_assoc. reflexivity. }
  apply H.
Qed.

Lemma complete_has_no_daily_guard_witness :
  habit_completions
    (db (Nat.iter 2 (exec (HabitsManager.completeHabit (Some late_user) 2%nat))
           (shared_world HabitsManager.init)))
  = habit_completions shared_db
    ++ [done_row late_user 2%nat late_now 4%nat;
        done_row late_user 2%nat late_now 5%nat].
Proof.
  refine (@complete_has_no_daily_guard late_user 2%nat 2
            (shared_world HabitsManager.init) eq_refl _).
  eexists. split; [right; right; left; reflexivity|reflexivity].
Defined.

(** *** The list of the page *)

Lemma insert_desc_sorted {A} (key : A -> Z) (x : A) (l : list A) :
  newest_first key l -> newest_first key (insert_desc key x l).
Proof.
  unfold newest_first. induction 1 as [|y l S1 IH F]; cbn.
  - constructor; constructor.
  - destruct (key y <=? key x) eqn:E.
    + apply Z.leb_le in E. constructor.
      * constructor; assumption.
      * constructor; [exact E|].
        apply Forall_forall. intros z Hz.
        rewrite Forall_forall in F. specialize (F z Hz). lia.
    + apply Z.leb_gt in E. constructor; [exact IH|].
      apply Forall_forall. intros z Hz. apply In_insert_desc in Hz.
      destruct Hz as [->|Hz]; [lia|].
      rewrite Forall_forall in F. exact (F z Hz).
Qed.

Lemma order_desc_sorted {A} (key : A -> Z) (l : list A) :
  newest_first key (order_desc key l).
Proof.
  unfold order_desc. induction l as [|x l IH]; cbn.
  - constructor.
  - apply insert_desc_sorted. exact IH.
Qed.

Lemma newest_first_map {A B} (f : A -> B) (key : B -> Z) (l : list A) :
  newest_first (fun a => key (f a)) l -> newest_first key (map f l).
Proof.
  unfold newest_first. induction 1 as [|x l S1 IH F]; cbn; constructor.
  - exact IH.
  - apply Forall_forall. intros b Hb. apply in_map_iff in Hb.
    destruct Hb as (a & <- & Ha). rewrite Forall_forall in F. exact (F a Ha).
Qed.

(** X8: a delivered fetch fills the page with exactly the active habits of
    the signed-in user, each once per row, newest first by creation time,
    each with the user's completions of that habit embedded; it clears the
    spinner and writes nothing. *)
Theorem fetch_lists_own_active_newest_first (u : User)
    (w : World HabitsManager.State) :
  delivered w ->
  let w' := exec (HabitsManager.fetchHabits (Some u)) w in
  (forall habit,
      In habit (HabitsManager.habits (ui w')) <->
      exists row,
        habit = mkHabit row
                  (map view_completion
                     (filter (fun c => Nat.eqb (hc_habit_id c) (h_id row)
                                       && Nat.eqb (hc_user_id c) (id u))
                             (habit_completions (db w))))
                  None
        /\ In row (habits (db w)) /\ h_user_id row = id u
        /\ h_is_active row = true)
  /\ newest_first (fun habit => h_created_at (habit_row habit))
                  (HabitsManager.habits (ui w'))
  /\ List.length (HabitsManager.habits (ui w'))
     = List.length (filter (fun row => Nat.eqb (h_user_id row) (id u)
                                       && h_is_active row)
                           (habits (db w)))
  /\ HabitsManager.loading (ui w') = false
  /\ db w' = db w.
Proof.
  intros D w'. subst w'.
  destruct (fetchHabits_run u w) as [(m & N & _)|(_ & E)].
  { exfalso. unfold delivered in D. rewrite N in D. exact D. }
  rewrite E. cbn [ui db HabitsManager.habits HabitsManager.loading
                  HabitsManager.setLoading HabitsManager.setHabits].
  split; [|split; [|split; [|split; reflexivity]]].
  - intros habit. apply fetched_habit_In.
  - unfold fetched_habits. apply newest_first_map. cbn [habit_row embed_completions].
    apply order_desc_sorted.
  - unfold fetched_habits, active_habits_of.
    rewrite length_map, order_desc_length. f_equal. apply filter_ext.
    intros row. destruct (Nat.eqb (h_user_id row) (id u)); reflexivity.
Qed.

Lemma fetch_lists_own_active_newest_first_witness :
  map (fun habit => h_title (habit_row habit))
      (HabitsManager.habits
         (ui (exec (HabitsManager.fetchHabits (Some late_user))
                   (shared_world HabitsManager.init))))
  = ["Run"; "Read 20 pages"]%string
  /\ newest_first (fun habit => h_created_at (habit_row habit))
       (HabitsManager.habits
          (ui (exec (HabitsManager.fetchHabits (Some late_user))
                    (shared_world HabitsManager.init)))).
Proof.
  split; [reflexivity|].
  exact (proj1 (proj2 (@fetch_lists_own_active_newest_first late_user
                         (shared_world HabitsManager.init) I))).
Defined.

Lemma fetched_habits_no_completions_key (u : User) (d : Db) :
  Forall (fun habit => completions habit = None) (fetched_habits u d).
Proof.
  unfold fetched_habits. apply Forall_forall. intros habit Hin.
  apply in_map_iff in Hin. destruct Hin as (row & <- & _). reflexivity.
Qed.

(** X9: on the habits page, started empty, whatever is fetched, marked
    done, deleted, edited or saved, every card on display comes from a
    fetch, and a fetch puts the completions under the key
    [habit_completions], not [completions].  So for every card, at every
    time and in every zone, [isCompletedToday] is false and the counter
    shows 0: "Mark Done" is never disabled. *)
Theorem cards_never_show_completions (w w' : World HabitsManager.State) :
  HabitsManager.habits (ui w) = [] ->
  habits_run w w' ->
  forall habit, In habit (HabitsManager.habits (ui w')) ->
    (forall tz now, HabitsManager.isCompletedToday tz now habit = false)
    /\ HabitsManager.timesShown habit = 0.
Proof.
  intros H0 R.
  assert (F : Forall (fun habit => completions habit = None)
                     (HabitsManager.habits (ui w'))).
  { induction R as [|w w1 w2 R IH S1].
    - rewrite H0. constructor.
    - specialize (IH H0).
      destruct (habits_step_cases S1) as (_ & [E|(u & d & E)]); rewrite E.
      + exact IH.
      + apply fetched_habits_no_completions_key. }
  intros habit Hin. rewrite Forall_forall in F. specialize (F habit Hin).
  unfold HabitsManager.isCompletedToday, HabitsManager.timesShown.
  rewrite F. split; reflexivity.
Qed.

Lemma cards_never_show_completions_witness :
  HabitsManager.timesShown
    (nth 1
         (HabitsManager.habits
            (ui (exec (HabitsManager.completeHabit (Some late_user) 0%nat)
                      (shared_world HabitsManager.init))))
         (mkHabit late_habit [] None))
  = 0.
Proof.
  refine (proj2 (@cards_never_show_completions
                   (shared_world HabitsManager.init)
                   (exec (HabitsManager.completeHabit (Some late_user) 0%nat)
                         (shared_world HabitsManager.init))
                   eq_refl
                   (run_next (run_here _)
                      (hstep_complete (Some late_user) 0%nat _))
                   _ _)).
  right. left. reflexivity.
Defined.

(** X10: when a habit does carry [completions], [isCompletedToday] holds
    exactly when one of them falls between the local midnight before now
    and the next one, the last second of the day included. *)
Theorem completed_today_iff (tz : Z) (now : instant) (row : HabitRow)
    (embedded cs : list CompletionView) :
  HabitsManager.isCompletedToday tz now (mkHabit row embedded (Some cs)) = true
  <-> exists c, In c cs /\ in_today tz now (completed_at c).
Proof.
  unfold HabitsManager.isCompletedToday. cbn [completions].
  rewrite existsb_exists. split; intros (c & Hin & H); exists c;
    (split; [exact Hin|]); apply same_date_iff_in_today; exact H.
Qed.

(* ----------------------------------------------------------------- *)
(** ** The mood journal: list, chart, reload *)

Lemma In_firstn_In {A} (n : nat) (l : list A) (x : A) :
  In x (firstn n l) -> In x l.
Proof.
  revert l. induction n as [|n IH]; intros [|y l]; cbn; try tauto.
  intros [E|H]; [left; exact E|right; exact (IH l H)].
Qed.

Lemma In_skipn_In {A} (n : nat) (l : list A) (x : A) :
  In x (skipn n l) -> In x l.
Proof.
  revert l. induction n as [|n IH]; intros [|y l]; cbn; try tauto.
  intros H. right. exact (IH l H).
Qed.

Lemma newest_first_firstn {A} (key : A -> Z) (n : nat) (l : list A) :
  newest_first key l -> newest_first key (firstn n l).
Proof.
  unfold newest_first. intros S1. revert n.
  induction S1 as [|x l S1 IH F]; intros [|n]; cbn; try constructor.
  - apply IH.
  - apply Forall_forall. intros y Hy. rewrite Forall_forall in F.
    apply F. exact (In_firstn_In _ _ _ Hy).
Qed.

Lemma newest_first_cut {A} (key : A -> Z) (n : nat) (l : list A) :
  newest_first key l ->
  forall a b, In a (firstn n l) -> In b (skipn n l) -> key b <= key a.
Proof.
  unfold newest_first. intros S1. revert n.
  induction S1 as [|x l S1 IH F]; intros [|n] a b Ha Hb; cbn in *;
    try contradiction.
  destruct Ha as [<-|Ha].
  - rewrite Forall_forall in F. apply F. exact (In_skipn_In _ _ _ Hb).
  - exact (IH n a b Ha Hb).
Qed.

Lemma In_firstn_or_skipn {A} (n : nat) (l : list A) (x : A) :
  In x l -> In x (firstn n l) \/ In x (skipn n l).
Proof.
  intros H. rewrite <- (firstn_skipn n l) in H. apply in_app_or. exact H.
Qed.

(** X11: a delivered fetch of the mood list shows at most 30 entries, all
    of the signed-in user, newest first, and they are the newest ones: no
    entry of the user left out is newer than a listed one.  With at most 30
    entries of the user in the table, all are listed.  Nothing is
    written. *)
Theorem mood_list_is_the_30_newest (u : User) (w : World MoodJournal.State) :
  delivered w ->
  let w' := exec (MoodJournal.fetchMoodEntries (Some u)) w in
  let listed := MoodJournal.moodEntries (ui w') in
  (List.length listed <= 30)%nat
  /\ (forall m, In m listed ->
                In m (mood_entries (db w)) /\ m_user_id m = id u)
  /\ newest_first m_created_at listed
  /\ (forall m m',
        In m listed -> In m' (mood_entries (db w)) -> m_user_id m' = id u ->
        ~ In m' listed -> m_created_at m' <= m_created_at m)
  /\ ((List.length (filter (fun m => Nat.eqb (m_user_id m) (id u))
                           (mood_entries (db w))) <= 30)%nat ->
      forall m, In m (mood_entries (db w)) -> m_user_id m = id u ->
                In m listed)
  /\ db w' = db w.
Proof.
  intros D w' listed. subst listed w'.
  destruct (fetchMoodEntries_run u w) as [(m & N & _)|(_ & E)].
  { exfalso. unfold delivered in D. rewrite N in D. exact D. }
  rewrite E. cbn [ui db MoodJournal.moodEntries MoodJournal.setLoading
                  MoodJournal.setMoodEntries].
  unfold fetched_moods.
  assert (Own : forall m, In m (own_moods (id u) (id u) (db w)) <->
                          In m (mood_entries (db w)) /\ m_user_id m = id u).
  { intros m. unfold own_moods. rewrite filter_In, andb_diag, Nat.eqb_eq.
    tauto. }
  split; [apply firstn_le_length|].
  split; [|split; [|split; [|split; [|reflexivity]]]].
  - intros m Hin. apply In_firstn_In in Hin. apply In_order_desc in Hin.
    apply Own. exact Hin.
  - apply newest_first_firstn, order_desc_sorted.
  - intros m m' Hm Hm' Hu Hout.
    assert (Hs : In m' (order_desc m_created_at
                          (own_moods (id u) (id u) (db w)))).
    { apply In_order_desc, Own. auto. }
    destruct (In_firstn_or_skipn 30 _ _ Hs) as [Hf|Hk]; [contradiction|].
    exact (newest_first_cut 30 (order_desc_sorted _ _) m m' Hm Hk).
  - intros Hlen m Hin Hu.
    rewrite firstn_all2.
    + apply In_order_desc, Own. auto.
    + rewrite order_desc_length. unfold own_moods.
      erewrite filter_ext; [exact Hlen|].
      intros x. cbn. apply andb_diag.
Qed.

Lemma mood_list_is_the_30_newest_witness :
  map m_id
      (MoodJournal.moodEntries
         (ui (exec (MoodJournal.fetchMoodEntries (Some late_user))
                   week_world)))
  = [4%nat; 3%nat; 1%nat; 0%nat]
  /\ newest_first m_created_at
       (MoodJournal.moodEntries
          (ui (exec (MoodJournal.fetchMoodEntries (Some late_user))
                    week_world))).
Proof.
  split; [reflexivity|].
  exact (proj1 (proj2 (proj2 (@mood_list_is_the_30_newest late_user
                                week_world I)))).
Defined.

(** *** The chart *)

Lemma find_first {A} (f : A -> bool) (l : list A) (x : A) :
  find f l = Some x ->
  exists l1 l2, l = l1 ++ x :: l2 /\ f x = true
                /\ forall y, In y l1 -> f y = false.
Proof.
  induction l as [|y l IH]; cbn; [discriminate|].
  destruct (f y) eqn:E.
  - intros H. inversion H; subst. exists [], l. cbn. tauto.
  - intros H. destruct (IH H) as (l1 & l2 & -> & Fx & N).
    exists (y :: l1), l2. cbn. split; [reflexivity|]. split; [exact Fx|].
    intros z [<-|Hz]; auto.
Qed.

Lemma newest_first_split {A} (key : A -> Z) (l1 l2 : list A) (x : A) :
  newest_first key (l1 ++ x :: l2) -> forall y, In y l2 -> key y <= key x.
Proof.
  unfold newest_first. induction l1 as [|z l1 IH]; cbn; intros S1 y Hy.
  - apply StronglySorted_inv in S1. destruct S1 as (_ & F).
    rewrite Forall_forall in F. exact (F y Hy).
  - apply StronglySorted_inv in S1. destruct S1 as (S1 & _).
    exact (IH S1 y Hy).
Qed.

Lemma eachDayOfInterval_last_week (tz : Z) (now : instant) :
  Analytics.eachDayOfInterval (format_date tz (subDays now 6))
                              (format_date tz now)
  = map (fun k => format_date tz now - 6 + Z.of_nat k) (seq 0 7).
Proof.
  assert (E : format_date tz (subDays now 6) = format_date tz now - 6).
  { unfold format_date, subDays, DAY.
    replace (now - 6 * 86400000 + tz)
      with (now + tz + (- 6) * 86400000) by lia.
    rewrite Z.div_add by lia. lia. }
  unfold Analytics.eachDayOfInterval. rewrite E.
  replace (format_date tz now - (format_date tz now - 6) + 1) with 7 by lia.
  reflexivity.
Qed.

(** X12: the mood chart has seven points, one for each of the last seven
    local dates, today last.  A point carries the rating of the first listed
    entry of its date, and nothing when no listed entry has that date; with
    the list newest first, as a fetch leaves it, and no rating 0, that is the
    rating of the newest listed entry of the day. *)
Theorem chart_shows_the_newest_of_each_day (tz : Z) (now : instant)
    (s : MoodJournal.State) :
  newest_first m_created_at (MoodJournal.moodEntries s) ->
  (forall e, In e (MoodJournal.moodEntries s) -> m_mood_rating e <> 0) ->
  let chart := MoodChart.getMoodChartData tz now s in
  map MoodChart.day chart
  = map (fun k => format_date tz now - 6 + Z.of_nat k) (seq 0 7)
  /\ forall p, In p chart ->
       match MoodChart.mood p with
       | None =>
           forall e, In e (MoodJournal.moodEntries s) ->
                     format_date tz (m_created_at e) <> MoodChart.day p
       | Some r =>
           exists e0,
             In e0 (MoodJournal.moodEntries s)
             /\ format_date tz (m_created_at e0) = MoodChart.day p
             /\ m_mood_rating e0 = r
             /\ forall e, In e (MoodJournal.moodEntries s) ->
                          format_date tz (m_created_at e) = MoodChart.day p ->
                          m_created_at e <= m_created_at e0
       end.
Proof.
  intros S1 Nz chart. subst chart. unfold MoodChart.getMoodChartData.
  cbv zeta. rewrite eachDayOfInterval_last_week. split.
  - rewrite map_map. reflexivity.
  - intros p Hp. apply in_map_iff in Hp. destruct Hp as (d & <- & _).
    cbn [MoodChart.mood MoodChart.day].
    destruct (find _ (MoodJournal.moodEntries s)) as [e0|] eqn:F;
      cbn [MoodChart.rating_or_null].
    + destruct (find_first _ _ F) as (l1 & l2 & L & Fx & N).
      apply Z.eqb_eq in Fx.
      assert (Hin : In e0 (MoodJournal.moodEntries s)).
      { rewrite L. apply in_or_app. right. left. reflexivity. }
      destruct (m_mood_rating e0 =? 0) eqn:Z0.
      { apply Z.eqb_eq in Z0. exfalso. exact (Nz e0 Hin Z0). }
      exists e0. split; [exact Hin|]. split; [exact Fx|].
      split; [reflexivity|].
      intros e He Hd. rewrite L in He, S1.
      apply in_app_or in He. destruct He as [He|[<-|He]].
      * apply N in He. apply Z.eqb_neq in He. contradiction.
      * lia.
      * exact (newest_first_split _ _ _ S1 e He).
    + intros e He Hd.
      pose proof (find_none _ _ F e He) as Hn. cbn in Hn.
      apply Z.eqb_neq in Hn. contradiction.
Qed.

Lemma chart_shows_the_newest_of_each_day_witness :
  map MoodChart.mood
      (MoodChart.getMoodChartData 0 (20000 * DAY + 36000000)
         (ui (exec (MoodJournal.fetchMoodEntries (Some late_user))
                   week_world)))
  = [None; Some 2; None; None; Some 5; None; Some 4]
  /\ map MoodChart.day
         (MoodChart.getMoodChartData 0 (20000 * DAY + 36000000)
            (ui (exec (MoodJournal.fetchMoodEntries (Some late_user))
                      week_world)))
     = map (fun k => format_date 0 (20000 * DAY + 36000000) - 6 + Z.of_nat k)
           (seq 0 7).
Proof.
  split; [reflexivity|].
  refine (proj1 (@chart_shows_the_newest_of_each_day 0
                   (20000 * DAY + 36000000)
                   (ui (exec (MoodJournal.fetchMoodEntries (Some late_user))
                             week_world))
                   _ _)).
  - change (newest_first m_created_at (fetched_moods late_user week_db)).
    apply newest_first_firstn, order_desc_sorted.
  - intros e He. cbn in He.
    repeat (destruct He as [<-|He]; [discriminate|]). contradiction.
Defined.

(** *** Saving a mood and coming back *)

Lemma checkTodayMood_run (u : User) (w : World MoodJournal.State) :
  delivered w ->
  ui (exec (MoodJournal.checkTodayMood (Some u)) w)
  = match moods_between (id u) (server_tz w) (id u)
            (today_of w, T00_00_00) (today_of w, T23_59_59) (db w) with
    | m :: _ =>
        MoodJournal.setReflection (shown_reflection m)
          (MoodJournal.setTodayMood (Some (m_mood_rating m)) (ui w))
    | [] => ui w
    end.
Proof.
  intros D. unfold MoodJournal.checkTodayMood. rewrite exec_bind.
  cbn [today fst snd]. rewrite exec_bind.
  rewrite supabase_delivered by exact D.
  unfold select_moods_between, today_of. cbn [fst snd].
  destruct (moods_between _ _ _ _ _ _) as [|m rest]; reflexivity.
Qed.

Lemma shown_after_save (rating : Z) (text : jstext) (i u : uuid) (t : instant) :
  shown_reflection (mkMoodRow i u rating (orNull (trim text)) t) = trim text.
Proof.
  unfold shown_reflection, orNull. cbn.
  destruct (trim text) as [|c rest]; reflexivity.
Qed.

Lemma submitMoodEntry_frame (u : User) (mood : Z)
    (w : World MoodJournal.State) :
  MoodJournal.todayMood (ui w) = Some mood ->
  net w = [] ->
  let w' := exec (MoodJournal.submitMoodEntry (Some u)) w in
  net w' = [] /\ clock w' = clock w /\ client_tz w' = client_tz w
  /\ server_tz w' = server_tz w.
Proof.
  intros Hm Hnet.
  destruct w as [v d n t ctz stz tr].
  cbn [ui db net clock client_tz server_tz] in *. subst n.
  unfold exec, MoodJournal.submitMoodEntry, MoodJournal.fetchMoodEntries,
    bind, getState, supabase, select_mood_single, today, setState, emit, ret.
  cbn [ui db net clock client_tz server_tz fst snd tl]. rewrite Hm.
  cbn [ui db net clock client_tz server_tz fst snd tl].
  destruct (moods_between _ _ _ _ _ _) as [|m [|m' rest]];
    cbn [ui db net clock client_tz server_tz fst snd tl];
    try (destruct (insert_mood _ _ _ _ _ _) as [[[]|e] d']);
    try (destruct (update_mood _ _ _ _ _) as [[[]|e] d']);
    cbn; auto.
Qed.

(** X13: saving a mood and coming back is a round trip.  With every
    request delivered, a rating from 1 to 5, the time of the save inside the
    window the page queries for "today", and at most one entry of the
    user already in that window, the page mounted anew finds the saved
    entry: it shows the rating just saved and the reflection just saved,
    trimmed. *)
Theorem saved_mood_is_found_again (u : User) (mood : Z)
    (w : World MoodJournal.State) :
  MoodJournal.todayMood (ui w) = Some mood ->
  net w = [] ->
  valid_rating mood = true ->
  in_query_window (client_tz w) (server_tz w) (clock w) (clock w) = true ->
  (List.length (moods_between (id u) (server_tz w) (id u)
                  (today_of w, T00_00_00) (today_of w, T23_59_59) (db w))
   <= 1)%nat ->
  let w' := exec (MoodJournal.checkTodayMood (Some u))
              (reload (exec (MoodJournal.submitMoodEntry (Some u)) w)) in
  MoodJournal.todayMood (ui w') = Some mood
  /\ MoodJournal.reflection (ui w') = trim (MoodJournal.reflection (ui w)).
Proof.
  intros Hm Hnet Hv Hwin Hlen w'. subst w'.
  destruct (submitMoodEntry_frame u w Hm Hnet) as (N' & C' & Tz' & Stz').
  cbv zeta in *.
  set (w1 := exec (MoodJournal.submitMoodEntry (Some u)) w) in *.
  rewrite checkTodayMood_run
    by (unfold delivered, reload; cbn [net]; rewrite N'; exact I).
  unfold today_of, reload. cbn [ui db net clock client_tz server_tz].
  rewrite C', Tz', Stz'.
  assert (After : exists i owner t,
             moods_between (id u) (server_tz w) (id u)
               (format_date (client_tz w) (clock w), T00_00_00)
               (format_date (client_tz w) (clock w), T23_59_59) (db w1)
             = [mkMoodRow i owner mood (note_of (ui w)) t]).
  { unfold moods_between at 1. unfold own_moods.
    destruct (moods_between (id u) (server_tz w) (id u)
                (today_of w, T00_00_00) (today_of w, T23_59_59) (db w))
      as [|entry [|? ?]] eqn:B; [| |cbn in Hlen; lia].
    - subst w1. rewrite (submit_without_entry_inserts u w Hm Hnet Hv B).
      rewrite !filter_app.
      unfold moods_between, own_moods, today_of in B. rewrite B.
      cbn. rewrite Nat.eqb_refl. cbn.
      unfold in_query_window in Hwin. rewrite Hwin. eauto.
    - subst w1. rewrite (submit_with_entry_updates u w Hm Hnet Hv B).
      assert (Hin : In entry (moods_between (id u) (server_tz w) (id u)
                                (today_of w, T00_00_00)
                                (today_of w, T23_59_59) (db w))).
      { rewrite B. left. reflexivity. }
      unfold moods_between, own_moods in Hin.
      apply filter_In in Hin. destruct Hin as (Hin & _).
      apply filter_In in Hin. destruct Hin as (_ & Hown).
      apply andb_true_iff in Hown. destruct Hown as (Hown & _).
      set (f := fun m : MoodRow =>
                  if mood_targeted (id u) (m_id entry) m
                  then mkMoodRow (m_id m) (m_user_id m) mood (note_of (ui w))
                                 (m_created_at m)
                  else m).
      assert (K1 : forall (p : MoodRow -> bool) l,
                 (forall m, p (f m) = p m) ->
                 filter p (map f l) = map f (filter p l)).
      { intros p l Hp. induction l as [|x l IH]; cbn; [reflexivity|].
        rewrite Hp. destruct (p x); cbn; rewrite IH; reflexivity. }
      rewrite !K1.
      + unfold moods_between, own_moods, today_of in B. rewrite B.
        cbn [map]. subst f. cbn beta. unfold mood_targeted.
        rewrite Nat.eqb_refl, Hown. cbn [andb]. eauto.
      + intros m. subst f. cbn beta.
        destruct (mood_targeted (id u) (m_id entry) m); reflexivity.
      + intros m. subst f. cbn beta.
        destruct (mood_targeted (id u) (m_id entry) m); reflexivity. }
  destruct After as (i & owner & t & ->).
  unfold note_of. rewrite shown_after_save. split; reflexivity.
Qed.

Lemma saved_mood_is_found_again_witness :
  MoodJournal.todayMood
    (ui (exec (MoodJournal.checkTodayMood (Some late_user))
           (reload (exec (MoodJournal.submitMoodEntry (Some late_user))
                         calm_world))))
  = Some 4
  /\ MoodJournal.reflection
       (ui (exec (MoodJournal.checkTodayMood (Some late_user))
              (reload (exec (MoodJournal.submitMoodEntry (Some late_user))
                            calm_world))))
     = [99; 97; 108; 109]%N.
Proof.
  refine (@saved_mood_is_found_again late_user 4 calm_world
            eq_refl eq_refl eq_refl eq_refl _).
  vm_compute. lia.
Defined.

(* ----------------------------------------------------------------- *)
(** ** The analytics page and the dashboard: what the numbers add up to *)

Lemma fetchAnalyticsData_shape (u : User) (w : World Analytics.State) :
  exists (hs : response (list HabitRow))
         (cs : response (list CompletionWithHabit)),
    ui (exec (Analytics.fetchAnalyticsData (Some u)) w)
    = Analytics.setLoading false
        (Analytics.setAnalyticsData
           (Analytics.mkAnalyticsData
              (map (fun date =>
                      Analytics.mkDayProgress date
                        (Z.of_nat
                           (List.length
                              (filter (fun c =>
                                         format_date (client_tz w)
                                           (hc_completed_at (completion_row c))
                                         =? date)
                                      (data_or_empty cs))))
                        (length_or_0 hs))
                   (Analytics.eachDayOfInterval
                      (format_date (client_tz w)
                         (subDays (clock w)
                            (Analytics.days_of
                               (Analytics.timeRange (ui w)))))
                      (format_date (client_tz w) (clock w))))
              (map (fun kv => Analytics.mkCategorySlice (fst kv) (snd kv)
                                (Analytics.getCategoryColor (fst kv)))
                   (fold_left (fun m c =>
                                 Analytics.count_in (Analytics.category_of c) m)
                              (data_or_empty cs) []))
              []
              (Analytics.rate (length_or_0 hs) (length_or_0 cs)
                 (Analytics.days_of (Analytics.timeRange (ui w))))
              12
              (length_or_0 cs))
           (ui w)).
Proof.
  unfold Analytics.fetchAnalyticsData, exec.
  rewrite bind_run. cbn [getState fst snd].
  rewrite bind_run. cbn [timeZone fst snd].
  rewrite bind_run. cbn [new_Date fst snd].
  rewrite bind_run.
  destruct (supabase_cases (A := list HabitRow) (SelectActiveHabits (id u))
              (fun _ _ => select_active_habits (id u) (id u)) w)
    as [(m & _ & E)|(_ & E)]; rewrite E; cbn [fst snd];
    rewrite bind_run;
    match goal with
    | |- context [supabase ?r ?run ?w0] =>
        destruct (supabase_cases (A := list CompletionWithHabit) r run w0)
          as [(m' & _ & E')|(_ & E')]; rewrite E'; cbn [fst snd]
    end;
    do 2 eexists; reflexivity.
Qed.

Lemma count_in_total (category : string) (m : list (string * Z)) :
  fold_right (fun kv acc => snd kv + acc) 0 (Analytics.count_in category m)
  = fold_right (fun kv acc => snd kv + acc) 0 m + 1.
Proof.
  induction m as [|[k v] m IH]; cbn; [reflexivity|].
  destruct (String.eqb k category); cbn; lia.
Qed.

Lemma count_in_keys (category : string) (m : list (string * Z)) :
  map fst (Analytics.count_in category m)
  = if existsb (fun k => String.eqb k category) (map fst m)
    then map fst m else map fst m ++ [category].
Proof.
  induction m as [|[k v] m IH]; cbn; [reflexivity|].
  destruct (String.eqb k category); cbn; [reflexivity|].
  rewrite IH. destruct (existsb _ (map fst m)); reflexivity.
Qed.

Lemma count_in_NoDup (category : string) (m : list (string * Z)) :
  NoDup (map fst m) -> NoDup (map fst (Analytics.count_in category m)).
Proof.
  intros H. rewrite count_in_keys.
  destruct (existsb _ (map fst m)) eqn:E; [exact H|].
  apply NoDup_snoc; [exact H|].
  intros Hin.
  assert (existsb (fun k => String.eqb k category) (map fst m) = true).
  { apply existsb_exists. exists category. split; [exact Hin|].
    apply String.eqb_refl. }
  congruence.
Qed.

Lemma count_in_positive (category : string) (m : list (string * Z)) :
  Forall (fun kv => 1 <= snd kv) m ->
  Forall (fun kv => 1 <= snd kv) (Analytics.count_in category m).
Proof.
  induction 1 as [|[k v] m H F IH]; cbn.
  - repeat constructor. cbn. lia.
  - destruct (String.eqb k category); constructor; cbn in *;
      try assumption; lia.
Qed.

Lemma category_map_invariant (cs : list CompletionWithHabit)
    (m0 : list (string * Z)) :
  NoDup (map fst m0) -> Forall (fun kv => 1 <= snd kv) m0 ->
  let m := fold_left (fun m c =>
                        Analytics.count_in (Analytics.category_of c) m)
                     cs m0 in
  fold_right (fun kv acc => snd kv + acc) 0 m
  = fold_right (fun kv acc => snd kv + acc) 0 m0 + Z.of_nat (List.length cs)
  /\ NoDup (map fst m) /\ Forall (fun kv => 1 <= snd kv) m.
Proof.
  revert m0. induction cs as [|c cs IH]; intros m0 Hn Hp; cbn.
  - split; [lia|]. auto.
  - destruct (IH (Analytics.count_in (Analytics.category_of c) m0)
                (@count_in_NoDup _ _ Hn) (@count_in_positive _ _ Hp))
      as (S1 & N1 & P1).
    cbv zeta in *. rewrite S1, count_in_total.
    split; [lia|]. auto.
Qed.

Lemma at_most_one_day (d : date) (days : list date) :
  NoDup days ->
  0 <= fold_right (fun day acc => (if d =? day then 1 else 0) + acc) 0 days
    <= 1.
Proof.
  induction 1 as [|x l Hx Hn IH]; cbn; [lia|].
  destruct (d =? x) eqn:E; [|lia].
  apply Z.eqb_eq in E. subst x.
  assert (Z0 : fold_right (fun day acc => (if d =? day then 1 else 0) + acc)
                 0 l = 0).
  { clear IH Hn. induction l as [|y l IHl]; cbn; [reflexivity|].
    destruct (d =? y) eqn:E.
    - apply Z.eqb_eq in E. subst y. exfalso. apply Hx. left. reflexivity.
    - rewrite IHl; [reflexivity|]. intros H. apply Hx. right. exact H. }
  lia.
Qed.

Lemma bars_at_most_all {A} (date_of : A -> date) (target : Z)
    (cs : list A) (days : list date) :
  NoDup days ->
  bars_total
    (map (fun date =>
            Analytics.mkDayProgress date
              (Z.of_nat (List.length
                           (filter (fun c => date_of c =? date) cs)))
              target)
         days)
  <= Z.of_nat (List.length cs).
Proof.
  intros Hn. induction cs as [|c cs IH]; cbn [filter List.length].
  - unfold bars_total. induction days as [|d days IHd]; cbn; [lia|].
    apply NoDup_cons_iff in Hn. destruct Hn as (_ & Hn).
    specialize (IHd Hn). cbn in IHd. lia.
  - pose proof (@at_most_one_day (date_of c) _ Hn) as One.
    assert (Split :
      bars_total
        (map (fun date =>
                Analytics.mkDayProgress date
                  (Z.of_nat
                     (List.length
                        (if date_of c =? date
                         then c :: filter (fun c0 => date_of c0 =? date) cs
                         else filter (fun c0 => date_of c0 =? date) cs)))
                  target)
             days)
      = fold_right (fun day acc =>
                      (if date_of c =? day then 1 else 0) + acc) 0 days
        + bars_total
            (map (fun date =>
                    Analytics.mkDayProgress date
                      (Z.of_nat
                         (List.length
                            (filter (fun c0 => date_of c0 =? date) cs)))
                      target)
                 days)).
    { clear. unfold bars_total. induction days as [|d days IHd]; cbn;
        [reflexivity|].
      rewrite IHd. destruct (date_of c =? d); cbn [List.length]; lia. }
    rewrite Split. lia.
Qed.

Lemma eachDayOfInterval_NoDup (start end_ : date) :
  NoDup (Analytics.eachDayOfInterval start end_).
Proof.
  unfold Analytics.eachDayOfInterval.
  apply Finite.Injective_map_NoDup; [|apply seq_NoDup].
  intros i j H. lia.
Qed.

Lemma days_of_positive (timeRange : string) :
  Analytics.days_of timeRange = 7 \/ Analytics.days_of timeRange = 30
  \/ Analytics.days_of timeRange = 90.
Proof.
  unfold Analytics.days_of.
  destruct (String.eqb timeRange "7days"); [auto|].
  destruct (String.eqb timeRange "30days"); auto.
Qed.

(** X14: what the analytics page shows adds up, whatever the backend holds
    and whether or not the two requests succeed.  The slices of the
    category chart have distinct names, each counts at least one
    completion, and together they count exactly [totalCompletions].  The
    bar chart has one bar more than the number of days of the range (8, 31
    or 91), and its bars together count at most [totalCompletions]. *)
Theorem analytics_add_up (u : User) (w : World Analytics.State) :
  let a := Analytics.analyticsData
             (ui (exec (Analytics.fetchAnalyticsData (Some u)) w)) in
  slices_total (Analytics.categoryBreakdown a) = Analytics.totalCompletions a
  /\ NoDup (map Analytics.name (Analytics.categoryBreakdown a))
  /\ Forall (fun s => 1 <= Analytics.value s
                      /\ Analytics.color s
                         = Analytics.getCategoryColor (Analytics.name s))
            (Analytics.categoryBreakdown a)
  /\ Z.of_nat (List.length (Analytics.weeklyProgress a))
     = Analytics.days_of (Analytics.timeRange (ui w)) + 1
  /\ bars_total (Analytics.weeklyProgress a) <= Analytics.totalCompletions a.
Proof.
  destruct (fetchAnalyticsData_shape u w) as (hs & cs & E).
  cbv zeta. rewrite E.
  cbn [Analytics.analyticsData Analytics.setLoading Analytics.setAnalyticsData
       Analytics.categoryBreakdown Analytics.totalCompletions
       Analytics.weeklyProgress].
  destruct (@category_map_invariant (data_or_empty cs) [] (NoDup_nil _)
              (Forall_nil _)) as (S1 & N1 & P1).
  cbv zeta in *.
  set (m := fold_left _ (data_or_empty cs) []) in *.
  assert (Len : Z.of_nat (List.length (data_or_empty cs)) = length_or_0 cs).
  { destruct cs; reflexivity. }
  split; [|split; [|split; [|split]]].
  - rewrite <- Len. cbn in S1. rewrite <- S1.
    unfold slices_total. clear. induction m as [|[k v] m IH]; cbn;
      [reflexivity|]. rewrite IH. reflexivity.
  - rewrite map_map. cbn. exact N1.
  - apply Forall_forall. intros s Hs. apply in_map_iff in Hs.
    destruct Hs as (kv & <- & Hkv). cbn. rewrite Forall_forall in P1.
    split; [exact (P1 kv Hkv)|reflexivity].
  - rewrite length_map. unfold Analytics.eachDayOfInterval.
    rewrite length_map, length_seq.
    assert (D : format_date (client_tz w)
                  (subDays (clock w)
                     (Analytics.days_of (Analytics.timeRange (ui w))))
                = format_date (client_tz w) (clock w)
                  - Analytics.days_of (Analytics.timeRange (ui w))).
    { unfold format_date, subDays, DAY.
      replace (clock w
               - Analytics.days_of (Analytics.timeRange (ui w)) * 86400000
               + client_tz w)
        with (clock w + client_tz w
              + (- Analytics.days_of (Analytics.timeRange (ui w)))
                * 86400000) by lia.
      rewrite Z.div_add by lia. lia. }
    rewrite D.
    destruct (days_of_positive (Analytics.timeRange (ui w))) as [P|[P|P]];
      rewrite P; lia.
  - rewrite <- Len.
    apply (bars_at_most_all
             (fun c => format_date (client_tz w)
                         (hc_completed_at (completion_row c)))).
    apply eachDayOfInterval_NoDup.
Qed.

Example analytics_of_a_borrowed_habit :
  map (fun s => (Analytics.name s, Analytics.value s))
      (Analytics.categoryBreakdown
         (Analytics.analyticsData
            (ui (exec (Analytics.fetchAnalyticsData (Some late_user))
                      analytics_world))))
  = [("Study"%string, 1); ("Other"%string, 2)].
Proof. vm_compute. reflexivity. Qed.

(** *** The dashboard *)

Lemma supabase_read {V A} (r : request)
    (run : instant -> Z -> Db -> response A * Db) (w : World V) :
  read_only run ->
  exists o,
    snd (supabase r run w) = after_request w (db w) r o
    /\ (forall msg rest, net w = Some msg :: rest ->
                         fst (supabase r run w) = Err (NetworkError msg))
    /\ (delivered w ->
        fst (supabase r run w) = fst (run (clock w) (server_tz w) (db w))).
Proof.
  intros RO.
  destruct (supabase_cases r run w) as [(m & N & E)|(D & E)]; rewrite E;
    cbn [fst snd].
  - exists (Some (NetworkError m)). split; [reflexivity|]. split.
    + intros msg rest N'. rewrite N' in N. inversion N. reflexivity.
    + intros D. exfalso. unfold delivered in D. rewrite N in D. exact D.
  - rewrite RO. eexists. split; [reflexivity|]. split; [|reflexivity].
    intros msg rest N. exfalso. unfold delivered in D. rewrite N in D.
    exact D.
Qed.

Lemma fetchDashboardData_run (u : User) (w : World Dashboard.State) :
  exists (hs : response (list HabitRow)) (tc wc : response (list CompletionRow))
         (rh : response (list Habit)) o1 o2 o3 o4,
    exec (Dashboard.fetchDashboardData (Some u)) w
    = mkWorld
        (Dashboard.mkState
           (Dashboard.mkStats (length_or_0 hs) (length_or_0 tc) 7
              (Math_round
                 (PrimFloat.mul
                    (PrimFloat.div (of_Z (length_or_0 wc)) (of_Z 7))
                    (of_Z 100))))
           (data_or_empty rh) false)
        (db w) (tl (tl (tl (tl (net w))))) (clock w) (client_tz w)
        (server_tz w)
        (trace w
         ++ [Request (SelectActiveHabits (id u)) o1;
             Request (SelectCompletionsBetween (id u)
                        (today_of w, T00_00_00) (today_of w, T23_59_59)) o2;
             Request (SelectCompletionsBetween (id u)
                        (startOfWeek (today_of w), T00_00_00)
                        (endOfWeek (today_of w), T23_59_59)) o3;
             Request (SelectRecentHabits (id u)) o4])
    /\ (forall m1 m2 m3 m4 rest,
          net w = Some m1 :: Some m2 :: Some m3 :: Some m4 :: rest ->
          hs = Err (NetworkError m1) /\ tc = Err (NetworkError m2)
          /\ wc = Err (NetworkError m3) /\ rh = Err (NetworkError m4))
    /\ (net w = [] ->
        hs = Ok (active_habits_of (id u) (id u) (db w))
        /\ tc = fst (select_completions_between (id u) (server_tz w) (id u)
                       (today_of w, T00_00_00) (today_of w, T23_59_59)
                       (db w))
        /\ rh = fst (select_recent_habits (id u) (id u) (db w))).
Proof.
  unfold Dashboard.fetchDashboardData, exec.
  rewrite bind_run.
  destruct (@supabase_read Dashboard.State _ (SelectActiveHabits (id u))
              (fun _ _ => select_active_habits (id u) (id u)) w)
    as (o1 & E1 & L1 & D1); [intros ? ? ?; reflexivity|].
  rewrite E1. set (hs := fst (supabase _ _ w)) in *.
  rewrite bind_run. cbn [today fst snd after_request client_tz clock].
  fold (today_of w). rewrite bind_run.
  match goal with
  | |- context [supabase ?r ?run ?w0] =>
      destruct (@supabase_read Dashboard.State _ r run w0)
        as (o2 & E2 & L2 & D2); [intros ? ? ?; reflexivity|];
      rewrite E2; set (tc := fst (supabase r run w0)) in *
  end.
  rewrite bind_run.
  match goal with
  | |- context [supabase ?r ?run ?w0] =>
      destruct (@supabase_read Dashboard.State _ r run w0)
        as (o3 & E3 & L3 & D3); [intros ? ? ?; reflexivity|];
      rewrite E3; set (wc := fst (supabase r run w0)) in *
  end.
  rewrite bind_run.
  match goal with
  | |- context [supabase ?r ?run ?w0] =>
      destruct (@supabase_read Dashboard.State _ r run w0)
        as (o4 & E4 & L4 & D4); [intros ? ? ?; reflexivity|];
      rewrite E4; set (rh := fst (supabase r run w0)) in *
  end.
  exists hs, tc, wc, rh, o1, o2, o3, o4.
  split; [|split].
  - cbn. rewrite <- !app_assoc. reflexivity.
  - intros m1 m2 m3 m4 rest N.
    split; [exact (L1 _ _ N)|].
    split; [apply (L2 m2 (Some m3 :: Some m4 :: rest)); cbn; rewrite N;
            reflexivity|].
    split; [apply (L3 m3 (Some m4 :: rest)); cbn; rewrite N; reflexivity|].
    apply (L4 m4 rest); cbn; rewrite N; reflexivity.
  - intros N. split; [|split].
    + rewrite D1 by (unfold delivered; rewrite N; exact I). reflexivity.
    + rewrite D2 by (unfold delivered; cbn; rewrite N; exact I). reflexivity.
    + rewrite D4 by (unfold delivered; cbn; rewrite N; exact I). reflexivity.
Qed.

(** X15: the dashboard never reports a failure.  Whatever the backend
    holds and whatever the transport does, loading it sends its four
    requests, shows no toast, writes no console line, writes nothing to the
    tables and clears the spinner.  With all four requests lost it shows 0
    habits, 0 completed today, 0 % for the week and an empty list. *)
Theorem dashboard_fails_silently (u : User) (w : World Dashboard.State) :
  let w' := exec (Dashboard.fetchDashboardData (Some u)) w in
  (exists o1 o2 o3 o4,
      trace w'
      = trace w
        ++ [Request (SelectActiveHabits (id u)) o1;
            Request (SelectCompletionsBetween (id u)
                       (today_of w, T00_00_00) (today_of w, T23_59_59)) o2;
            Request (SelectCompletionsBetween (id u)
                       (startOfWeek (today_of w), T00_00_00)
                       (endOfWeek (today_of w), T23_59_59)) o3;
            Request (SelectRecentHabits (id u)) o4])
  /\ db w' = db w
  /\ Dashboard.loading (ui w') = false
  /\ (forall m1 m2 m3 m4 rest,
        net w = Some m1 :: Some m2 :: Some m3 :: Some m4 :: rest ->
        ui w' = Dashboard.mkState (Dashboard.mkStats 0 0 7 0) [] false).
Proof.
  destruct (fetchDashboardData_run u w)
    as (hs & tc & wc & rh & o1 & o2 & o3 & o4 & E & Lost & _).
  cbv zeta. rewrite E. cbn [trace db ui Dashboard.loading].
  split; [eauto|]. split; [reflexivity|]. split; [reflexivity|].
  intros m1 m2 m3 m4 rest N.
  destruct (Lost _ _ _ _ _ N) as (-> & -> & -> & ->).
  vm_compute. reflexivity.
Qed.

Lemma dashboard_fails_silently_witness :
  ui (exec (Dashboard.fetchDashboardData (Some late_user)) offline_dashboard)
  = Dashboard.mkState (Dashboard.mkStats 0 0 7 0) [] false.
Proof.
  exact (proj2 (proj2 (proj2
           (dashboard_fails_silently late_user offline_dashboard)))
           _ _ _ _ _ eq_refl).
Defined.

Lemma complete_iter_frame (u : User) (h : uuid) (n : nat)
    (w : World HabitsManager.State) :
  net w = [] ->
  (exists r, In r (habits (db w)) /\ h_id r = h) ->
  let wn := Nat.iter n (exec (HabitsManager.completeHabit (Some u) h)) w in
  net wn = [] /\ clock wn = clock w /\ client_tz wn = client_tz w
  /\ server_tz wn = server_tz w /\ habits (db wn) = habits (db w)
  /\ habit_completions (db wn)
     = habit_completions (db w)
       ++ map (fun k => done_row u h (clock w) (next_uuid (db w) + k)%nat)
              (seq 0 n).
Proof.
  intros N Ex. cbv zeta.
  assert (H : net (Nat.iter n (exec (HabitsManager.completeHabit (Some u) h)) w) = []
              /\ clock (Nat.iter n (exec (HabitsManager.completeHabit (Some u) h)) w) = clock w
              /\ client_tz (Nat.iter n (exec (HabitsManager.completeHabit (Some u) h)) w) = client_tz w
              /\ server_tz (Nat.iter n (exec (HabitsManager.completeHabit (Some u) h)) w) = server_tz w
              /\ habits (db (Nat.iter n (exec (HabitsManager.completeHabit (Some u) h)) w)) = habits (db w)
              /\ next_uuid (db (Nat.iter n (exec (HabitsManager.completeHabit (Some u) h)) w))
                 = (next_uuid (db w) + n)%nat
              /\ habit_completions (db (Nat.iter n (exec (HabitsManager.completeHabit (Some u) h)) w))
                 = habit_completions (db w)
                   ++ map (fun k => done_row u h (clock w)
                                      (next_uuid (db w) + k)%nat)
                          (seq 0 n)).
  { induction n as [|n IH].
    - cbn. rewrite Nat.add_0_r, app_nil_r. auto 10.
    - destruct IH as (N' & C' & T' & S' & H' & U' & L').
      rewrite Nat.iter_succ. rewrite completeHabit_run;
        [|exact N'|rewrite H'; exact Ex].
      cbn [net clock client_tz server_tz db habits next_uuid
           habit_completions bump_uuid set_habit_completions].
      rewrite C', H', U', L'.
      do 5 (split; [assumption || reflexivity|]).
      split; [lia|].
      rewrite seq_S, map_app, <- app_assoc. reflexivity. }
  intuition.
Qed.

Lemma clicks_in_window (u : User) (h : uuid) (t lo hi : Z) (k0 s n : nat) :
  (lo <=? t) && (t <? hi) = true ->
  List.length
    (filter (fun c => (lo <=? hc_completed_at c) && (hc_completed_at c <? hi))
       (filter (fun c => Nat.eqb (hc_user_id c) (id u)
                         && Nat.eqb (hc_user_id c) (id u))
          (map (fun k => done_row u h t (k0 + k)%nat) (seq s n))))
  = n.
Proof.
  intros Win. revert s. induction n as [|n IH]; intros s; [reflexivity|].
  cbn [seq map]. unfold done_row at 1. cbn [filter hc_user_id].
  rewrite Nat.eqb_refl. cbn [andb]. cbn [filter hc_completed_at].
  rewrite Win. cbn [List.length]. rewrite IH. reflexivity.
Qed.

(** X16: the dashboard counts clicks, not habits.  After n clicks on
    "Mark Done" for one habit, all delivered and inside the window the
    dashboard queries for "today", "Today's Progress" has grown by n while
    the number of habits is what it was: it can read 3/1. *)
Theorem dashboard_counts_every_click (u : User) (h : uuid) (n : nat)
    (w : World HabitsManager.State) :
  net w = [] ->
  (exists r, In r (habits (db w)) /\ h_id r = h) ->
  in_query_window (client_tz w) (server_tz w) (clock w) (clock w) = true ->
  let clicked := Nat.iter n (exec (HabitsManager.completeHabit (Some u) h)) w in
  let before := exec (Dashboard.fetchDashboardData (Some u))
                     (dashboard_over w) in
  let after := exec (Dashboard.fetchDashboardData (Some u))
                    (dashboard_over clicked) in
  Dashboard.todayCompleted (Dashboard.stats (ui after))
  = Dashboard.todayCompleted (Dashboard.stats (ui before)) + Z.of_nat n
  /\ Dashboard.totalHabits (Dashboard.stats (ui after))
     = Dashboard.totalHabits (Dashboard.stats (ui before)).
Proof.
  intros N Ex Win clicked before after.
  destruct (@complete_iter_frame u h n w N Ex) as (N' & C' & T' & S' & H' & L').
  cbv zeta in *. fold clicked in N', C', T', S', H', L'.
  destruct (fetchDashboardData_run u (dashboard_over w))
    as (hs & tc & wc & rh & o1 & o2 & o3 & o4 & E & _ & Del).
  destruct (fetchDashboardData_run u (dashboard_over clicked))
    as (hs' & tc' & wc' & rh' & o1' & o2' & o3' & o4' & E' & _ & Del').
  subst before after. rewrite E, E'.
  cbn [ui Dashboard.stats Dashboard.todayCompleted Dashboard.totalHabits].
  destruct (Del N) as (-> & -> & _). destruct (Del' N') as (-> & -> & _).
  unfold today_of, dashboard_over.
  cbn [db clock client_tz server_tz fst select_completions_between
       length_or_0].
  rewrite C', T', S'.
  unfold active_habits_of, own_completions. rewrite H', L'.
  split; [|reflexivity].
  rewrite !filter_app, !length_app, Nat2Z.inj_add. f_equal. f_equal.
  unfold in_query_window in Win.
  apply clicks_in_window. exact Win.
Qed.

Lemma dashboard_counts_every_click_witness :
  Dashboard.todayCompleted
    (Dashboard.stats
       (ui (exec (Dashboard.fetchDashboardData (Some late_user))
              (dashboard_over
                 (Nat.iter 3
                    (exec (HabitsManager.completeHabit (Some late_user) 0%nat))
                    (morning_world HabitsManager.init))))))
  = Dashboard.todayCompleted
      (Dashboard.stats
         (ui (exec (Dashboard.fetchDashboardData (Some late_user))
                (dashboard_over (morning_world HabitsManager.init)))))
    + 3.
Proof.
  refine (proj1 (@dashboard_counts_every_click late_user 0%nat 3
                   (morning_world HabitsManager.init) eq_refl _ eq_refl)).
  eexists. split; [left; reflexivity|reflexivity].
Defined.

(* ----------------------------------------------------------------- *)
(** ** Challenges: joining and leaving *)

Lemma joinChallenge_run (u : User) (c : uuid) (w : World Challenges.State) :
  net w = [] ->
  existsb (participates c (id u)) (challenge_participants (db w)) = false ->
  existsb (fun x => Nat.eqb (c_id x) c) (challenges (db w)) = true ->
  exec (Challenges.joinChallenge (Some u) c) w
  = mkWorld
      (Challenges.setMyParticipations
         (fetched_participations u (db w) ++ [c]) (ui w))
      (bump_uuid 1
         (set_challenge_participants
            (challenge_participants (db w)
             ++ [mkParticipantRow (next_uuid (db w)) c (id u) (clock w)])
            (db w)))
      [] (clock w) (client_tz w) (server_tz w)
      (trace w
       ++ [Request (InsertParticipant c (id u)) None;
           toast_success "Joined challenge successfully! ðŸŽ‰";
           Request (SelectParticipations (id u)) None]).
Proof.
  intros N Hnew Hex.
  destruct w as [v d n t ctz stz tr].
  cbn [ui db net clock client_tz server_tz] in *. subst n.
  unfold exec, Challenges.joinChallenge, Challenges.fetchMyParticipations,
    bind, supabase, insert_participant, select_participations, emit,
    setState.
  cbn [ui db net clock client_tz server_tz fst snd tl].
  rewrite Nat.eqb_refl, Hnew, Hex.
  cbn [negb ui db net clock client_tz server_tz fst snd tl error_of].
  unfold fetched_participations.
  cbn [challenge_participants bump_uuid set_challenge_participants].
  rewrite filter_app, map_app. cbn [filter cp_user_id].
  rewrite Nat.eqb_refl. cbn [map cp_challenge_id trace].
  rewrite <- !app_assoc. reflexivity.
Qed.

Lemma isParticipating_In (s : Challenges.State) (c : uuid) :
  Challenges.isParticipating s c = true
  <-> In c (Challenges.myParticipations s).
Proof.
  unfold Challenges.isParticipating. rewrite existsb_exists. split.
  - intros (x & Hin & E). apply Nat.eqb_eq in E. subst x. exact Hin.
  - intros Hin. exists c. split; [exact Hin|apply Nat.eqb_refl].
Qed.

(** X17: joining looks at nothing but the challenge's existence and the
    user's own participation.  With the requests delivered, a challenge row
    of that id in the table and no participation of the user in it, the join
    succeeds and adds exactly one row for (challenge, user), whatever the
    challenge's [max_participants], [is_active] and dates are and however
    many participants it has; the page then shows the user as
    participating. *)
Theorem join_ignores_capacity (u : User) (c : uuid)
    (w : World Challenges.State) :
  net w = [] ->
  (exists x, In x (challenges (db w)) /\ c_id x = c) ->
  (forall p, In p (challenge_participants (db w)) ->
             cp_challenge_id p = c -> cp_user_id p <> id u) ->
  let w' := exec (Challenges.joinChallenge (Some u) c) w in
  challenge_participants (db w')
  = challenge_participants (db w)
    ++ [mkParticipantRow (next_uuid (db w)) c (id u) (clock w)]
  /\ challenges (db w') = challenges (db w)
  /\ Challenges.isParticipating (ui w') c = true
  /\ trace w'
     = trace w
       ++ [Request (InsertParticipant c (id u)) None;
           toast_success "Joined challenge successfully! ðŸŽ‰";
           Request (SelectParticipations (id u)) None].
Proof.
  intros N (x & Hx & Hc) Hnew w'. subst w'.
  rewrite joinChallenge_run; [|exact N| |].
  - cbn [db ui trace challenge_participants challenges bump_uuid
         set_challenge_participants].
    split; [reflexivity|]. split; [reflexivity|]. split; [|reflexivity].
    apply isParticipating_In. cbn. apply in_or_app. right. left. reflexivity.
  - destruct (existsb _ (challenge_participants (db w))) eqn:E;
      [|reflexivity].
    apply existsb_exists in E. destruct E as (p & Hp & E).
    unfold participates in E. apply andb_true_iff in E.
    destruct E as (E1 & E2). apply Nat.eqb_eq in E1, E2.
    exfalso. exact (Hnew p Hp E1 E2).
  - apply existsb_exists. exists x. split; [exact Hx|].
    apply Nat.eqb_eq. exact Hc.
Qed.

Lemma join_ignores_capacity_witness :
  map (fun p => (cp_challenge_id p, cp_user_id p))
      (challenge_participants
         (db (exec (Challenges.joinChallenge (Some late_user) 7%nat)
                   full_challenge)))
  = [(7%nat, 2%nat); (7%nat, 1%nat)].
Proof.
  refine (f_equal (map (fun p => (cp_challenge_id p, cp_user_id p)))
            (proj1 (@join_ignores_capacity late_user 7%nat full_challenge
                      eq_refl _ _))).
  - eexists. split; [left; reflexivity|reflexivity].
  - intros p [<-|[]] _. discriminate.
Defined.

(** X18: joining and then leaving is a round trip.  Under the conditions
    of a successful join, leaving afterwards removes exactly the row the join
    added: the table of participants is what it was before the join, the
    page no longer shows the user as participating, and both actions report
    success. *)
Theorem join_then_leave_is_a_round_trip (u : User) (c : uuid)
    (w : World Challenges.State) :
  net w = [] ->
  (exists x, In x (challenges (db w)) /\ c_id x = c) ->
  (forall p, In p (challenge_participants (db w)) ->
             cp_challenge_id p = c -> cp_user_id p <> id u) ->
  let w' := exec (Challenges.leaveChallenge (Some u) c)
              (exec (Challenges.joinChallenge (Some u) c) w) in
  challenge_participants (db w') = challenge_participants (db w)
  /\ Challenges.myParticipations (ui w') = fetched_participations u (db w)
  /\ Challenges.isParticipating (ui w') c = false
  /\ trace w'
     = trace w
       ++ [Request (InsertParticipant c (id u)) None;
           toast_success "Joined challenge successfully! ðŸŽ‰";
           Request (SelectParticipations (id u)) None;
           Request (DeleteParticipant c (id u)) None;
           toast_success "Left challenge successfully";
           Request (SelectParticipations (id u)) None].
Proof.
  intros N (x & Hx & Hc) Hnew w'. subst w'.
  assert (Hnone : existsb (participates c (id u))
                    (challenge_participants (db w)) = false).
  { destruct (existsb _ (challenge_participants (db w))) eqn:E;
      [|reflexivity].
    apply existsb_exists in E. destruct E as (p & Hp & E).
    unfold participates in E. apply andb_true_iff in E.
    destruct E as (E1 & E2). apply Nat.eqb_eq in E1, E2.
    exfalso. exact (Hnew p Hp E1 E2). }
  rewrite joinChallenge_run; [|exact N|exact Hnone|].
  2:{ apply existsb_exists. exists x. split; [exact Hx|].
      apply Nat.eqb_eq. exact Hc. }
  assert (Keep : filter (fun p => negb (participates c (id u) p
                                        && Nat.eqb (cp_user_id p) (id u)))
                   (challenge_participants (db w))
                 = challenge_participants (db w)).
  { apply forallb_filter_id. apply forallb_forall. intros p Hp.
    destruct (participates c (id u) p) eqn:E; [|reflexivity].
    exfalso.
    assert (T : existsb (participates c (id u))
                  (challenge_participants (db w)) = true).
    { apply existsb_exists. exists p. auto. }
    congruence. }
  unfold exec, Challenges.leaveChallenge, Challenges.fetchMyParticipations,
    bind, supabase, delete_participant, select_participations, emit,
    setState.
  cbn [ui db net clock client_tz server_tz fst snd tl error_of trace
       challenge_participants bump_uuid set_challenge_participants].
  rewrite filter_app, Keep. cbn [filter participates cp_challenge_id
                                 cp_user_id].
  unfold participates. cbn [cp_challenge_id cp_user_id].
  rewrite !Nat.eqb_refl. cbn [andb negb]. rewrite !app_nil_r.
  cbn [Challenges.myParticipations Challenges.setMyParticipations].
  split; [reflexivity|]. split; [reflexivity|]. split.
  - destruct (Challenges.isParticipating _ c) eqn:E; [|reflexivity].
    apply isParticipating_In in E. cbn in E.
    apply in_map_iff in E. destruct E as (p & E1 & E2).
    apply filter_In in E2. destruct E2 as (Hp & E2).
    apply Nat.eqb_eq in E2. exfalso. exact (Hnew p Hp E1 E2).
  - rewrite <- !app_assoc. reflexivity.
Qed.

Lemma join_then_leave_is_a_round_trip_witness :
  challenge_participants
    (db (exec (Challenges.leaveChallenge (Some late_user) 7%nat)
           (exec (Challenges.joinChallenge (Some late_user) 7%nat)
                 full_challenge)))
  = challenge_participants (db full_challenge).
Proof.
  refine (proj1 (@join_then_leave_is_a_round_trip late_user 7%nat
                   full_challenge eq_refl _ _)).
  - eexists. split; [left; reflexivity|reflexivity].
  - intros p [<-|[]] _. discriminate.
Defined.

(* ----------------------------------------------------------------- *)
(** ** Templates and the habit form: what a save stores *)

Lemma new_habits_length (now : instant) (i : uuid) (rows : list HabitInsert) :
  List.length (new_habits now i rows) = List.length rows.
Proof.
  revert i. induction rows as [|r rows IH]; intros i; cbn; [reflexivity|].
  rewrite IH. reflexivity.
Qed.

Lemma new_habits_titles (now : instant) (i : uuid) (rows : list HabitInsert) :
  map h_title (new_habits now i rows) = map hi_title rows.
Proof.
  revert i. induction rows as [|r rows IH]; intros i; cbn; [reflexivity|].
  rewrite IH. reflexivity.
Qed.

(** X19: applying a template checks nothing about what the user already
    has.  With the requests delivered, n applications of one template
    append n copies of its habits to the table, after the rows that were
    there, each copy with fresh consecutive ids: the table grows by n times
    the size of the template and the titles repeat n times. *)
Theorem template_is_added_each_time (u : User) (t : Templates.Template)
    (n : nat) (w : World Templates.State) :
  net w = [] ->
  let rows := Templates.habitsToCreate u t in
  let wn := Nat.iter n (exec (Templates.applyTemplate (Some u) t)) w in
  habits (db wn)
  = habits (db w)
    ++ List.concat (map (fun k =>
                      new_habits (clock w)
                        (next_uuid (db w) + k * List.length rows)%nat rows)
                   (seq 0 n))
  /\ List.length (habits (db wn))
     = (List.length (habits (db w))
        + n * List.length (Templates.template_habits t))%nat
  /\ map h_title (habits (db wn))
     = map h_title (habits (db w))
       ++ List.concat (repeat (map Templates.title (Templates.template_habits t))
                         n).
Proof.
  intros N rows wn.
  assert (H : net wn = [] /\ clock wn = clock w
              /\ next_uuid (db wn)
                 = (next_uuid (db w) + n * List.length rows)%nat
              /\ habits (db wn)
                 = habits (db w)
                   ++ List.concat (map (fun k =>
                                     new_habits (clock w)
                                       (next_uuid (db w)
                                        + k * List.length rows)%nat rows)
                                  (seq 0 n))).
  { subst wn. induction n as [|n IH].
    - cbn. rewrite Nat.add_0_r, app_nil_r. auto.
    - destruct IH as (N' & C' & U' & H').
      rewrite Nat.iter_succ.
      pose proof (applyTemplate_run u t
                    (Nat.iter n (exec (Templates.applyTemplate (Some u) t)) w))
        as R.
      cbv zeta in R. rewrite N' in R. rewrite R. fold rows.
      cbn [net clock db habits next_uuid bump_uuid set_habits tl].
      rewrite C', U', H'.
      split; [reflexivity|]. split; [reflexivity|]. split; [lia|].
      rewrite seq_S, map_app, concat_app, <- app_assoc. cbn [map List.concat].
      rewrite app_nil_r. reflexivity. }
  destruct H as (_ & _ & _ & H). rewrite H.
  assert (Lr : List.length rows = List.length (Templates.template_habits t)).
  { subst rows. unfold Templates.habitsToCreate. apply length_map. }
  split; [reflexivity|]. split.
  - rewrite length_app. f_equal. rewrite <- Lr.
    generalize (next_uuid (db w)) as k0. generalize 0%nat as s.
    clear. induction n as [|n IH]; intros s k0; cbn [seq map List.concat];
      [reflexivity|].
    rewrite length_app, new_habits_length, (IH (S s) k0). reflexivity.
  - rewrite map_app. f_equal.
    generalize (next_uuid (db w)) as k0. generalize 0%nat as s.
    clear. induction n as [|n IH]; intros s k0; cbn [seq map List.concat repeat];
      [reflexivity|].
    rewrite map_app, new_habits_titles, (IH (S s) k0). f_equal.
    subst rows. unfold Templates.habitsToCreate. rewrite map_map.
    reflexivity.
Qed.

Lemma template_is_added_each_time_witness :
  map h_title
      (habits (db (Nat.iter 2
                     (exec (Templates.applyTemplate (Some late_user)
                              Templates.exam_prep))
                     (mkWorld Templates.init empty_db [] late_now 0 0 []))))
  = (exam_prep_titles ++ exam_prep_titles)%list.
Proof.
  rewrite (proj2 (proj2 (@template_is_added_each_time late_user
                           Templates.exam_prep 2
                           (mkWorld Templates.init empty_db [] late_now 0 0 [])
                           eq_refl))).
  reflexivity.
Defined.




(** *** Whose midnight *)

(** X22: "today" of the mood journal is the client's date read in the
    server's zone.  With one entry of the user in the table and the request
    delivered, mounting the page finds the entry exactly when it was created
    from the client's local midnight, moved by the difference of the two
    zones, to one second before the day is over.  East of the server, what
    is saved in the first hours of the local day is not found. *)
Theorem today_is_read_in_the_servers_zone (u : User) (m : MoodRow)
    (w : World MoodJournal.State) :
  delivered w ->
  mood_entries (db w) = [m] ->
  m_user_id m = id u ->
  MoodJournal.todayMood (ui w) = None ->
  let shift := client_tz w - server_tz w in
  MoodJournal.todayMood (ui (exec (MoodJournal.checkTodayMood (Some u)) w))
  = Some (m_mood_rating m)
  <-> local_midnight (client_tz w) (clock w) + shift
      <= m_created_at m
      < local_midnight (client_tz w) (clock w) + shift + DAY - 1000.
Proof.
  intros D E Hu H0 shift. rewrite (@checkTodayMood_run u w D).
  unfold moods_between, own_moods. rewrite E.
  cbn [filter]. rewrite Hu, Nat.eqb_refl. cbn [andb filter fst snd].
  unfold today_of.
  destruct ((at_wall_clock (server_tz w)
               (format_date (client_tz w) (clock w)) T00_00_00
             <=? m_created_at m)
            && (m_created_at m
                <? at_wall_clock (server_tz w)
                     (format_date (client_tz w) (clock w)) T23_59_59)) eqn:B.
  - cbn. split; [intros _|reflexivity].
    apply andb_true_iff in B. destruct B as (B1 & B2).
    apply Z.leb_le in B1. apply Z.ltb_lt in B2.
    unfold local_midnight, at_wall_clock, T00_00_00, T23_59_59, DAY in *.
    subst shift. lia.
  - rewrite H0. split; [discriminate|]. intros R. exfalso.
    apply andb_false_iff in B.
    unfold local_midnight, at_wall_clock, T00_00_00, T23_59_59, DAY in *.
    subst shift.
    destruct B as [B|B]; [apply Z.leb_gt in B|apply Z.ltb_ge in B]; lia.
Qed.

Lemma today_is_read_in_the_servers_zone_witness :
  MoodJournal.todayMood
    (ui (exec (MoodJournal.checkTodayMood (Some late_user)) east_world))
  <> Some 4.
Proof.
  intros H.
  pose proof (proj1 (@today_is_read_in_the_servers_zone late_user
                       (mkMoodRow 0%nat 1%nat 4 None
                                  (20000 * DAY - 7200000 + 1800000))
                       east_world I eq_refl eq_refl eq_refl) H) as R.
  vm_compute in R. destruct R as (R & _). apply R. reflexivity.
Defined.

(** *** The five recent habits of the dashboard *)

Lemma In_firstn_sorted_filter_map (u : User) (d : Db) (habit : Habit) :
  In habit (data_or_empty (fst (select_recent_habits (id u) (id u) d))) ->
  exists row,
    habit = embed_completions (id u) d row
    /\ In row (habits d) /\ h_user_id row = id u /\ h_is_active row = true
    /\ habit_completions_ habit <> [].
Proof.
  unfold select_recent_habits. cbn [fst data_or_empty]. intros H.
  apply In_firstn_In in H. apply In_order_desc in H.
  apply filter_In in H. destruct H as (H & Hc).
  apply in_map_iff in H. destruct H as (row & <- & Hrow).
  unfold active_habits_of in Hrow. apply filter_In in Hrow.
  destruct Hrow as (Hrow & C). rewrite !andb_true_iff, Nat.eqb_eq in C.
  exists row. split; [reflexivity|]. split; [exact Hrow|].
  split; [tauto|]. split; [tauto|].
  intros E. rewrite E in Hc. discriminate Hc.
Qed.

(** X21: the list of the dashboard holds at most five habits, all active
    habits of the signed-in user, each with at least one completion of the
    user, the most recently updated first.  A user who has habits but has
    completed none gets the empty list, for which the page says "No habits
    yet". *)
Theorem dashboard_lists_completed_habits_only (u : User)
    (w : World Dashboard.State) :
  net w = [] ->
  let shown := Dashboard.recentHabits
                 (ui (exec (Dashboard.fetchDashboardData (Some u)) w)) in
  (List.length shown <= 5)%nat
  /\ (forall habit, In habit shown ->
        In (habit_row habit) (habits (db w))
        /\ h_user_id (habit_row habit) = id u
        /\ h_is_active (habit_row habit) = true
        /\ exists c, In c (habit_completions (db w))
                     /\ hc_habit_id c = h_id (habit_row habit)
                     /\ hc_user_id c = id u)
  /\ newest_first (fun habit => h_updated_at (habit_row habit)) shown
  /\ ((forall c, In c (habit_completions (db w)) -> hc_user_id c <> id u) ->
      shown = []).
Proof.
  intros N shown. subst shown.
  destruct (fetchDashboardData_run u w)
    as (hs & tc & wc & rh & o1 & o2 & o3 & o4 & E & _ & Del).
  rewrite E. destruct (Del N) as (_ & _ & ->).
  cbn [ui Dashboard.recentHabits].
  assert (Each : forall habit,
             In habit (data_or_empty
                         (fst (select_recent_habits (id u) (id u) (db w)))) ->
             In (habit_row habit) (habits (db w))
             /\ h_user_id (habit_row habit) = id u
             /\ h_is_active (habit_row habit) = true
             /\ exists c, In c (habit_completions (db w))
                          /\ hc_habit_id c = h_id (habit_row habit)
                          /\ hc_user_id c = id u).
  { intros habit Hin.
    destruct (In_firstn_sorted_filter_map u (db w) habit Hin)
      as (row & -> & Hrow & Hu & Ha & Hc).
    cbn [habit_row]. repeat (split; [assumption|]).
    cbn [embed_completions habit_completions_] in Hc.
    destruct (completions_of (id u) row (db w)) as [|c rest] eqn:C;
      [contradiction|].
    assert (Hin' : In c (completions_of (id u) row (db w)))
      by (rewrite C; left; reflexivity).
    unfold completions_of in Hin'. apply filter_In in Hin'.
    destruct Hin' as (Hin' & B). apply andb_true_iff in B.
    destruct B as (B1 & B2). apply Nat.eqb_eq in B1, B2.
    exists c. auto. }
  split; [|split; [exact Each|split]].
  - unfold select_recent_habits. cbn [fst data_or_empty].
    apply firstn_le_length.
  - unfold select_recent_habits. cbn [fst data_or_empty].
    apply newest_first_firstn, order_desc_sorted.
  - intros Hnone.
    destruct (data_or_empty
                (fst (select_recent_habits (id u) (id u) (db w))))
      as [|habit rest] eqn:L; [reflexivity|].
    destruct (Each habit (or_introl eq_refl)) as (_ & _ & _ & c & Hc & _ & Hu).
    exfalso. exact (Hnone c Hc Hu).
Qed.

Lemma dashboard_lists_completed_habits_only_witness :
  map (fun habit => h_title (habit_row habit))
      (Dashboard.recentHabits
         (ui (exec (Dashboard.fetchDashboardData (Some late_user))
                   (morning_world Dashboard.init))))
  = ["Read 20 pages"%string]
  /\ (List.length
        (Dashboard.recentHabits
           (ui (exec (Dashboard.fetchDashboardData (Some late_user))
                     (morning_world Dashboard.init)))) <= 5)%nat.
Proof.
  split; [reflexivity|].
  exact (proj1 (@dashboard_lists_completed_habits_only late_user
                  (morning_world Dashboard.init) eq_refl)).
Defined.

Lemma completed_today_iff_witness :
  HabitsManager.isCompletedToday 0 late_now
    (mkHabit late_habit [] (Some [mkCompletionView late_stamp None]))
  = true.
Proof.
  apply (proj2 (completed_today_iff 0 late_now late_habit []
                  [mkCompletionView late_stamp None])).
  eexists. split; [left; reflexivity|].
  unfold in_today, local_midnight. vm_compute.
  split; [discriminate|reflexivity].
Defined.
